(** * Spike-sorting curation pipeline (nwb_datajoint.spikesorting)

    A shallow embedding of [spikesorting_curation.py] (and of the
    [SpikeSorting] table declaration of [spikesorting_sorting.py]) together
    with the properties of the curation ledger, of the automatic curation
    engine and of the finalization stage.

    Python values that flow through the code are kept in one small universe
    ([pyval]); a Python [dict] used as a DataJoint key or row is a
    [gmap string pyval]; the database, the folders written by spikeinterface
    and the JSON files form the explicit state [World], threaded through a
    state-and-exception monad [M].  Functionality of the repository that is
    not part of these two files, and of the external libraries, is taken as
    the record of parameters [Collaborators]. *)

From Stdlib Require Import ZArith String List.
From stdpp Require Import gmap strings list fin_maps pretty.

Local Open Scope string_scope.
Local Open Scope list_scope.
Local Open Scope Z_scope.

(** ** Python values *)

(** The exception classes that the code can raise or hand around. *)
Inductive exn_class : Set :=
  | Exception
  | NotImplementedError
  | KeyError
  | TypeError
  | AttributeError
  | IndexError
  | ValueError
  | OSError
  | DataJointError
  | DataError.

#[global] Instance exn_class_eq_dec : EqDecision exn_class.
Proof. solve_decision. Defined.

(** A spikeinterface sorting extractor: its units, each with its spike train
    (sample indices). *)
Record Sorting := mkSorting { spike_trains : list (Z * list Z) }.

#[global] Instance Sorting_eq_dec : EqDecision Sorting.
Proof. solve_decision. Defined.

(** A pandas frame indexed by unit id; what [.loc] and [[]] do on it belongs
    to [Collaborators]. *)
Definition DataFrame := list (Z * list (string * Z)).

Inductive pyval :=
  | VNone
  | VBool (b : bool)
  | VInt (n : Z)
  | VStr (s : string)
  | VLabels (d : gmap Z (list string))          (* {unit_id: [label, ...]} *)
  | VGroups (g : list (list Z))                 (* [[unit_id, ...], ...] *)
  | VMetrics (m : gmap string (gmap string Z))  (* {metric: {unit: value}} *)
  | VParams (p : gmap string Z)                 (* a parameter dict *)
  | VFrame (f : DataFrame)
  | VSorting (s : Sorting)
  | VRecording (name : string)
  | VInts (l : list Z)                          (* a list of unit ids *)
  | VStrs (l : list string)                     (* a list of strings *)
  | VTimes (t : list Z)                         (* a numpy array *)
  | VClass (c : exn_class)                      (* a class object *)
  | VTuple (a b : pyval).

#[global] Instance pyval_eq_dec : EqDecision pyval.
Proof. solve_decision. Defined.

(** A DataJoint key or row: a Python dict with string keys. *)
Abbreviation row := (gmap string pyval).

(** ** The database and the rest of the world *)

(** The tables the two files declare, and [SpikeSortingRecording], which
    they read. *)
Inductive table : Set :=
  | T_SpikeSortingRecording
  | T_SpikeSorterParameters
  | T_SpikeSortingSelection
  | T_SpikeSorting
  | T_Curation
  | T_WaveformParameters
  | T_WaveformSelection
  | T_Waveforms
  | T_MetricParameters
  | T_MetricSelection
  | T_QualityMetrics
  | T_AutomaticCurationParameters
  | T_AutomaticCurationSelection
  | T_AutomaticCuration
  | T_FinalizedSpikeSortingSelection
  | T_FinalizedSpikeSorting
  | T_Unit.

#[global] Instance table_eq_dec : EqDecision table.
Proof. solve_decision. Defined.

Definition table_code (t : table) : nat :=
  match t with
  | T_SpikeSortingRecording => 0 | T_SpikeSorterParameters => 1
  | T_SpikeSortingSelection => 2 | T_SpikeSorting => 3 | T_Curation => 4
  | T_WaveformParameters => 5 | T_WaveformSelection => 6 | T_Waveforms => 7
  | T_MetricParameters => 8 | T_MetricSelection => 9 | T_QualityMetrics => 10
  | T_AutomaticCurationParameters => 11 | T_AutomaticCurationSelection => 12
  | T_AutomaticCuration => 13 | T_FinalizedSpikeSortingSelection => 14
  | T_FinalizedSpikeSorting => 15 | T_Unit => 16
  end%nat.

Definition table_of_code (n : nat) : table :=
  match n with
  | 0 => T_SpikeSortingRecording | 1 => T_SpikeSorterParameters
  | 2 => T_SpikeSortingSelection | 3 => T_SpikeSorting | 4 => T_Curation
  | 5 => T_WaveformParameters | 6 => T_WaveformSelection | 7 => T_Waveforms
  | 8 => T_MetricParameters | 9 => T_MetricSelection | 10 => T_QualityMetrics
  | 11 => T_AutomaticCurationParameters | 12 => T_AutomaticCurationSelection
  | 13 => T_AutomaticCuration | 14 => T_FinalizedSpikeSortingSelection
  | 15 => T_FinalizedSpikeSorting | _ => T_Unit
  end%nat.

#[global] Instance table_countable : Countable table.
Proof.
  refine (inj_countable' table_code table_of_code _).
  intros t. destruct t; reflexivity.
Defined.

(** Something a parameter can be bound to: a value, a key dict or a table
    object ([self]). *)
Inductive pyobj :=
  | OVal (v : pyval)
  | ODict (d : row)
  | OTable (t : table).

Record World := mkWorld {
  db : gmap table (list row);            (* the rows of every table *)
  folders : gmap string pyval;           (* extractors saved by [save] *)
  json_files : gmap string (gmap string (gmap string Z));
                                         (* metrics files read by [json.load] *)
  environ : gmap string string;          (* [os.environ] *)
  analysis_files : list string;          (* analysis NWB files created *)
  uuid_draws : nat                       (* calls of [uuid.uuid4] so far *)
}.

#[global] Instance World_eq_dec : EqDecision World.
Proof. solve_decision. Defined.

Definition rows (w : World) (t : table) : list row := default [] (db w !! t).

Definition with_rows (t : table) (rs : list row) (w : World) : World :=
  mkWorld (<[t := rs]> (db w)) (folders w) (json_files w) (environ w)
          (analysis_files w) (uuid_draws w).

Definition with_folders (f : gmap string pyval) (w : World)
  : World :=
  mkWorld (db w) f (json_files w) (environ w) (analysis_files w) (uuid_draws w).

Definition with_analysis_files (l : list string) (w : World) : World :=
  mkWorld (db w) (folders w) (json_files w) (environ w) l (uuid_draws w).

Definition with_uuid_draws (n : nat) (w : World) : World :=
  mkWorld (db w) (folders w) (json_files w) (environ w) (analysis_files w) n.

(** ** Results and the monad of the code *)

Inductive result (A : Type) :=
  | Returned (a : A)
  | Raised (c : exn_class) (msg : string)
  | OutOfFuel.
Arguments Returned {A} a.
Arguments Raised {A} c msg.
Arguments OutOfFuel {A}.

#[global] Instance result_eq_dec {A} `{EqDecision A} : EqDecision (result A).
Proof. solve_decision. Defined.

Definition M (A : Type) : Type := World → result A * World.

#[global] Instance M_ret : MRet M := λ A a w, (Returned a, w).

#[global] Instance M_bind : MBind M := λ A B f m w,
  match m w with
  | (Returned a, w') => f a w'
  | (Raised c msg, w') => (Raised c msg, w')
  | (OutOfFuel, w') => (OutOfFuel, w')
  end.

Definition raise {A} (c : exn_class) (msg : string) : M A :=
  λ w, (Raised c msg, w).

Definition out_of_fuel {A} : M A := λ w, (OutOfFuel, w).

Definition get_world : M World := λ w, (Returned w, w).

Definition modify (f : World → World) : M unit := λ w, (Returned tt, f w).

(** A computation that does not touch the world. *)
Definition lift {A} (r : result A) : M A := λ w, (r, w).

(** [d[k]] on a dict with string keys. *)
Definition getitem (d : row) (k : string) : M pyval :=
  match d !! k with
  | Some v => mret v
  | None => raise KeyError k
  end.

(** Python truth value ([if v:], [not v]); frames and numpy arrays of more
    than one element refuse the test. *)
Definition truthy (v : pyval) : result bool :=
  match v with
  | VNone => Returned false
  | VBool b => Returned b
  | VInt n => Returned (negb (n =? 0))
  | VStr s => Returned (negb (String.eqb s ""))
  | VLabels d => Returned (negb (bool_decide (d = ∅)))
  | VGroups g => Returned (negb (bool_decide (g = [])))
  | VMetrics m => Returned (negb (bool_decide (m = ∅)))
  | VParams p => Returned (negb (bool_decide (p = ∅)))
  | VInts l => Returned (negb (bool_decide (l = [])))
  | VStrs l => Returned (negb (bool_decide (l = [])))
  | VTimes [] => Returned false
  | VTimes [x] => Returned (negb (x =? 0))
  | VTimes _ | VFrame _ => Raised ValueError "truth value is ambiguous"
  | VSorting _ | VRecording _ | VClass _ | VTuple _ _ => Returned true
  end.

(** [len(v)]; objects without [__len__] raise [TypeError]. *)
Definition py_len (v : pyval) : result nat :=
  match v with
  | VStr s => Returned (String.length s)
  | VLabels d => Returned (size d)
  | VGroups g => Returned (length g)
  | VMetrics m => Returned (size m)
  | VParams p => Returned (size p)
  | VInts l => Returned (length l)
  | VStrs l => Returned (length l)
  | VFrame f => Returned (length f)
  | VTimes t => Returned (length t)
  | VTuple _ _ => Returned 2%nat
  | VNone | VBool _ | VInt _ | VSorting _ | VRecording _ | VClass _ =>
      Raised TypeError "object has no len()"
  end.

(** [o[k]] for a string [k]. *)
Definition subscript (o : pyobj) (k : string) : M pyval :=
  match o with
  | ODict d => getitem d k
  | OVal (VMetrics m) =>
      match m !! k with
      | Some d => mret (VParams d)
      | None => raise KeyError k
      end
  | OVal (VParams p) =>
      match p !! k with
      | Some n => mret (VInt n)
      | None => raise KeyError k
      end
  | OVal (VLabels _) => raise KeyError k
  | OVal _ | OTable _ => raise TypeError "object is not subscriptable by a str"
  end.

(** ** Collaborators

    What the code calls and these files do not define: tables declared in
    other modules of the repository, helper methods defined elsewhere,
    pandas, pathlib, the NWB store and the random source of [uuid]. *)

Record Collaborators := {
  (* primary key of [SpikeSortingSelection], inherited by [SpikeSorting] *)
  SpikeSorting_pk : list string;
  (* heading of [SpikeSortingRecording] *)
  SpikeSortingRecording_pk : list string;
  SpikeSortingRecording_dependent : list string;
  (* [str(uuid.uuid4())] at the n-th call *)
  uuid4 : nat → string;
  (* [str(Path(a) / Path(b))] *)
  path_join : string → string → string;
  (* [repr] of a key, as an f-string prints it *)
  repr_key : row → string;
  (* [SpikeSortingRecording._get_recording_timestamps(recording)] *)
  _get_recording_timestamps : pyval → World → result pyval;
  (* [(SpikeSorting & key).fetch_nwb()[0]['units'].loc[units].iloc[0]['sort_interval']] *)
  fetch_sort_interval : row → list Z → World → result pyval;
  (* [(IntervalList & {'interval_list_name': name}).fetch1('valid_times')] *)
  IntervalList_valid_times : pyobj → World → result pyval;
  (* [timestamps[spike_times_in_samples]] *)
  array_take : pyobj → list Z → World → result pyval;
  (* [AnalysisNwbfile().create(nwb_file_name)]: the name of the new file *)
  AnalysisNwbfile_create : pyval → World → result string;
  (* [AnalysisNwbfile().add_units(...)]: [''] or the list of object ids *)
  AnalysisNwbfile_add_units :
    string → list (Z * pyval) → pyval → pyobj → pyobj → pyobj →
    World → result pyval;
  (* [frame.loc[units]] *)
  frame_loc : DataFrame → list Z → World → result DataFrame;
  (* [field in frame[unit_id]] and [frame[unit_id][field]] *)
  frame_contains : DataFrame → Z → string → World → result bool;
  frame_get : DataFrame → Z → string → World → result pyval
}.

(** Run a collaborator that reads the world. *)
Definition ask {A} (f : World → result A) : M A := λ w, (f w, w).

(** ** DataJoint

    A table is its declared heading and a list of rows.  Restriction by a
    dict compares the attributes of the heading that the dict has; [fetch1]
    wants exactly one row; [insert1] wants the primary key and every
    attribute without a default, values that fit the declared types of the
    columns, an existing row in each parent table and a primary key not yet
    in the table, and stores the attributes of the heading (filling in the
    defaults). *)

(** The declared type of a column. *)
Inductive column_type : Set :=
  | Varchar (n : nat)
  | Int
  | Float
  | Blob.

Module DataJoint.
Section WithCollaborators.
Context (ext : Collaborators).

Definition primary_key (t : table) : list string :=
  match t with
  | T_SpikeSortingRecording => SpikeSortingRecording_pk ext
  | T_SpikeSorterParameters => ["sorter"; "sorter_params_name"]
  | T_SpikeSortingSelection => SpikeSorting_pk ext
  | T_SpikeSorting => SpikeSorting_pk ext
  | T_Curation => "curation_id" :: SpikeSorting_pk ext
  | T_WaveformParameters => ["waveform_params_name"]
  | T_WaveformSelection | T_Waveforms =>
      "curation_id" :: SpikeSorting_pk ext ++ ["waveform_params_name"]
  | T_MetricParameters => ["metric_params_name"]
  | T_MetricSelection | T_QualityMetrics =>
      "curation_id" :: SpikeSorting_pk ext
        ++ ["waveform_params_name"; "metric_params_name"]
  | T_AutomaticCurationParameters => ["auto_curation_params_name"]
  | T_AutomaticCurationSelection | T_AutomaticCuration =>
      "curation_id" :: SpikeSorting_pk ext
        ++ ["waveform_params_name"; "metric_params_name";
            "auto_curation_params_name"]
  | T_FinalizedSpikeSortingSelection | T_FinalizedSpikeSorting =>
      "curation_id" :: SpikeSorting_pk ext
  | T_Unit => "curation_id" :: SpikeSorting_pk ext ++ ["unit_id"]
  end.

(** The attributes below the [---] line, each with its default if any. *)
Definition dependent (t : table) : list (string * option pyval) :=
  match t with
  | T_SpikeSortingRecording =>
      (λ a, (a, None)) <$> SpikeSortingRecording_dependent ext
  | T_SpikeSorterParameters => [("sorter_params", None)]
  | T_SpikeSortingSelection => [("import_path", Some (VStr ""))]
  | T_SpikeSorting => [("sorting_path", None); ("time_of_sort", None)]
  | T_Curation =>
      [("parent_curation_id", Some (VStr "")); ("labels", None);
       ("merge_groups", None); ("metrics", None);
       ("description", Some (VStr ""))]
  | T_WaveformParameters => [("waveform_params", None)]
  | T_Waveforms =>
      [("waveform_extractor_path", None); ("analysis_file_name", None);
       ("waveforms_object_id", None)]
  | T_MetricParameters => [("metric_params", None)]
  | T_QualityMetrics =>
      [("quality_metrics_path", None); ("analysis_file_name", None);
       ("object_id", None)]
  | T_AutomaticCurationParameters =>
      [("merge_params", None); ("label_params", None)]
  | T_AutomaticCuration => [("curation_id", None)]
  | T_FinalizedSpikeSorting =>
      [("analysis_file_name", None); ("units_object_id", None)]
  | T_Unit =>
      [("label", Some (VStr "")); ("noise_overlap", Some (VInt (-1)));
       ("isolation_score", Some (VInt (-1)));
       ("isi_violation", Some (VInt (-1))); ("snr", Some (VInt 0));
       ("firing_rate", Some (VInt (-1))); ("num_spikes", Some (VInt (-1)))]
  | T_WaveformSelection | T_MetricSelection | T_AutomaticCurationSelection
  | T_FinalizedSpikeSortingSelection => []
  end.

(** The tables a [->] of the declaration points to.  [AnalysisNwbfile] and
    [ArtifactRemovedIntervalList], and the parents of [SpikeSortingRecording],
    belong to other modules of the repository and have no rows here. *)
Definition parents (t : table) : list table :=
  match t with
  | T_SpikeSortingRecording | T_SpikeSorterParameters | T_WaveformParameters
  | T_MetricParameters | T_AutomaticCurationParameters => []
  | T_SpikeSortingSelection =>
      [T_SpikeSortingRecording; T_SpikeSorterParameters]
  | T_SpikeSorting => [T_SpikeSortingSelection]
  | T_Curation => [T_SpikeSorting]
  | T_WaveformSelection => [T_Curation; T_WaveformParameters]
  | T_Waveforms => [T_WaveformSelection]
  | T_MetricSelection => [T_Waveforms; T_MetricParameters]
  | T_QualityMetrics => [T_MetricSelection]
  | T_AutomaticCurationSelection =>
      [T_QualityMetrics; T_AutomaticCurationParameters]
  | T_AutomaticCuration => [T_AutomaticCurationSelection]
  | T_FinalizedSpikeSortingSelection => [T_Curation]
  | T_FinalizedSpikeSorting => [T_FinalizedSpikeSortingSelection]
  | T_Unit => [T_FinalizedSpikeSorting]
  end.

(** The types the two files declare, by the name of the attribute: a name
    has one type wherever it is declared or inherited.  The attributes that
    come from other modules ([nwb_file_name], [analysis_file_name], ...)
    have no type here and are not checked. *)
Definition declarations : list (string * column_type) :=
  [("sorter", Varchar 200); ("sorter_params_name", Varchar 200);
   ("sorter_params", Blob); ("import_path", Varchar 200);
   ("sorting_path", Varchar 1000); ("time_of_sort", Int);
   ("curation_id", Varchar 10); ("parent_curation_id", Varchar 10);
   ("labels", Blob); ("merge_groups", Blob); ("metrics", Blob);
   ("description", Varchar 1000);
   ("waveform_params_name", Varchar 80); ("waveform_params", Blob);
   ("waveform_extractor_path", Varchar 220);
   ("waveforms_object_id", Varchar 40);
   ("metric_params_name", Varchar 200); ("metric_params", Blob);
   ("quality_metrics_path", Varchar 500); ("object_id", Varchar 40);
   ("auto_curation_params_name", Varchar 200); ("merge_params", Blob);
   ("label_params", Blob); ("units_object_id", Varchar 40);
   ("unit_id", Int); ("label", Varchar 200); ("noise_overlap", Float);
   ("isolation_score", Float); ("isi_violation", Float); ("snr", Float);
   ("firing_rate", Float); ("num_spikes", Int)].

Definition declared_type (a : string) : option column_type :=
  snd <$> List.find (λ d, bool_decide (d.1 = a)) declarations.

(** The value can be stored in a column of the type: a string no longer
    than the [varchar], a number (numbers are integers here) for [int] and
    [float], any object for a [blob].  The conversions of MySQL, of a
    number given for a [varchar] for one, are not followed: such a value is
    refused. *)
Definition fits (ty : column_type) (v : pyval) : bool :=
  match ty, v with
  | Varchar n, VStr s => bool_decide (String.length s ≤ n)%nat
  | (Int | Float), (VInt _ | VBool _) => true
  | Blob, _ => true
  | _, _ => false
  end.

(** The row has a value for the attribute that its column cannot take. *)
Definition ill_typed (r : row) (a : string) : bool :=
  match r !! a, declared_type a with
  | Some v, Some ty => negb (fits ty v)
  | _, _ => false
  end.

Definition heading (t : table) : list string :=
  primary_key t ++ (dependent t).*1.

(** [r] agrees with [key] on every attribute of [attrs] that [key] has. *)
Definition agrees (attrs : list string) (key r : row) : bool :=
  forallb (λ a, match key !! a with
                | Some v => bool_decide (r !! a = Some v)
                | None => true
                end) attrs.

(** [(Table & key).fetch()] *)
Definition restrict (t : table) (key : row) (w : World) : list row :=
  List.filter (agrees (heading t) key) (rows w t).

(** [(Table & key).fetch1(as_dict=True)] *)
Definition fetch1_row (t : table) (key : row) : M row := λ w,
  match restrict t key w with
  | [r] => (Returned r, w)
  | _ => (Raised DataJointError "fetch1 should only return one tuple", w)
  end.

(** [(Table & key).fetch1(attr)] *)
Definition fetch1 (t : table) (key : row) (attr : string) : M pyval :=
  r ← fetch1_row t key;
  match r !! attr with
  | Some v => mret v
  | None => raise DataJointError attr
  end.

(** [list(Table.fetch(limit=1, as_dict=True)[0].keys())]: the attributes of
    the first row, if there is one. *)
Definition fetch_first_keys (t : table) : M (list string) := λ w,
  match rows w t with
  | _ :: _ => (Returned (heading t), w)
  | [] => (Raised IndexError "list index out of range", w)
  end.

(** The row as stored: the attributes of the heading, defaults filled in. *)
Definition stored (t : table) (r : row) : row :=
  foldr (λ '(a, dflt) acc,
           match r !! a, dflt with
           | Some v, _ => <[a := v]> acc
           | None, Some v => <[a := v]> acc
           | None, None => acc
           end)
        (foldr (λ a acc, match r !! a with
                         | Some v => <[a := v]> acc
                         | None => acc
                         end) ∅ (primary_key t))
        (dependent t).

Definition required (t : table) : list string :=
  primary_key t ++
  omap (λ '(a, dflt), match dflt with None => Some a | Some _ => None end)
       (dependent t).

(** What [insert1] checks before it looks at the rows: an attribute
    without a value and without a default, or a value that does not fit its
    column (the database runs in strict mode and refuses it with
    [pymysql]'s [DataError]). *)
Definition check_row (t : table) (r : row) : option (exn_class * string) :=
  match List.find (λ a, bool_decide (r !! a = None)) (required t) with
  | Some a => Some (DataJointError, a)
  | None =>
      match List.find (ill_typed r) (heading t) with
      | Some a => Some (DataError, a)
      | None => None
      end
  end.

(** Every parent table has a row with the primary key the row gives. *)
Definition has_parents (t : table) (r : row) (w : World) : bool :=
  forallb
    (λ p, negb (bool_decide
                  (List.filter (agrees (primary_key p) r) (rows w p) = [])))
    (parents t).

(** [Table.insert1(r)] *)
Definition insert1 (t : table) (r : row) : M unit := λ w,
  match check_row t r with
  | Some (c, a) => (Raised c a, w)
  | None =>
      if has_parents t r w
      then
        if bool_decide
             (List.filter (agrees (primary_key t) r) (rows w t) = [])
        then (Returned tt, with_rows t (rows w t ++ [stored t r]) w)
        else (Raised DataJointError "duplicate entry", w)
      else (Raised DataJointError "foreign key constraint fails", w)
  end.

End WithCollaborators.
End DataJoint.

(** ** spikeinterface, os and shutil *)

(** [si.load_extractor(path)] *)
Definition load_extractor (path : pyval) : M pyval := λ w,
  match path with
  | VStr p =>
      match folders w !! p with
      | Some e => (Returned e, w)
      | None => (Raised OSError p, w)
      end
  | _ => (Raised TypeError "expected str or os.PathLike", w)
  end.

(** [extractor.save(folder=path)] *)
Definition save (extractor : pyval) (path : string) : M pyval :=
  match extractor with
  | VSorting _ | VRecording _ =>
      _ ← modify (λ w, with_folders (<[path := extractor]> (folders w)) w);
      mret extractor
  | _ => raise AttributeError "save"
  end.

(** [if os.path.exists(path): shutil.rmtree(path)] *)
Definition remove_if_exists (path : string) : M unit :=
  modify (λ w, with_folders (delete path (folders w)) w).

Definition get_unit_ids (s : Sorting) : list Z := (spike_trains s).*1.

Definition get_unit_spike_train (s : Sorting) (unit_id : Z)
  : option (list Z) :=
  snd <$> List.find (λ ut, bool_decide (ut.1 = unit_id)) (spike_trains s).

(** [o.get_unit_ids()] *)
Definition call_get_unit_ids (o : pyobj) : M (list Z) :=
  match o with
  | OVal (VSorting s) => mret (get_unit_ids s)
  | _ => raise AttributeError "get_unit_ids"
  end.

(** [o.get_unit_spike_train(unit_id=unit_id)] *)
Definition call_get_unit_spike_train (o : pyobj) (unit_id : Z)
  : M (list Z) :=
  match o with
  | OVal (VSorting s) =>
      match get_unit_spike_train s unit_id with
      | Some train => mret train
      | None => raise Exception "unit_id is not in the sorting"
      end
  | _ => raise AttributeError "get_unit_spike_train"
  end.

(** [for unit_id in o] for a list of unit ids. *)
Definition iter_units (o : pyobj) : M (list Z) :=
  match o with
  | OVal (VInts l) | OVal (VTimes l) => mret l
  | _ => raise TypeError "object is not a list of unit ids"
  end.

(** [o[0]] *)
Definition first_item (v : pyval) : M pyval :=
  match v with
  | VStrs (x :: _) => mret (VStr x)
  | VInts (x :: _) | VTimes (x :: _) => mret (VInt x)
  | VGroups (x :: _) => mret (VInts x)
  | VStr (String c _) => mret (VStr (String c ""))
  | VTuple a _ => mret a
  | VStrs [] | VInts [] | VTimes [] | VGroups [] | VStr "" =>
      raise IndexError "index out of range"
  | VLabels d =>
      match d !! 0 with
      | Some ls => mret (VStrs ls)
      | None => raise KeyError "0"
      end
  | VMetrics _ | VParams _ | VFrame _ => raise KeyError "0"
  | _ => raise TypeError "object is not subscriptable"
  end.

(** ** class Curation *)

Module Curation.
Section WithCollaborators.
Context (ext : Collaborators).

(** The default of [parent_curation_id]. *)
Definition original : pyval := VStr "original".

(** [str(uuid.uuid4())] *)
Definition uuid_str : M string := λ w,
  (Returned (uuid4 ext (uuid_draws w)), with_uuid_draws (S (uuid_draws w)) w).

(** The [while found:] loop of [insert_curation]; [fuel] bounds the number
    of rounds. *)
Fixpoint generate_unique_id (fuel : nat) : M string :=
  match fuel with
  | O => out_of_fuel
  | S fuel' =>
      u ← uuid_str;
      let id := "C_" +:+ substring 0 8 u in
      w ← get_world;
      if (length (DataJoint.restrict ext T_Curation
                    {["curation_id" := VStr id]} w) =? 0)%nat
      then mret id
      else generate_unique_id fuel'
  end.

(** [insert_curation(sorting_key, parent_curation_id, labels, merge_groups,
    metrics, description)].  [sorting_key] is the caller's dict and is
    updated in place: it is returned next to the id. *)
Definition insert_curation (fuel : nat) (sorting_key : row)
    (parent_curation_id labels merge_groups metrics description : pyval)
  : M (pyval * row) :=
  let labels := match labels with VNone => VLabels ∅ | _ => labels end in
  let merge_groups :=
    match merge_groups with VNone => VGroups [] | _ => merge_groups end in
  let metrics := match metrics with VNone => VMetrics ∅ | _ => metrics end in
  id ← generate_unique_id fuel;
  let sorting_key := <["curation_id" := VStr id]> sorting_key in
  let sorting_key := <["parent_curation_id" := parent_curation_id]> sorting_key in
  let sorting_key := <["description" := description]> sorting_key in
  let sorting_key := <["labels" := labels]> sorting_key in
  let sorting_key := <["merge_groups" := merge_groups]> sorting_key in
  let sorting_key := <["metrics" := metrics]> sorting_key in
  _ ← DataJoint.insert1 ext T_Curation sorting_key;
  id ← getitem sorting_key "curation_id";
  mret (id, sorting_key).

(** [get_recording_extractor(key)] *)
Definition get_recording_extractor (key : row) : M pyval :=
  recording_path ← DataJoint.fetch1 ext T_SpikeSortingRecording key
                     "recording_path";
  load_extractor recording_path.

(** [get_curated_sorting_extractor(key)] *)
Definition get_curated_sorting_extractor (key : row) : M pyval :=
  sorting_path ← DataJoint.fetch1 ext T_SpikeSorting key "sorting_path";
  sorting ← load_extractor sorting_path;
  merge_groups ← DataJoint.fetch1 ext T_Curation key "merge_groups";
  n ← lift (py_len merge_groups);
  if negb (n =? 0)%nat
  then mret (VClass NotImplementedError)
  else mret sorting.

(** The [for unit_id in unit_ids:] loop of [save_sorting_nwb]: the [units]
    dict, in the order of insertion. *)
Fixpoint unit_times (sorting timestamps : pyobj) (unit_ids : list Z)
  : M (list (Z * pyval)) :=
  match unit_ids with
  | [] => mret []
  | unit_id :: rest =>
      spike_times_in_samples ← call_get_unit_spike_train sorting unit_id;
      times ← ask (array_take ext timestamps spike_times_in_samples);
      units ← unit_times sorting timestamps rest;
      mret ((unit_id, times) :: units)
  end.

(** [save_sorting_nwb(key, sorting, timestamps, sort_interval_list_name,
    sort_interval, labels, metrics, unit_ids)], a static method: the
    parameters are bound by position to whatever the caller passes. *)
Definition save_sorting_nwb
    (key sorting timestamps sort_interval_list_name sort_interval
     labels metrics unit_ids : pyobj)
  : M (pyval * pyval) :=
  sort_interval_valid_times ←
    ask (IntervalList_valid_times ext sort_interval_list_name);
  unit_ids ← match unit_ids with
             | OVal VNone => call_get_unit_ids sorting
             | _ => iter_units unit_ids
             end;
  units ← unit_times sorting timestamps unit_ids;
  nwb_file_name ← subscript key "nwb_file_name";
  analysis_file_name ← ask (AnalysisNwbfile_create ext nwb_file_name);
  _ ← modify (λ w, with_analysis_files
                     (analysis_files w ++ [analysis_file_name]) w);
  object_ids ← ask (AnalysisNwbfile_add_units ext analysis_file_name units
                      sort_interval_valid_times sort_interval metrics labels);
  units_object_id ←
    (if bool_decide (object_ids = VStr "")
     then mret (VStr "")
     else first_item object_ids);
  mret (VStr analysis_file_name, units_object_id).

End WithCollaborators.
End Curation.

(** ** class AutomaticCuration *)

(** [l.sort()] on a list of unit ids. *)
Fixpoint insert_sorted (x : Z) (l : list Z) : list Z :=
  match l with
  | [] => [x]
  | y :: l' => if x <=? y then x :: l else y :: insert_sorted x l'
  end.

Definition sort_ids (l : list Z) : list Z := foldr insert_sorted [] l.

(** [o.sort()] as a method call: lists and arrays sort in place and give
    [None]; nothing else here has the method. *)
Definition call_sort (o : pyval) : M pyval :=
  match o with
  | VGroups _ | VInts _ | VStrs _ | VTimes _ => mret VNone
  | _ => raise AttributeError "sort"
  end.

(** [a, b = v] *)
Definition unpack2 (v : pyval) : M (pyval * pyval) :=
  match v with
  | VTuple a b => mret (a, b)
  | _ => raise TypeError "cannot unpack non-iterable object"
  end.

(** [json.load(open(path))] on a metrics file. *)
Definition json_load (path : pyval) : M pyval := λ w,
  match path with
  | VStr p =>
      match json_files w !! p with
      | Some qm => (Returned (VMetrics qm), w)
      | None => (Raised OSError p, w)
      end
  | _ => (Raised TypeError "expected str, bytes or os.PathLike", w)
  end.

(** [Path(os.getenv(name))]: [None] is no path. *)
Definition getenv_path (name : string) : M string := λ w,
  match environ w !! name with
  | Some d => (Returned d, w)
  | None => (Raised TypeError "expected str, bytes or os.PathLike", w)
  end.

Module AutomaticCuration.
Section WithCollaborators.
Context (ext : Collaborators).

Definition head_id (l : list Z) : M Z :=
  match l with
  | x :: _ => mret x
  | [] => raise IndexError "list index out of range"
  end.

(** The inner [for idx, pm in enumerate(parent_merge_groups):] loop: whether
    a group starting with [m[0]] was found, and the groups afterwards. *)
Fixpoint extend_group (m : list Z) (parent_merge_groups : list (list Z))
  : M (bool * list (list Z)) :=
  match parent_merge_groups with
  | [] => mret (false, [])
  | pm :: rest =>
      m0 ← head_id m;
      pm0 ← head_id pm;
      if m0 =? pm0
      then mret (true, sort_ids (pm ++ tail m) :: rest)
      else
        '(found, rest') ← extend_group m rest;
        mret (found, pm :: rest')
  end.

(** The [for m in new_merges:] loop. *)
Fixpoint add_merges (new_merges : list (list Z)) (parent_merge_groups : pyval)
  : M pyval :=
  match new_merges with
  | [] => mret parent_merge_groups
  | m :: rest =>
      match parent_merge_groups with
      | VGroups groups =>
          '(found, groups) ← extend_group m groups;
          add_merges rest
            (VGroups (if found : bool then groups else groups ++ [m]))
      | _ => raise TypeError "parent_merge_groups is not a list of groups"
      end
  end.

(** [get_merge_groups(sorting, parent_merge_groups, quality_metrics,
    merge_params)] *)
Definition get_merge_groups
    (sorting parent_merge_groups quality_metrics merge_params : pyval)
  : M pyval :=
  has_params ← lift (truthy merge_params);
  if negb has_params
  then mret (VTuple sorting (VBool false))
  else
    let new_merges : list (list Z) := [] in
    parent_merge_groups ← add_merges new_merges parent_merge_groups;
    call_sort parent_merge_groups.

(** The [for n in new_labels:] loop of [get_labels]. *)
Definition add_labels (new_labels : list (Z * list string))
    (parent_labels : pyval) : M pyval :=
  match new_labels, parent_labels with
  | [], _ => mret parent_labels
  | _, VLabels d =>
      mret (VLabels
              (fold_left
                 (λ d '(n, ls),
                    match d !! n with
                    | Some old => <[n := old ++ ls]> d
                    | None => <[n := ls]> d
                    end) new_labels d))
  | _, _ => raise TypeError "parent_labels is not a dict of labels"
  end.

(** [get_labels(sorting, parent_labels, quality_metrics, label_params)] *)
Definition get_labels
    (sorting parent_labels quality_metrics label_params : pyval) : M pyval :=
  has_params ← lift (truthy label_params);
  if negb has_params
  then mret parent_labels
  else
    let new_labels : list (Z * list string) := [] in
    add_labels new_labels parent_labels.

(** What [make] has in hand once it has loaded the round (lines 469-483). *)
Record Round := mkRound {
  quality_metrics : pyval;
  parent_merge_groups : pyval;
  parent_labels : pyval;
  parent_sorting : pyval
}.

#[global] Instance Round_eq_dec : EqDecision Round.
Proof. solve_decision. Defined.

Definition load_round (key : row) : M Round :=
  nwb_file_name ← getitem key "nwb_file_name";
  recording_id ← getitem key "recording_id";
  waveform_params_name ← getitem key "waveform_params_name";
  metric_params_name ← getitem key "metric_params_name";
  parent_sorting_id ← getitem key "parent_sorting_id";
  metrics_path ←
    DataJoint.fetch1 ext T_QualityMetrics
      (<["nwb_file_name" := nwb_file_name]>
       (<["recording_id" := recording_id]>
        (<["waveform_params_name" := waveform_params_name]>
         (<["metric_params_name" := metric_params_name]>
          {["sorting_id" := parent_sorting_id]}))))
      "quality_metrics_path";
  quality_metrics ← json_load metrics_path;
  parent_curation ← DataJoint.fetch1_row ext T_Curation key;
  parent_merge_groups ← getitem parent_curation "merge_groups";
  parent_labels ← getitem parent_curation "labels";
  parent_sorting ← Curation.get_curated_sorting_extractor ext key;
  mret (mkRound quality_metrics parent_merge_groups parent_labels
          parent_sorting).

(** The merge decision (lines 485-488): [merge_groups, units_merged]. *)
Definition merge_decision (round : Round) (key : row) : M (pyval * pyval) :=
  merge_params ←
    DataJoint.fetch1 ext T_AutomaticCurationParameters key "merge_params";
  r ← get_merge_groups (parent_sorting round) (parent_merge_groups round)
        (quality_metrics round) merge_params;
  unpack2 r.

(** [quality_metrics if not units_merged else None] (line 499) *)
Definition keep_metrics (quality_metrics units_merged : pyval) : M pyval :=
  merged ← lift (truthy units_merged);
  mret (if negb merged then quality_metrics else VNone).

(** [self._get_curated_sorting_name(key)] (line 502).  The class defines
    [make], [fetch_nwb], [get_merge_groups] and [get_labels]; neither it nor
    [dj.Computed] has a method of this name, so the attribute lookup
    fails. *)
Definition _get_curated_sorting_name (key : row) : M string :=
  raise AttributeError "_get_curated_sorting_name".

(** The rest of [make] (lines 489-515). *)
Definition finish (fuel : nat) (round : Round) (key : row)
    (merge_groups units_merged : pyval) : M pyval :=
  merged ← lift (truthy units_merged);
  if merged : bool
  then mret (VClass NotImplementedError)
  else
    label_params ←
      DataJoint.fetch1 ext T_AutomaticCurationParameters key "label_params";
    labels ← get_labels (parent_sorting round) (parent_labels round)
               (quality_metrics round) label_params;
    metrics ← keep_metrics (quality_metrics round) units_merged;
    curated_sorting_name ← _get_curated_sorting_name key;
    sorting_dir ← getenv_path "NWB_DATAJOINT_SORTING_DIR";
    let sorting_path := path_join ext sorting_dir curated_sorting_name in
    let key := <["sorting_path" := VStr sorting_path]> key in
    _ ← remove_if_exists sorting_path;
    parent_sorting ← save (parent_sorting round) sorting_path;
    parent_curation_id ← getitem key "parent_curation_id";
    '(id, key) ← Curation.insert_curation ext fuel key parent_curation_id
                   labels merge_groups metrics (VStr "auto curated");
    let key := <["sorting_id" := id]> key in
    _ ← DataJoint.insert1 ext T_AutomaticCuration key;
    mret VNone.

(** [make(self, key)] *)
Definition make (fuel : nat) (key : row) : M pyval :=
  round ← load_round key;
  '(merge_groups, units_merged) ← merge_decision round key;
  finish fuel round key merge_groups units_merged.

End WithCollaborators.
End AutomaticCuration.

(** ** class FinalizedSpikeSorting *)

(** [try: m  except: raise Exception(msg)] *)
Definition try_or_raise {A} (m : M A) (msg : string) : M A := λ w,
  match m w with
  | (Raised _ _, w') => (Raised Exception msg, w')
  | other => other
  end.

(** The labels blob read as the dict it is declared to be, unit id to list
    of labels; another shape is not followed further. *)
Definition as_labels (v : pyval) : M (gmap Z (list string)) :=
  match v with
  | VLabels d => mret d
  | _ => raise TypeError "labels is not a dict of label lists"
  end.

Module FinalizedSpikeSorting.
Section WithCollaborators.
Context (ext : Collaborators).

Definition unit_labels_to_remove : list string := ["reject"; "noise"].

(** [len(set(unit_labels_to_remove) & set(labels)) == 0] *)
Definition none_to_remove (labels : list string) : bool :=
  (size (list_to_set unit_labels_to_remove ∩ list_to_set labels
         : gset string) =? 0)%nat.

(** One round of the [for unit_id in unit_ids:] loop. *)
Definition accept (unit_labels : gmap Z (list string))
    (accepted_units : list Z) (unit_id : Z) : list Z :=
  match unit_labels !! unit_id with
  | Some labels =>
      if none_to_remove labels
      then accepted_units ++ [unit_id]
      else accepted_units
  | None => accepted_units ++ [unit_id]
  end.

Definition accept_units (unit_ids : list Z)
    (unit_labels : gmap Z (list string)) : list Z :=
  fold_left (accept unit_labels) unit_ids [].

(** The [for unit_id in accepted_units:] loop that fills [labels]. *)
Fixpoint join_labels (unit_labels : gmap Z (list string))
    (accepted_units : list Z) (labels : gmap Z string) : M (gmap Z string) :=
  match accepted_units with
  | [] => mret labels
  | unit_id :: rest =>
      match unit_labels !! unit_id with
      | Some ls =>
          join_labels unit_labels rest
            (<[unit_id := String.concat "," ls]> labels)
      | None => raise KeyError (pretty unit_id)
      end
  end.

(** [metrics.loc[accepted_units]] *)
Definition call_loc (metrics : pyval) (accepted_units : list Z) : M pyval :=
  match metrics with
  | VFrame f => f' ← ask (frame_loc ext f accepted_units); mret (VFrame f')
  | _ => raise AttributeError "loc"
  end.

(** [if field in metrics[unit_id]: key[field] = metrics[unit_id][field]
    else: WarningMessage(...)], for every field; [WarningMessage] called
    with the message alone lacks three required arguments. *)
Fixpoint fill_metrics (metrics : pyval) (unit_id : Z)
    (metric_fields : list string) (key : row) : M row :=
  match metric_fields with
  | [] => mret key
  | field :: rest =>
      match metrics with
      | VFrame f =>
          present ← ask (frame_contains ext f unit_id field);
          if present : bool
          then
            v ← ask (frame_get ext f unit_id field);
            fill_metrics metrics unit_id rest (<[field := v]> key)
          else
            raise TypeError "__init__() missing 3 required positional arguments"
      | _ => raise TypeError "metrics is not a frame"
      end
  end.

(** The last [for unit_id in accepted_units:] loop (lines 697-705): the key
    as the loop leaves it. *)
Fixpoint fill_unit_key (metrics : pyval) (labels : gmap Z string)
    (metric_fields : list string) (accepted_units : list Z) (key : row)
  : M row :=
  match accepted_units with
  | [] => mret key
  | unit_id :: rest =>
      let key := <["unit_id" := VInt unit_id]> key in
      match labels !! unit_id with
      | Some label =>
          let key := <["label" := VStr label]> key in
          key ← fill_metrics metrics unit_id metric_fields key;
          fill_unit_key metrics labels metric_fields rest key
      | None => raise KeyError (pretty unit_id)
      end
  end.

(** [metrics_fields(self)] *)
Definition metrics_fields : M (list string) :=
  unit_fields ← DataJoint.fetch_first_keys ext T_Unit;
  parent_fields ← DataJoint.fetch_first_keys ext T_FinalizedSpikeSorting;
  let parent_fields := parent_fields ++ ["unit_id"; "label"] in
  mret (List.filter (λ field, negb (bool_decide (field ∈ parent_fields)))
          unit_fields).

(** "now add the units" (lines 690-706). *)
Definition add_units (key : row) (metrics : pyval) (labels : gmap Z string)
    (accepted_units : list Z) : M unit :=
  let key := delete "units_object_id" key in
  let key := delete "analysis_file_name" key in
  metric_fields ← metrics_fields;
  key ← fill_unit_key metrics labels metric_fields accepted_units key;
  DataJoint.insert1 ext T_Unit key.

(** Saving the sorting and the export record (lines 670-688).  [self] is
    passed first to the static method [save_sorting_nwb]. *)
Definition export (key : row) (metrics : pyval) (accepted_units : list Z)
  : M row :=
  sorting ← Curation.get_curated_sorting_extractor ext key;
  recording ← Curation.get_recording_extractor ext key;
  sort_interval ← ask (fetch_sort_interval ext key accepted_units);
  sort_interval_list_name ←
    DataJoint.fetch1 ext T_SpikeSortingRecording key "sort_interval_list_name";
  timestamps ← ask (_get_recording_timestamps ext recording);
  '(analysis_file_name, units_object_id) ←
    Curation.save_sorting_nwb ext
      (OTable T_FinalizedSpikeSorting) (ODict key) (OVal sorting)
      (OVal timestamps) (OVal sort_interval_list_name) (OVal sort_interval)
      (OVal metrics) (OVal (VInts accepted_units));
  let key := <["analysis_file_name" := analysis_file_name]> key in
  let key := <["units_object_id" := units_object_id]> key in
  _ ← DataJoint.insert1 ext T_FinalizedSpikeSorting key;
  mret key.

(** [make(self, key)] *)
Definition make (key : row) : M pyval :=
  metrics ←
    try_or_raise (DataJoint.fetch1 ext T_Curation key "metrics")
      ("Metrics for Curation " +:+ repr_key ext key +:+
       " must be calculated before it can be inserted here");
  sorting ← Curation.get_curated_sorting_extractor ext key;
  unit_ids ← call_get_unit_ids (OVal sorting);
  unit_labels ← DataJoint.fetch1 ext T_Curation key "labels";
  unit_labels ← as_labels unit_labels;
  let accepted_units := accept_units unit_ids unit_labels in
  labels ← join_labels unit_labels accepted_units ∅;
  metrics ← call_loc metrics accepted_units;
  if (size unit_labels =? 0)%nat || (length accepted_units =? 0)%nat
  then mret VNone
  else
    key ← export key metrics accepted_units;
    _ ← add_units key metrics labels accepted_units;
    mret VNone.

End WithCollaborators.
End FinalizedSpikeSorting.

(** ** Sequences of inserts, and a concrete installation *)

(** The arguments of one call of [Curation.insert_curation]. *)
Record InsertCall := mkInsertCall {
  call_fuel : nat;
  call_key : row;
  call_parent : pyval;
  call_labels : pyval;
  call_merge_groups : pyval;
  call_metrics : pyval;
  call_description : pyval
}.

Definition run_insert (ext : Collaborators) (c : InsertCall)
  : M (pyval * row) :=
  Curation.insert_curation ext (call_fuel c) (call_key c) (call_parent c)
    (call_labels c) (call_merge_groups c) (call_metrics c)
    (call_description c).

(** The calls one after the other, whatever each one's outcome. *)
Fixpoint run_inserts (ext : Collaborators) (calls : list InsertCall)
    (w : World) : World :=
  match calls with
  | [] => w
  | c :: rest => run_inserts ext rest (run_insert ext c w).2
  end.

(** The ids in the ledger, in the order of insertion. *)
Definition curation_ids (w : World) : list (option pyval) :=
  (λ r : row, r !! "curation_id") <$> rows w T_Curation.

Module Scenario.

(** [uuid4] draws the same leading eight characters twice, then new ones. *)
Definition draws (n : nat) : string :=
  match n with
  | 0 => "deadbeef-0000-4000-8000-000000000000"
  | 1 => "deadbeef-1111-4111-8111-111111111111"
  | _ => "c0ffee0" +:+ pretty n +:+ "-2222-4222-8222-222222222222"
  end%nat.

(** A frame as rows of unit id and named values. *)
Definition loc (f : DataFrame) (units : list Z) : result DataFrame :=
  foldr (λ u acc,
           match acc, List.find (λ row, bool_decide (row.1 = u)) f with
           | Returned rows, Some row => Returned (row :: rows)
           | Returned _, None => Raised KeyError (pretty u)
           | other, _ => other
           end) (Returned []) units.

Definition cell (f : DataFrame) (u : Z) (field : string) : option Z :=
  row ← List.find (λ row, bool_decide (row.1 = u)) f;
  snd <$> List.find (λ c, bool_decide (c.1 = field)) row.2.

Definition ext : Collaborators := {|
  SpikeSorting_pk :=
    ["nwb_file_name"; "sort_group_id"; "sorter"; "sorter_params_name"];
  SpikeSortingRecording_pk := ["nwb_file_name"; "sort_group_id"];
  SpikeSortingRecording_dependent :=
    ["recording_path"; "sort_interval_list_name"];
  uuid4 := draws;
  path_join := λ a b, a +:+ "/" +:+ b;
  repr_key := λ _, "{...}";
  _get_recording_timestamps := λ _ _, Returned (VTimes [0; 1; 2; 3; 4; 5]);
  fetch_sort_interval := λ _ _ _, Returned (VTimes [0; 5]);
  IntervalList_valid_times := λ _ _, Returned (VTimes [0; 5]);
  array_take := λ _ spikes _, Returned (VTimes spikes);
  AnalysisNwbfile_create := λ _ _, Returned "analysis.nwb";
  AnalysisNwbfile_add_units := λ _ _ _ _ _ _ _, Returned (VStrs ["units"]);
  frame_loc := λ f units _, loc f units;
  frame_contains := λ f u field _, Returned (bool_decide (is_Some (cell f u field)));
  frame_get := λ f u field _,
    match cell f u field with
    | Some v => Returned (VInt v)
    | None => Raised KeyError field
    end
|}.

(** The key of one spike sorting. *)
Definition sorting_key : row :=
  <["nwb_file_name" := VStr "day1.nwb"]>
  (<["sort_group_id" := VInt 0]>
   (<["sorter" := VStr "mountainsort4"]>
    {["sorter_params_name" := VStr "default"]})).

Definition sorting : Sorting :=
  mkSorting [(1, [10; 40]); (2, [20; 30]); (3, [5])].

Definition labels : gmap Z (list string) :=
  <[1 := ["noise"]]> (<[2 := ["good"]]> {[3 := []]}).

Definition quality : gmap string (gmap string Z) :=
  {["snr" := <["1" := 2]> (<["2" := 7]> {["3" := 5]})]}.

Definition frame : DataFrame :=
  [(1, [("snr", 2)]); (2, [("snr", 7)]); (3, [("snr", 5)])].

(** A curation of [sorting_key] with the given id and blobs. *)
Definition curation (id : string) (labels merge_groups metrics : pyval)
  : row :=
  <["curation_id" := VStr id]>
  (<["parent_curation_id" := VStr "original"]>
   (<["labels" := labels]>
    (<["merge_groups" := merge_groups]>
     (<["metrics" := metrics]>
      (<["description" := VStr ""]> sorting_key))))).

(** The installation with the given ledger.  Two sortings are selected:
    the one of [sorting_key], which has been made, and one with the sorter
    [kilosort], which has not. *)
Definition world (ledger : list row) : World := {|
  db :=
    <[T_SpikeSortingSelection :=
        [<["import_path" := VStr ""]> sorting_key;
         <["import_path" := VStr ""]>
         (<["sorter" := VStr "kilosort"]> sorting_key)]]>
    (<[T_SpikeSorting :=
        [<["sorting_path" := VStr "/sortings/s1"]>
         (<["time_of_sort" := VInt 0]> sorting_key)]]>
    (<[T_SpikeSortingRecording :=
         [<["nwb_file_name" := VStr "day1.nwb"]>
          (<["sort_group_id" := VInt 0]>
           (<["recording_path" := VStr "/recordings/r1"]>
            {["sort_interval_list_name" := VStr "sleep"]}))]]>
     (<[T_QualityMetrics :=
          [<["waveform_params_name" := VStr "default"]>
           (<["metric_params_name" := VStr "franklab_default"]>
            (<["quality_metrics_path" := VStr "/waveforms/qm.json"]>
             (<["analysis_file_name" := VStr "qm.nwb"]>
              (<["object_id" := VStr "qm"]>
               (<["curation_id" := VStr "C_deadbeef"]> sorting_key)))))]]>
      (<[T_AutomaticCurationParameters :=
           [<["auto_curation_params_name" := VStr "default"]>
            (<["merge_params" := VParams ∅]>
             {["label_params" := VParams ∅]})]]>
       {[T_Curation := ledger]}))));
  folders :=
    <["/sortings/s1" := VSorting sorting]>
    {["/recordings/r1" := VRecording "r1"]};
  json_files := {["/waveforms/qm.json" := quality]};
  environ := {["NWB_DATAJOINT_SORTING_DIR" := "/sortings"]};
  analysis_files := [];
  uuid_draws := 0
|}.

(** A frame with every metric of the [Unit] table, for units 2 and 3. *)
Definition full_frame : DataFrame :=
  [(2, [("noise_overlap", 0); ("isolation_score", 9); ("isi_violation", 0);
        ("snr", 7); ("firing_rate", 4); ("num_spikes", 2)]);
   (3, [("noise_overlap", 1); ("isolation_score", 8); ("isi_violation", 0);
        ("snr", 5); ("firing_rate", 2); ("num_spikes", 1)])].

(** The key of the curation [id] of [sorting_key]. *)
Definition curation_key (id : string) : row :=
  <["curation_id" := VStr id]> sorting_key.

(** The key [AutomaticCuration.make] is called with. *)
Definition auto_key : row :=
  <["waveform_params_name" := VStr "default"]>
  (<["metric_params_name" := VStr "franklab_default"]>
   (<["auto_curation_params_name" := VStr "default"]>
    (<["recording_id" := VStr "R_1"]>
     (<["parent_sorting_id" := VStr "S_1"]>
      (<["parent_curation_id" := VStr "original"]>
       (curation_key "C_deadbeef")))))).

(** The ledgers of the examples: one curation of [sorting_key]. *)
Definition plain_ledger : list row :=
  [curation "C_deadbeef" (VLabels labels) (VGroups []) (VMetrics quality)].

Definition merged_ledger : list row :=
  [curation "C_deadbeef" (VLabels labels) (VGroups [[1; 2]])
     (VMetrics quality)].

Definition unlabelled_ledger : list row :=
  [curation "C_deadbeef" (VLabels (delete 3 labels)) (VGroups [])
     (VFrame frame)].

Definition framed_ledger : list row :=
  [curation "C_deadbeef" (VLabels labels) (VGroups []) (VFrame frame)].

Definition no_metrics_ledger : list row :=
  [curation "C_deadbeef" (VLabels labels) (VGroups []) (VMetrics ∅)].

(** Every unit rejected, and an empty frame for metrics. *)
Definition all_rejected_ledger : list row :=
  [curation "C_deadbeef"
     (VLabels (<[1 := ["noise"]]> (<[2 := ["reject"]]>
                                    {[3 := ["good"; "noise"]]})))
     (VGroups []) (VFrame [])].

(** The key as [make] would hold it after the export record, and a world
    in which that record is written next to an earlier export, of curation
    [C_0ddba11] with its unit 7. *)
Definition exported_key : row :=
  <["analysis_file_name" := VStr "analysis.nwb"]>
  (<["units_object_id" := VStr "units"]> (curation_key "C_deadbeef")).

Definition earlier_key : row :=
  <["analysis_file_name" := VStr "earlier.nwb"]>
  (<["units_object_id" := VStr "units"]> (curation_key "C_0ddba11")).

Definition exported_world : World :=
  with_rows T_Unit
    [<["unit_id" := VInt 7]>
     (<["label" := VStr ""]> (<["snr" := VInt 3]> (curation_key "C_0ddba11")))]
    (with_rows T_FinalizedSpikeSorting [earlier_key; exported_key]
       (world framed_ledger)).

(** Two calls of [insert_curation]. *)
Definition first_call : InsertCall :=
  mkInsertCall 5 sorting_key Curation.original VNone VNone VNone (VStr "").

Definition second_call : InsertCall :=
  mkInsertCall 5 sorting_key (VStr "C_deadbeef") (VLabels labels) VNone VNone
    (VStr "manual").

End Scenario.

(** ** Vocabulary of the properties *)

(** The class of the exception, if the result is one. *)
Definition raised {A} (r : result A) : option exn_class :=
  match r with
  | Raised c _ => Some c
  | _ => None
  end.

Definition returned {A} (r : result A) : option A :=
  match r with
  | Returned a => Some a
  | _ => None
  end.

(** The call returns normally. *)
Definition returns {A} (out : result A * World) : Prop :=
  is_Some (returned out.1).

(** The call raises and the ledger is as before. *)
Definition rejected {A} (out : result A * World) (w : World) : Prop :=
  is_Some (raised out.1) ∧ rows out.2 T_Curation = rows w T_Curation.

(** A computation that leaves the world as it found it. *)
Definition reads {A} (m : M A) : Prop := ∀ w, (m w).2 = w.

(** A computation that never returns normally. *)
Definition fails {A} (m : M A) : Prop := ∀ w, returned (m w).1 = None.

(** The id tried at the [k]-th draw of [uuid4]. *)
Definition candidate (ext : Collaborators) (k : nat) : string :=
  "C_" +:+ substring 0 8 (uuid4 ext k).

(** A record of the ledger has the id. *)
Definition taken (w : World) (id : string) : Prop :=
  Some (VStr id) ∈ curation_ids w.

(** The entries of the key that [insert_curation] sets itself. *)
Definition set_by_insert : list string :=
  ["curation_id"; "parent_curation_id"; "description"; "labels";
   "merge_groups"; "metrics"].

(** The row [insert_curation] hands to [insert1]. *)
Definition new_row (key : row) (id : string)
    (parent labels groups metrics descr : pyval) : row :=
  <["metrics" := match metrics with VNone => VMetrics ∅ | _ => metrics end]>
  (<["merge_groups" := match groups with VNone => VGroups [] | _ => groups end]>
   (<["labels" := match labels with VNone => VLabels ∅ | _ => labels end]>
    (<["description" := descr]>
     (<["parent_curation_id" := parent]>
      (<["curation_id" := VStr id]> key))))).

(** The key lacks an attribute of the sorting reference. *)
Definition sorting_reference_missing (ext : Collaborators) (key : row) : Prop :=
  ∃ a, a ∈ SpikeSorting_pk ext ∧ key !! a = None.

(** [parent] is neither the root sentinel nor the id of a record. *)
Definition dangling_parent (w : World) (parent : pyval) : Prop :=
  parent ≠ Curation.original ∧ Some parent ∉ curation_ids w.

(** The spike train of a merged unit, in the words of the specification:
    the trains of the units of the group, concatenated and sorted again. *)
Definition merged_train (base : Sorting) (group : list Z) : list Z :=
  sort_ids (concat (omap (get_unit_spike_train base) group)).

(** [view] is [base] with [merge_groups] applied, in the words of the
    specification: the units of a group are gone, each group has become one
    unit with a new id and the merged train, and the other units are as in
    [base]. *)
Definition merged_view (base : Sorting) (merge_groups : list (list Z))
    (view : Sorting) : Prop :=
  (∀ group unit_id, group ∈ merge_groups → unit_id ∈ group →
     unit_id ∉ get_unit_ids view) ∧
  (∀ group, group ∈ merge_groups →
     ∃ id, (id ∉ get_unit_ids base) ∧
           get_unit_spike_train view id = Some (merged_train base group)) ∧
  (∀ unit_id, (∀ group, group ∈ merge_groups → unit_id ∉ group) →
     get_unit_spike_train view unit_id = get_unit_spike_train base unit_id).

(** A label set meets the rejection set of the specification. *)
Definition rejected_labels (labels : list string) : Prop :=
  "reject" ∈ labels ∨ "noise" ∈ labels.

(** * spikesorting_sorting.py *)

(** ** numpy arrays, as far as [SpikeSorting.make] looks at them

    An array is its shape and its elements in row-major order. *)
Record ndarray := mkArray { shape : list nat; data : list Z }.

#[global] Instance ndarray_eq_dec : EqDecision ndarray.
Proof. solve_decision. Defined.

(** [a.ndim] and [a.size] *)
Definition ndim (a : ndarray) : nat := length (shape a).

Definition array_size (a : ndarray) : nat := foldr Nat.mul 1%nat (shape a).

(** [np.expand_dims(a, 0)] *)
Definition expand_dims (a : ndarray) : ndarray :=
  mkArray (1%nat :: shape a) (data a).

(** [if a:]: an empty array is false, an array of one element is that
    element, a larger one refuses. *)
Definition array_truth (a : ndarray) : result bool :=
  match array_size a with
  | 0%nat => Returned false
  | 1%nat => Returned (negb (hd 0 (data a) =? 0))
  | _ => Raised ValueError
           "The truth value of an array with more than one element is ambiguous"
  end.

(** The [i]-th sub-array along the first axis. *)
Definition sub_array (s : list nat) (elements : list Z) (i : nat) : ndarray :=
  let n := foldr Nat.mul 1%nat s in
  mkArray s (take n (drop (i * n) elements)).

(** [a[i]] for [i >= 0] *)
Definition array_item (a : ndarray) (i : nat) : result ndarray :=
  match shape a with
  | [] => Raised IndexError "too many indices for array"
  | n :: s =>
      if (i <? n)%nat
      then Returned (sub_array s (data a) i)
      else Raised IndexError "index is out of bounds for axis 0"
  end.

(** [for x in a] *)
Definition array_rows (a : ndarray) : result (list ndarray) :=
  match shape a with
  | [] => Raised TypeError "iteration over a 0-d array"
  | n :: s => Returned (sub_array s (data a) <$> seq 0 n)
  end.

(** What [spikesorting_sorting.py] calls and does not define: tables and
    helpers of other modules, numpy, spikeinterface, [tempfile], [time],
    the DataJoint configuration and the deletion of the base class. *)
Record SortingLibrary := {
  (* [(ArtifactRemovedIntervalList & key).fetch1('artifact_times')] *)
  fetch_artifact_times : row → World → result ndarray;
  (* [np.searchsorted(timestamps, x)] *)
  searchsorted : pyval → ndarray → World → result Z;
  (* [np.arange(a, b)] *)
  arange : Z → Z → World → result pyval;
  (* [np.asarray(l).flatten().tolist()] *)
  flatten_tolist : list pyval → World → result pyval;
  (* [recording.get_num_segments()] *)
  get_num_segments : pyval → World → result Z;
  (* [si.concatenate_recordings(recording.recording_list)] *)
  concatenate_recordings : pyval → World → result pyval;
  (* [sit.remove_artifacts(recording=..., list_triggers=..., ms_before=0,
      ms_after=0, mode='zeros')] *)
  remove_artifacts : pyval → pyval → World → result pyval;
  (* [(SpikeSorterParameters & key).fetch1('sorter', 'sorter_params')] *)
  fetch_sorter : row → World → result (pyval * pyval);
  (* [tempfile.TemporaryDirectory(dir=d).name] *)
  temporary_directory : option string → World → result string;
  (* [sis.run_sorter(sorter, recording, output_folder=...,
      delete_output_folder=True, **sorter_params)] *)
  run_sorter : pyval → pyval → string → pyval → World → result pyval;
  (* [int(time.time())] *)
  time : World → Z;
  (* [SpikeSortingRecording._get_recording_name(key)] *)
  _get_recording_name : row → World → result string;
  (* [dj.config['database.user']] *)
  database_user : World → result pyval;
  (* [(SpikeSortingRecordingSelection &
       (SpikeSortingRecordingSelection & entry).proj()).fetch1()['team_name']] *)
  team_name : row → World → result pyval;
  (* [(LabTeam.LabTeamMember & {'team_name': t}).fetch('lab_member_name')] *)
  lab_member_names : pyval → World → result (list pyval);
  (* [(LabMember.LabMemberInfo & {'lab_member_name': m})
       .fetch1('datajoint_user_name')] *)
  datajoint_user_name : pyval → World → result pyval;
  (* [super().delete()] on the table restricted as [self] is *)
  super_delete : row → World → result unit * World;
  (* [next(os.walk(d))[1]] *)
  subdirectories : string → World → result (list string)
}.

(** [a + b] where [a] is a [str]. *)
Definition concat_str (a : string) (b : pyval) : M string :=
  match b with
  | VStr s => mret (a +:+ s)
  | _ => raise TypeError "can only concatenate str to str"
  end.

(** [os.environ[name]] *)
Definition environ_get (name : string) : M string := λ w,
  match environ w !! name with
  | Some d => (Returned d, w)
  | None => (Raised KeyError name, w)
  end.

(** [shutil.rmtree(path)] *)
Definition rmtree (path : string) : M unit := λ w,
  match folders w !! path with
  | Some _ => (Returned tt, with_folders (delete path (folders w)) w)
  | None => (Raised OSError path, w)
  end.

Module SpikeSorting.
Section WithCollaborators.
Context (ext : Collaborators) (lib : SortingLibrary).

(** [self.fetch(attr)]: the attribute has to be one of the heading. *)
Definition fetch_attr (t : table) (attr : string) : M (list pyval) := λ w,
  if bool_decide (attr ∈ DataJoint.heading ext t)
  then (Returned (omap (λ r : row, r !! attr) (rows w t)), w)
  else (Raised DataJointError attr, w).

(** [_get_sorting_name(self, key)] *)
Definition _get_sorting_name (key : row) : M string :=
  recording_name ← ask (_get_recording_name lib key);
  let sorting_name := recording_name +:+ "_" in
  sorter ← getitem key "sorter";
  sorting_name ← concat_str sorting_name sorter;
  let sorting_name := sorting_name +:+ "_" in
  sorter_params_name ← getitem key "sorter_params_name";
  sorting_name ← concat_str sorting_name sorter_params_name;
  let sorting_name := sorting_name +:+ "_" in
  list_name ← getitem key "artifact_removed_interval_list_name";
  concat_str sorting_name list_name.

(** The [for interval in artifact_times:] loop of [make]. *)
Fixpoint triggers (timestamps : pyval) (intervals : list ndarray)
  : M (list pyval) :=
  match intervals with
  | [] => mret []
  | interval :: rest =>
      first ← lift (array_item interval 0);
      start ← ask (searchsorted lib timestamps first);
      second ← lift (array_item interval 1);
      stop ← ask (searchsorted lib timestamps second);
      trigger ← ask (arange lib start stop);
      list_triggers ← triggers timestamps rest;
      mret (trigger :: list_triggers)
  end.

(** The body of [if artifact_times:] (lines 115-125). *)
Definition zero_artifacts (recording timestamps : pyval)
    (artifact_times : ndarray) : M pyval :=
  intervals ← lift (array_rows artifact_times);
  list_triggers ← triggers timestamps intervals;
  list_triggers ← ask (flatten_tolist lib list_triggers);
  segments ← ask (get_num_segments lib recording);
  recording ← (if 1 <? segments
               then ask (concatenate_recordings lib recording)
               else mret recording);
  ask (remove_artifacts lib recording list_triggers).

(** [make(self, key)] *)
Definition make (key : row) : M unit :=
  recording_path ←
    DataJoint.fetch1 ext T_SpikeSortingRecording key "recording_path";
  recording ← load_extractor recording_path;
  timestamps ← ask (_get_recording_timestamps ext recording);
  artifact_times ← ask (fetch_artifact_times lib key);
  let artifact_times :=
    if (ndim artifact_times =? 1)%nat
    then expand_dims artifact_times
    else artifact_times in
  has_artifacts ← lift (array_truth artifact_times);
  recording ← (if has_artifacts : bool
               then zero_artifacts recording timestamps artifact_times
               else mret recording);
  '(sorter, sorter_params) ← ask (fetch_sorter lib key);
  sorter_temp_dir ←
    (λ w, (temporary_directory lib (environ w !! "NWB_DATAJOINT_TEMP_DIR") w,
           w));
  sorting ← ask (run_sorter lib sorter recording sorter_temp_dir sorter_params);
  time_of_sort ← ask (λ w, Returned (time lib w));
  let key := <["time_of_sort" := VInt time_of_sort]> key in
  sorting_folder ← getenv_path "NWB_DATAJOINT_SORTING_DIR";
  sorting_name ← _get_sorting_name key;
  let sorting_path := path_join ext sorting_folder sorting_name in
  let key := <["sorting_path" := VStr sorting_path]> key in
  _ ← remove_if_exists sorting_path;
  sorting ← save sorting sorting_path;
  DataJoint.insert1 ext T_SpikeSorting key.

(** The inner loop of [delete]: the DataJoint user names of the members. *)
Fixpoint user_names (lab_member_name_list : list pyval) : M (list pyval) :=
  match lab_member_name_list with
  | [] => mret []
  | lab_member_name :: rest =>
      name ← ask (datajoint_user_name lib lab_member_name);
      names ← user_names rest;
      mret (name :: names)
  end.

(** The outer loop of [delete]: [permission_bool]. *)
Fixpoint permissions (current_user_name : pyval) (entries : list row)
  : M (list bool) :=
  match entries with
  | [] => mret []
  | entry :: rest =>
      team ← ask (team_name lib entry);
      lab_member_name_list ← ask (lab_member_names lib team);
      datajoint_user_names ← user_names lab_member_name_list;
      let permitted := bool_decide (current_user_name ∈ datajoint_user_names) in
      permission_bool ← permissions current_user_name rest;
      mret (permitted :: permission_bool)
  end.

(** What [permission_bool] says of an entry: the team of the entry is found,
    and so are its members and their DataJoint user names, and the current
    user is one of them. *)
Definition permitted (current_user_name : pyval) (entry : row) (w : World)
  : Prop :=
  ∃ team lab_member_name_list datajoint_user_names,
    team_name lib entry w = Returned team ∧
    lab_member_names lib team w = Returned lab_member_name_list ∧
    user_names lab_member_name_list w = (Returned datajoint_user_names, w) ∧
    current_user_name ∈ datajoint_user_names.

(** [np.sum(permission_bool)] *)
Definition np_sum (permission_bool : list bool) : Z :=
  foldr (λ (b : bool) acc, (if b then 1 else 0) + acc) 0 permission_bool.

(** [delete(self)], for [self] the table restricted by [restriction]. *)
Definition delete (restriction : row) : M unit :=
  current_user_name ← ask (database_user lib);
  entries ← (λ w, (Returned (DataJoint.restrict ext T_SpikeSorting
                               restriction w), w));
  permission_bool ← permissions current_user_name entries;
  if np_sum permission_bool =? Z.of_nat (length entries)
  then super_delete lib restriction
  else raise Exception
         "You do not have permission to delete all specified entries. Not deleting anything.".

(** The loop of [nightly_cleanup]; [os.environ] is read for [full_path] and
    again for [rmtree]. *)
Fixpoint remove_unused (dir_names : list string)
    (analysis_file_names : list pyval) : M unit :=
  match dir_names with
  | [] => mret tt
  | dir :: rest =>
      if negb (bool_decide (VStr dir ∈ analysis_file_names))
      then
        sorting_dir ← environ_get "NWB_DATAJOINT_SORTING_DIR";
        sorting_dir ← environ_get "NWB_DATAJOINT_SORTING_DIR";
        _ ← rmtree (path_join ext sorting_dir dir);
        remove_unused rest analysis_file_names
      else remove_unused rest analysis_file_names
  end.

(** [nightly_cleanup(self)] *)
Definition nightly_cleanup : M unit :=
  sorting_dir ← environ_get "NWB_DATAJOINT_SORTING_DIR";
  dir_names ← ask (subdirectories lib sorting_dir);
  analysis_file_names ← fetch_attr T_SpikeSorting "analysis_file_name";
  remove_unused dir_names analysis_file_names.

End WithCollaborators.
End SpikeSorting.

(** An installation for the examples of spike sorting. *)
Module SortingExamples.
Import Scenario.

(** The library, with the given artifact array on file. *)
Definition lib (artifact_times : ndarray) : SortingLibrary := {|
  fetch_artifact_times := λ _ _, Returned artifact_times;
  searchsorted := λ _ x _, Returned (hd 0 (data x));
  arange := λ start stop _, Returned (VInts (seqZ start (stop - start)));
  flatten_tolist := λ l _, Returned (VGroups []);
  get_num_segments := λ _ _, Returned 1;
  concatenate_recordings := λ recording _, Returned recording;
  remove_artifacts := λ recording _ _, Returned recording;
  fetch_sorter := λ _ _, Returned (VStr "kilosort", VParams ∅);
  temporary_directory := λ _ _, Returned "/tmp/sorter";
  run_sorter := λ _ _ _ _ _, Returned (VSorting sorting);
  time := λ _, 1650000000;
  _get_recording_name := λ _ _, Returned "day1_0";
  database_user := λ _, Returned (VStr "alice");
  team_name := λ entry _,
    match entry !! "sorter" with
    | Some (VStr "kilosort") => Returned (VStr "others")
    | _ => Returned (VStr "mine")
    end;
  lab_member_names := λ team _,
    if bool_decide (team = VStr "mine")
    then Returned [VStr "Alice"; VStr "Bob"]
    else Returned [VStr "Bob"];
  datajoint_user_name := λ member _,
    if bool_decide (member = VStr "Alice")
    then Returned (VStr "alice")
    else Returned (VStr "bob");
  super_delete := λ restriction w,
    (Returned tt,
     with_rows T_SpikeSorting
       (List.filter
          (λ r, negb (DataJoint.agrees (DataJoint.heading ext T_SpikeSorting)
                        restriction r))
          (rows w T_SpikeSorting)) w);
  subdirectories := λ _ _, Returned ["s1"; "stale"]
|}.

(** No artifact interval, and one. *)
Definition no_artifacts : ndarray := mkArray [0; 2]%nat [].

Definition one_artifact : ndarray := mkArray [1; 2]%nat [10; 20].

(** The key of a sorting still to be made. *)
Definition kilosort_key : row :=
  <["sorter" := VStr "kilosort"]>
  (<["artifact_removed_interval_list_name" := VStr "none"]> sorting_key).

End SortingExamples.

(** * Names, metrics files and default parameters of spikesorting_curation.py *)

Definition with_json_files (files : gmap string (gmap string (gmap string Z)))
    (w : World) : World :=
  mkWorld (db w) (folders w) files (environ w) (analysis_files w)
          (uuid_draws w).

(** A key of a Python dict of metrics: a unit id or a string. *)
Inductive pykey :=
  | KInt (n : Z)
  | KStr (s : string).

#[global] Instance pykey_eq_dec : EqDecision pykey.
Proof. solve_decision. Defined.

(** [str(key)] *)
Definition str_key (key : pykey) : string :=
  match key with
  | KInt n => pretty n
  | KStr s => s
  end.

(** A dict of metrics, as the list of its items in the order of
    insertion. *)
Definition metric_dict : Type := list (pykey * Z).

Module Waveforms.

(** [_get_waveform_extractor_name(self, key)] *)
Definition _get_waveform_extractor_name (key : row) : M string :=
  curation_id ← getitem key "curation_id";
  match curation_id with
  | VStr id => mret (id +:+ "_waveform")
  | _ => raise TypeError "unsupported operand type(s) for +"
  end.

End Waveforms.

Module QualityMetrics.

(** [_get_quality_metrics_name(self, key)] *)
Definition _get_quality_metrics_name (key : row) : M string :=
  wf_name ← Waveforms._get_waveform_extractor_name key;
  mret (wf_name +:+ "_qm").

(** The inner loop of [_dump_to_json]: [m]. *)
Definition stringify (value : metric_dict) : gmap string Z :=
  fold_left (λ m '(unit_id, metric_val), <[str_key unit_id := metric_val]> m)
    value ∅.

(** [_dump_to_json(self, qm_dict, save_path)]; the file is written
    whatever the path, as folders are by [save]. *)
Definition _dump_to_json (qm_dict : list (pykey * metric_dict))
    (save_path : string) : M unit :=
  let new_qm :=
    fold_left (λ new_qm '(key, value), <[str_key key := stringify value]> new_qm)
      qm_dict ∅ in
  modify (λ w, with_json_files (<[save_path := new_qm]> (json_files w)) w).

End QualityMetrics.

Module AutomaticCurationParameters.
Section WithCollaborators.
Context (ext : Collaborators).

(** A row given as a list: the values of the heading, in its order. *)
Definition positional (t : table) (values : list pyval) : M row :=
  if (length values =? length (DataJoint.heading ext t))%nat
  then mret (list_to_map (zip (DataJoint.heading ext t) values))
  else raise DataJointError "Incorrect number of attributes".

(** [Table.insert1(r, skip_duplicates=True)]: as [insert1], but a row
    whose primary key is in the table is left as it is. *)
Definition insert1_skip_duplicates (t : table) (r : row) : M unit := λ w,
  match DataJoint.check_row ext t r with
  | Some (c, a) => (Raised c a, w)
  | None =>
      if DataJoint.has_parents ext t r w
      then
        if bool_decide
             (List.filter (DataJoint.agrees (DataJoint.primary_key ext t) r)
                (rows w t) = [])
        then (Returned tt,
              with_rows t (rows w t ++ [DataJoint.stored ext t r]) w)
        else (Returned tt, w)
      else (Raised DataJointError "foreign key constraint fails", w)
  end.

(** The row of the default parameters. *)
Definition default_row : row :=
  <["auto_curation_params_name" := VStr "default"]>
  (<["merge_params" := VParams ∅]> {["label_params" := VParams ∅]}).

(** A row of the table has the name. *)
Definition named (name : string) (w : World) : Prop :=
  ∃ r, r ∈ rows w T_AutomaticCurationParameters ∧
       r !! "auto_curation_params_name" = Some (VStr name).

(** [insert_default(self)] *)
Definition insert_default : M unit :=
  let auto_curation_params_name := VStr "default" in
  let merge_params := VParams ∅ in
  let label_params := VParams ∅ in
  r ← positional T_AutomaticCurationParameters
        [auto_curation_params_name; merge_params; label_params];
  insert1_skip_duplicates T_AutomaticCurationParameters r.

End WithCollaborators.
End AutomaticCurationParameters.

(** An installation with quality metrics for two curations of one
    sorting, computed with the same parameters. *)
Module MetricsExamples.
Import Scenario.

Definition two_metrics_world : World :=
  with_rows T_QualityMetrics
    (rows (world plain_ledger) T_QualityMetrics ++
     [<["waveform_params_name" := VStr "default"]>
      (<["metric_params_name" := VStr "franklab_default"]>
       (<["quality_metrics_path" := VStr "/waveforms/qm2.json"]>
        (<["analysis_file_name" := VStr "qm2.nwb"]>
         (<["object_id" := VStr "qm2"]>
          (<["curation_id" := VStr "C_0ddba11"]> sorting_key)))))])
    (world plain_ledger).

End MetricsExamples.

(** * Vocabulary of the further properties *)


(** The columns [metrics_fields] gives when both tables have a row: the
    metric columns of the [Unit] table. *)
Definition metric_columns_of_Unit : list string :=
  ["noise_overlap"; "isolation_score"; "isi_violation"; "snr";
   "firing_rate"; "num_spikes"].

(** A unit occurs in one of the groups. *)
Definition in_groups (groups : list (list Z)) (u : Z) : Prop :=
  ∃ g, g ∈ groups ∧ u ∈ g.

(** Examples for the properties of the other functions. *)
Module Examples.
Import Scenario.

(** The installation with merge parameters set. *)
Definition merging_world : World :=
  with_rows T_AutomaticCurationParameters
    [<["auto_curation_params_name" := VStr "default"]>
     (<["merge_params" := VParams {["isi_threshold" := 2]}]>
      {["label_params" := VParams ∅]})]
    (world plain_ledger).

End Examples.

(** * Properties *)

(** Close a decidable closed goal by evaluation. *)
Ltac by_evaluation := refine (bool_decide_unpack _ _); vm_compute; exact I.

Ltac no_return :=
  let H := fresh in intros [? H]; simpl in H; discriminate.

(** ** The monad *)

Lemma bind_unfold {A B} (m : M A) (f : A → M B) (w : World) :
  (m ≫= f) w =
  match m w with
  | (Returned a, w') => f a w'
  | (Raised c msg, w') => (Raised c msg, w')
  | (OutOfFuel, w') => (OutOfFuel, w')
  end.
Proof. reflexivity. Qed.

Lemma bind_returned {A B} (m : M A) (f : A → M B) w b w' :
  (m ≫= f) w = (Returned b, w') →
  ∃ a w1, m w = (Returned a, w1) ∧ f a w1 = (Returned b, w').
Proof.
  rewrite bind_unfold. destruct (m w) as [[a|c msg|] w1]; try discriminate.
  intros H. by exists a, w1.
Qed.

Lemma bind_step {A B} (m : M A) (f : A → M B) w a w1 :
  m w = (Returned a, w1) → (m ≫= f) w = f a w1.
Proof. intros H. by rewrite bind_unfold, H. Qed.

(** ** DataJoint *)

Section DataJointFacts.
Context (ext : Collaborators).

Lemma rows_with_rows t rs w : rows (with_rows t rs w) t = rs.
Proof. unfold rows, with_rows; simpl. by rewrite lookup_insert_eq. Qed.

Lemma rows_with_rows_ne t t' rs w :
  t ≠ t' → rows (with_rows t rs w) t' = rows w t'.
Proof. intros H. unfold rows, with_rows; simpl. by rewrite lookup_insert_ne. Qed.

Lemma restrict_db t key w w' :
  db w' = db w → DataJoint.restrict ext t key w' = DataJoint.restrict ext t key w.
Proof. intros H. unfold DataJoint.restrict, rows. by rewrite H. Qed.

Lemma agrees_single attrs c v (r : row) :
  c ∈ attrs →
  DataJoint.agrees attrs {[c := v]} r = true ↔ r !! c = Some v.
Proof.
  intros Hc. unfold DataJoint.agrees. rewrite forallb_forall. split.
  - intros H. specialize (H c). rewrite lookup_singleton_eq in H.
    eapply bool_decide_eq_true_1. apply H. by apply list_elem_of_In.
  - intros H a _. destruct (decide (a = c)) as [->|Hne].
    + rewrite lookup_singleton_eq. by apply bool_decide_eq_true_2.
    + by rewrite lookup_singleton_ne.
Qed.

Lemma restrict_single_nil t c v w :
  c ∈ DataJoint.heading ext t →
  DataJoint.restrict ext t {[c := v]} w = [] ↔
  ∀ r, r ∈ rows w t → r !! c ≠ Some v.
Proof.
  intros Hc. unfold DataJoint.restrict. split.
  - intros H r Hr Hv.
    assert (In r (List.filter
                    (DataJoint.agrees (DataJoint.heading ext t) {[c := v]})
                    (rows w t))) as Hin.
    { apply filter_In. split; [by apply list_elem_of_In|].
      by apply agrees_single. }
    rewrite H in Hin. destruct Hin.
  - intros H. induction (rows w t) as [|r rs IH]; [done|]. simpl.
    destruct (DataJoint.agrees _ _ r) eqn:E.
    + apply agrees_single in E; [|done]. exfalso. eapply H; [|done]. left.
    + apply IH. intros r' Hr'. apply H. by right.
Qed.

Lemma curation_id_in_heading : "curation_id" ∈ DataJoint.heading ext T_Curation.
Proof. unfold DataJoint.heading; simpl. left. Qed.

Lemma stored_primary t (r : row) a v :
  a ∈ DataJoint.primary_key ext t → r !! a = Some v →
  DataJoint.stored ext t r !! a = Some v.
Proof.
  intros Ha Hr. unfold DataJoint.stored.
  induction (DataJoint.dependent ext t) as [|[a' dflt] deps IH]; simpl.
  - induction (DataJoint.primary_key ext t) as [|k ks IHk]; simpl.
    + by apply elem_of_nil in Ha.
    + destruct (decide (k = a)) as [->|Hne].
      * rewrite Hr. by rewrite lookup_insert_eq.
      * apply elem_of_cons in Ha as [->|Ha]; [done|].
        destruct (r !! k); [rewrite lookup_insert_ne by done|]; by apply IHk.
  - destruct (decide (a' = a)) as [->|Hne].
    + rewrite Hr. by rewrite lookup_insert_eq.
    + destruct (r !! a'), dflt; rewrite ?lookup_insert_ne by done; done.
Qed.

Lemma insert1_returned t r w u w' :
  DataJoint.insert1 ext t r w = (Returned u, w') →
  w' = with_rows t (rows w t ++ [DataJoint.stored ext t r]) w.
Proof.
  unfold DataJoint.insert1.
  destruct (DataJoint.check_row ext t r) as [[c a]|]; [discriminate|].
  destruct (DataJoint.has_parents ext t r w); [|discriminate].
  destruct (bool_decide _); [|discriminate].
  by intros [= _ <-].
Qed.

Lemma insert1_raised t r w c msg w' :
  DataJoint.insert1 ext t r w = (Raised c msg, w') → w' = w.
Proof.
  unfold DataJoint.insert1.
  destruct (DataJoint.check_row ext t r) as [[c' a]|]; [by intros [= _ _ <-]|].
  destruct (DataJoint.has_parents ext t r w); [|by intros [= _ _ <-]].
  destruct (bool_decide _); [discriminate|by intros [= _ _ <-]].
Qed.

Lemma insert1_missing t (r : row) a w :
  a ∈ DataJoint.required ext t → r !! a = None →
  ∃ msg, DataJoint.insert1 ext t r w = (Raised DataJointError msg, w).
Proof.
  intros Ha Hr. unfold DataJoint.insert1, DataJoint.check_row.
  destruct (find _ (DataJoint.required ext t)) as [a'|] eqn:E; [by eexists|].
  exfalso. apply list_elem_of_In in Ha.
  eapply find_none in E; [|exact Ha]. simpl in E.
  by apply bool_decide_eq_false_1 in E.
Qed.

End DataJointFacts.

(** ** The curation ledger *)

Section Ledger.
Context (ext : Collaborators).

Lemma taken_restrict w id :
  DataJoint.restrict ext T_Curation {["curation_id" := VStr id]} w = [] ↔
  ¬ taken w id.
Proof.
  rewrite restrict_single_nil by apply curation_id_in_heading.
  unfold taken, curation_ids. rewrite list_elem_of_fmap. split.
  - intros H (r & Hr & Hin). by apply (H r).
  - intros H r Hin Hr. apply H. by exists r.
Qed.

Lemma generate_unique_id_S fuel w :
  Curation.generate_unique_id ext (S fuel) w =
  let w1 := with_uuid_draws (S (uuid_draws w)) w in
  if (length (DataJoint.restrict ext T_Curation
                {["curation_id" := VStr (candidate ext (uuid_draws w))]} w1) =? 0)%nat
  then (Returned (candidate ext (uuid_draws w)), w1)
  else Curation.generate_unique_id ext fuel w1.
Proof.
  cbv zeta. simpl. rewrite bind_unfold. unfold Curation.uuid_str.
  rewrite bind_unfold. unfold get_world. fold (candidate ext (uuid_draws w)).
  by destruct (_ =? _)%nat.
Qed.

Lemma generate_unique_id_db fuel : ∀ w r w',
  Curation.generate_unique_id ext fuel w = (r, w') → db w' = db w.
Proof.
  induction fuel as [|fuel IH]; intros w r w'.
  - by intros [= _ <-].
  - rewrite generate_unique_id_S. cbv zeta.
    destruct (_ =? _)%nat.
    + by intros [= _ <-].
    + intros H. by apply IH in H.
Qed.

Lemma generate_unique_id_fresh fuel : ∀ w id w',
  Curation.generate_unique_id ext fuel w = (Returned id, w') → ¬ taken w id.
Proof.
  induction fuel as [|fuel IH]; intros w id w'.
  - discriminate.
  - rewrite generate_unique_id_S. cbv zeta.
    destruct (_ =? _)%nat eqn:E.
    + intros [= <- _]. apply Nat.eqb_eq, length_zero_iff_nil in E.
      rewrite (restrict_db ext _ _ w) in E by done. by apply taken_restrict.
    + intros H. apply IH in H. unfold taken, curation_ids, rows in *. exact H.
Qed.

(** The loop ends as soon as a draw gives an id that is not taken. *)
Lemma generate_unique_id_terminates n : ∀ w,
  ¬ taken w (candidate ext (uuid_draws w + n)) →
  ∃ id w', Curation.generate_unique_id ext (S n) w = (Returned id, w').
Proof.
  induction n as [|n IH]; intros w Hfree; rewrite generate_unique_id_S; cbv zeta.
  - rewrite Nat.add_0_r in Hfree. apply taken_restrict in Hfree.
    rewrite (restrict_db ext _ _ w), Hfree by done. simpl. eauto.
  - destruct (_ =? _)%nat; [eauto|].
    apply IH. simpl. by rewrite <- Nat.add_succ_r.
Qed.

Lemma curation_ids_db w w' : db w' = db w → curation_ids w' = curation_ids w.
Proof. intros H. unfold curation_ids, rows. by rewrite H. Qed.

(** What one call does to the ledger. *)
Lemma insert_curation_ledger fuel key parent labels groups metrics descr w r w' :
  Curation.insert_curation ext fuel key parent labels groups metrics descr w
    = (r, w') →
  (∃ id key', r = Returned (VStr id, key') ∧ ¬ taken w id ∧
     curation_ids w' = curation_ids w ++ [Some (VStr id)]) ∨
  ((∀ x, r ≠ Returned x) ∧ db w' = db w).
Proof.
  unfold Curation.insert_curation. rewrite bind_unfold.
  destruct (Curation.generate_unique_id ext fuel w) as [[id|c msg|] w1] eqn:Hid.
  - pose proof (generate_unique_id_db _ _ _ _ Hid) as Hdb.
    apply generate_unique_id_fresh in Hid.
    rewrite bind_unfold.
    match goal with |- context [DataJoint.insert1 ext T_Curation ?k w1] =>
      set (row := k) end.
    destruct (DataJoint.insert1 ext T_Curation row w1) as [[u|c msg|] w2] eqn:Hins.
    + apply insert1_returned in Hins. subst w2.
      unfold getitem.
      assert (row !! "curation_id" = Some (VStr id)) as Hrow
        by (subst row; by simplify_map_eq).
      rewrite Hrow. intros [= <- <-]. left. exists id, row.
      split; [done|]. split; [done|].
      unfold curation_ids. rewrite rows_with_rows, fmap_app. simpl.
      rewrite (stored_primary ext T_Curation row "curation_id" (VStr id));
        [|by left|done].
      unfold rows. by rewrite Hdb.
    + apply insert1_raised in Hins. subst w2.
      intros [= <- <-]. right. split; [by intros|done].
    + intros [= <- <-]. right. split; [by intros|].
      unfold DataJoint.insert1 in Hins.
      repeat (case_match; try discriminate).
  - intros [= <- <-]. right. split; [by intros|].
    by eapply generate_unique_id_db.
  - intros [= <- <-]. right. split; [by intros|].
    by eapply generate_unique_id_db.
Qed.

Lemma run_insert_NoDup c w :
  NoDup (curation_ids w) → NoDup (curation_ids (run_insert ext c w).2).
Proof.
  intros Hnd. unfold run_insert.
  destruct (Curation.insert_curation _ _ _ _ _ _ _ _ w) as [r w'] eqn:H.
  apply insert_curation_ledger in H as [(id & key' & -> & Hfresh & Hids)|[_ Hdb]].
  - simpl. rewrite Hids. apply NoDup_app. split; [done|]. split.
    + intros x Hx Hx'. apply list_elem_of_singleton in Hx'. by subst x.
    + apply NoDup_singleton.
  - simpl. by rewrite (curation_ids_db _ _ Hdb).
Qed.

Lemma run_inserts_NoDup calls : ∀ w,
  NoDup (curation_ids w) → NoDup (curation_ids (run_inserts ext calls w)).
Proof.
  induction calls as [|c calls IH]; intros w Hnd; simpl; [done|].
  by apply IH, run_insert_NoDup.
Qed.

End Ledger.

(** C8.  After any sequence of inserts into a ledger whose ids are pairwise
    distinct, a successful [insert_curation] returns an id that no record of
    the ledger has, appends one record with that id, and leaves the ids of
    the ledger pairwise distinct. *)
Theorem insert_curation_ids_unique
    (ext : Collaborators) (calls : list InsertCall) (w : World)
    (c : InsertCall) (id : pyval) (key' : row) (w' : World) :
  NoDup (curation_ids w) →
  run_insert ext c (run_inserts ext calls w) = (Returned (id, key'), w') →
  (Some id ∉ curation_ids (run_inserts ext calls w)) ∧
  curation_ids w' = curation_ids (run_inserts ext calls w) ++ [Some id] ∧
  NoDup (curation_ids w').
Proof.
  intros Hnd Hrun.
  pose proof (run_inserts_NoDup ext calls w Hnd) as Hnd1.
  pose proof (run_insert_NoDup ext c _ Hnd1) as Hnd2.
  rewrite Hrun in Hnd2. simpl in Hnd2.
  unfold run_insert in Hrun.
  apply insert_curation_ledger in Hrun as [(i & k & Heq & Hfresh & Hids)|[Hne _]].
  - injection Heq as -> _. done.
  - by destruct (Hne (id, key')).
Qed.

Import Scenario.

Lemma insert_curation_ids_unique_witness :
  NoDup (curation_ids (world [])) ∧
  (Some (VStr "C_c0ffee02") ∉
     curation_ids (run_inserts ext [first_call] (world []))) ∧
  NoDup (curation_ids (run_insert ext second_call
                         (run_inserts ext [first_call] (world []))).2).
Proof.
  set (out := run_insert ext second_call
                (run_inserts ext [first_call] (world []))).
  destruct (insert_curation_ids_unique ext [first_call] (world []) second_call
              (VStr "C_c0ffee02")
              (match out.1 with Returned (_, k) => k | _ => ∅ end) out.2)
    as (Hfresh & _ & Hnd).
  - constructor.
  - by_evaluation.
  - split; [constructor|]. split; assumption.
Defined.

Lemma returns_returned {A} (a : A) w : returns (Returned a, w).
Proof. by eexists. Qed.

Section Validation.
Context (ext : Collaborators).

Lemma insert_curation_eq fuel key parent labels groups metrics descr w :
  Curation.insert_curation ext fuel key parent labels groups metrics descr w =
  match Curation.generate_unique_id ext fuel w with
  | (Returned id, w1) =>
      let r := new_row key id parent labels groups metrics descr in
      match DataJoint.insert1 ext T_Curation r w1 with
      | (Returned _, w2) => (Returned (VStr id, r), w2)
      | (Raised c msg, w2) => (Raised c msg, w2)
      | (OutOfFuel, w2) => (OutOfFuel, w2)
      end
  | (Raised c msg, w1) => (Raised c msg, w1)
  | (OutOfFuel, w1) => (OutOfFuel, w1)
  end.
Proof.
  unfold Curation.insert_curation. rewrite bind_unfold.
  destruct (Curation.generate_unique_id ext fuel w) as [[id|c msg|] w1]; try done.
  rewrite bind_unfold. cbv zeta. fold (new_row key id parent labels groups metrics descr).
  destruct (DataJoint.insert1 _ _ _ w1) as [[u|c msg|] w2]; try done.
  unfold getitem.
  assert (new_row key id parent labels groups metrics descr !! "curation_id"
          = Some (VStr id)) as -> by (unfold new_row; by simplify_map_eq).
  done.
Qed.

Lemma new_row_lookup key id parent labels groups metrics descr a :
  a ∉ set_by_insert →
  new_row key id parent labels groups metrics descr !! a = key !! a.
Proof.
  unfold set_by_insert, new_row. intros Ha.
  rewrite !not_elem_of_cons in Ha. destruct Ha as (?&?&?&?&?&?&_).
  rewrite !lookup_insert_ne by congruence. done.
Qed.

Lemma new_row_reparent key id parent parent' labels groups metrics descr a :
  a ≠ "parent_curation_id" →
  new_row key id parent labels groups metrics descr !! a =
  new_row key id parent' labels groups metrics descr !! a.
Proof.
  intros Ha. unfold new_row.
  rewrite !lookup_insert. repeat case_decide; congruence.
Qed.

Lemma agrees_ext attrs (r r' x : row) :
  (∀ a, a ∈ attrs → r !! a = r' !! a) →
  DataJoint.agrees attrs r x = DataJoint.agrees attrs r' x.
Proof.
  intros H. unfold DataJoint.agrees. induction attrs as [|a attrs IH]; [done|].
  simpl. rewrite (H a) by left. f_equal. apply IH. intros b Hb. apply H. by right.
Qed.

Lemma filter_agrees_ext attrs (r r' : row) (l : list row) :
  (∀ a, a ∈ attrs → r !! a = r' !! a) →
  List.filter (DataJoint.agrees attrs r) l = List.filter (DataJoint.agrees attrs r') l.
Proof.
  intros H. induction l as [|x l IH]; [done|]. simpl.
  by rewrite (agrees_ext _ _ _ _ H), IH.
Qed.

(** [insert1] into [Curation] looks at the row only through the required
    attributes, the types of the values and the primary keys. *)
Lemma insert1_Curation_ext (r r' : row) w :
  (∀ a, a ∈ DataJoint.required ext T_Curation → r !! a = None ↔ r' !! a = None) →
  (∀ a, DataJoint.ill_typed r' a = true → DataJoint.ill_typed r a = true) →
  (∀ a, a ∈ "curation_id" :: SpikeSorting_pk ext → r !! a = r' !! a) →
  returns (DataJoint.insert1 ext T_Curation r w) →
  returns (DataJoint.insert1 ext T_Curation r' w).
Proof.
  intros Hreq Htype Hpk.
  unfold DataJoint.insert1, DataJoint.check_row, DataJoint.has_parents, returns.
  destruct (find _ (DataJoint.required ext T_Curation)) as [a|] eqn:E1;
    [no_return|].
  destruct (find (λ a, bool_decide (r' !! a = None)) _) as [a|] eqn:E2.
  { apply find_some in E2 as [Hin E2]. apply bool_decide_eq_true_1 in E2.
    eapply find_none in E1; [|exact Hin]. simpl in E1.
    apply bool_decide_eq_false_1 in E1. apply list_elem_of_In in Hin.
    by apply Hreq in E2. }
  destruct (find (DataJoint.ill_typed r) _) as [a|] eqn:E3; [no_return|].
  destruct (find (DataJoint.ill_typed r') _) as [a|] eqn:E4.
  { apply find_some in E4 as [Hin E4]. apply Htype in E4.
    eapply find_none in E3; [|exact Hin]. congruence. }
  simpl. rewrite !andb_true_r.
  rewrite <- (filter_agrees_ext (SpikeSorting_pk ext) r r')
    by (intros a Ha; apply Hpk; by right).
  rewrite <- (filter_agrees_ext ("curation_id" :: SpikeSorting_pk ext) r r')
    by done.
  destruct (negb _); [|no_return].
  destruct (bool_decide _); [|no_return].
  intros _. apply returns_returned.
Qed.

Lemma required_Curation :
  DataJoint.required ext T_Curation =
  "curation_id" :: SpikeSorting_pk ext ++ ["labels"; "merge_groups"; "metrics"].
Proof. reflexivity. Qed.

Lemma ill_typed_reparent key id parent parent' labels groups metrics descr a :
  DataJoint.fits (Varchar 10) parent' = true →
  DataJoint.ill_typed
    (new_row key id parent' labels groups metrics descr) a = true →
  DataJoint.ill_typed
    (new_row key id parent labels groups metrics descr) a = true.
Proof.
  intros Hfit. destruct (decide (a = "parent_curation_id")) as [->|Hne].
  - unfold DataJoint.ill_typed.
    assert (new_row key id parent' labels groups metrics descr
              !! "parent_curation_id" = Some parent') as ->
      by (unfold new_row; by simplify_map_eq).
    change (DataJoint.declared_type "parent_curation_id")
      with (Some (Varchar 10)).
    cbv beta iota. by rewrite Hfit.
  - unfold DataJoint.ill_typed.
    by rewrite (new_row_reparent _ _ parent parent').
Qed.

(** The parent id is not looked up: an insert that gets through with one
    parent id gets through with any other that fits the column. *)
Lemma insert_curation_any_parent fuel key parent parent' labels groups metrics descr w :
  "parent_curation_id" ∉ SpikeSorting_pk ext →
  DataJoint.fits (Varchar 10) parent' = true →
  returns (Curation.insert_curation ext fuel key parent labels groups metrics descr w) →
  returns (Curation.insert_curation ext fuel key parent' labels groups metrics descr w).
Proof.
  intros Hpk Hfit. rewrite !insert_curation_eq.
  destruct (Curation.generate_unique_id ext fuel w) as [[id|c msg|] w1];
    [|no_return..].
  cbv zeta. intros Hret.
  assert (returns (DataJoint.insert1 ext T_Curation
            (new_row key id parent labels groups metrics descr) w1)) as Hins.
  { destruct (DataJoint.insert1 _ _ _ w1) as [[u|c msg|] w2];
      [apply returns_returned|by destruct Hret as [? Hx]; simpl in Hx..]. }
  eapply (insert1_Curation_ext _
            (new_row key id parent' labels groups metrics descr)) in Hins.
  - clear Hret. destruct (DataJoint.insert1 _ _ _ w1) as [[u|c msg|] w2];
      [apply returns_returned|by destruct Hins as [? Hx]; simpl in Hx..].
  - intros a Ha. rewrite required_Curation in Ha.
    destruct (decide (a = "parent_curation_id")) as [->|Hne].
    + exfalso. apply elem_of_cons in Ha as [[=]|Ha].
      apply elem_of_app in Ha as [Ha|Ha]; [done|].
      rewrite !elem_of_cons in Ha. destruct Ha as [[=]|[[=]|[[=]|Ha]]].
      by apply elem_of_nil in Ha.
    + by rewrite (new_row_reparent _ _ parent parent').
  - intros a. by apply ill_typed_reparent.
  - intros a Ha. apply new_row_reparent. intros ->.
    apply elem_of_cons in Ha as [[=]|Ha]. done.
Qed.

Lemma stored_dependent t (r : row) a v :
  a ∈ (DataJoint.dependent ext t).*1 → r !! a = Some v →
  DataJoint.stored ext t r !! a = Some v.
Proof.
  intros Ha Hr. unfold DataJoint.stored.
  induction (DataJoint.dependent ext t) as [|[a' dflt] deps IH]; simpl.
  - by apply elem_of_nil in Ha.
  - destruct (decide (a' = a)) as [->|Hne].
    + rewrite Hr. by rewrite lookup_insert_eq.
    + simpl in Ha. apply elem_of_cons in Ha as [?|Ha]; [congruence|].
      destruct (r !! a'), dflt; rewrite ?lookup_insert_ne by done; by apply IH.
Qed.

End Validation.

(** C9, as amended.  [insert_curation] fails with an error, that of the
    database insert, and inserts nothing, whenever the key lacks an
    attribute of the sorting reference. *)
Theorem insert_curation_checks
    (ext : Collaborators) (fuel : nat) (key : row)
    (parent labels groups metrics descr : pyval) (w : World)
    (id : string) (w1 : World) :
  Forall (λ a, a ∉ set_by_insert) (SpikeSorting_pk ext) →
  Curation.generate_unique_id ext fuel w = (Returned id, w1) →
  sorting_reference_missing ext key →
  let out :=
    Curation.insert_curation ext fuel key parent labels groups metrics descr w
  in
  (∃ msg, out.1 = Raised DataJointError msg) ∧
  rows out.2 T_Curation = rows w T_Curation.
Proof.
  intros Hdisj Hid (a & Ha & Hmiss). cbv zeta.
  rewrite Forall_forall in Hdisj.
  pose proof (generate_unique_id_db ext _ _ _ _ Hid) as Hdb.
  rewrite insert_curation_eq, Hid. cbv zeta.
  destruct (insert1_missing ext T_Curation
              (new_row key id parent labels groups metrics descr) a w1)
    as [msg Hins].
  - unfold DataJoint.required; simpl. right. apply elem_of_app. by left.
  - rewrite new_row_lookup; [done|by apply Hdisj].
  - rewrite Hins. simpl. split; [by exists msg|]. unfold rows. by rewrite Hdb.
Qed.

(** C9, as stated, fails: on the empty ledger an insert whose parent id
    names no record is accepted and adds a record. *)
Lemma insert_curation_dangling_parent_accepted :
  let w := world [] in
  let out := Curation.insert_curation ext 5 sorting_key (VStr "C_0badc0de")
               VNone VNone VNone (VStr "") w in
  dangling_parent w (VStr "C_0badc0de") ∧ ¬ rejected out w.
Proof.
  cbv zeta. split.
  - by_evaluation.
  - by_evaluation.
Qed.

Lemma insert_curation_checks_witness :
  let out :=
    Curation.insert_curation ext 5 (delete "sorter" sorting_key)
      (VStr "C_0badc0de") VNone VNone VNone (VStr "") (world []) in
  (∃ msg, out.1 = Raised DataJointError msg) ∧
  rows out.2 T_Curation = rows (world []) T_Curation.
Proof.
  apply (insert_curation_checks ext 5 (delete "sorter" sorting_key)
           (VStr "C_0badc0de") VNone VNone VNone (VStr "") (world [])
           "C_deadbeef" (with_uuid_draws 1 (world []))).
  - by_evaluation.
  - by_evaluation.
  - exists "sorter". split; by_evaluation.
Defined.

(** ** Computations that leave the world alone *)

Lemma reads_eq {A} (m : M A) w r w' : reads m → m w = (r, w') → w' = w.
Proof. intros H E. specialize (H w). by rewrite E in H. Qed.

Lemma reads_ret {A} (a : A) : reads (mret a).
Proof. by intros w. Qed.

Lemma reads_raise {A} c msg : reads (@raise A c msg).
Proof. by intros w. Qed.

Lemma reads_lift {A} (r : result A) : reads (lift r).
Proof. by intros w. Qed.

Lemma reads_ask {A} (f : World → result A) : reads (ask f).
Proof. by intros w. Qed.

Lemma reads_bind {A B} (m : M A) (f : A → M B) :
  reads m → (∀ a, reads (f a)) → reads (m ≫= f).
Proof.
  intros Hm Hf w. rewrite bind_unfold. specialize (Hm w).
  destruct (m w) as [[a|c msg|] w1]; simpl in Hm; subst w1; [apply Hf|done..].
Qed.

Lemma reads_getitem d k : reads (getitem d k).
Proof. unfold getitem. destruct (d !! k); [apply reads_ret|apply reads_raise]. Qed.

Lemma reads_fetch1_row ext t key : reads (DataJoint.fetch1_row ext t key).
Proof. intros w. unfold DataJoint.fetch1_row. by repeat case_match. Qed.

Lemma reads_fetch1 ext t key attr : reads (DataJoint.fetch1 ext t key attr).
Proof.
  apply reads_bind; [apply reads_fetch1_row|]. intros r.
  destruct (r !! attr); [apply reads_ret|apply reads_raise].
Qed.

Lemma reads_load_extractor path : reads (load_extractor path).
Proof. intros w. unfold load_extractor. by repeat case_match. Qed.

Lemma reads_json_load path : reads (json_load path).
Proof. intros w. unfold json_load. by repeat case_match. Qed.

Lemma reads_try_or_raise {A} (m : M A) msg : reads m → reads (try_or_raise m msg).
Proof.
  intros H w. unfold try_or_raise. specialize (H w).
  by destruct (m w) as [[a|c msg'|] w1].
Qed.

Lemma reads_as_labels v : reads (as_labels v).
Proof. destruct v; try apply reads_raise. apply reads_ret. Qed.

Lemma reads_call_get_unit_ids o : reads (call_get_unit_ids o).
Proof.
  unfold call_get_unit_ids.
  repeat case_match; try apply reads_raise; apply reads_ret.
Qed.

Lemma reads_call_get_unit_spike_train o u : reads (call_get_unit_spike_train o u).
Proof.
  unfold call_get_unit_spike_train.
  repeat case_match; try apply reads_raise; apply reads_ret.
Qed.

Lemma reads_iter_units o : reads (iter_units o).
Proof.
  unfold iter_units. repeat case_match; try apply reads_raise; apply reads_ret.
Qed.

Lemma reads_unpack2 v : reads (unpack2 v).
Proof. destruct v; try apply reads_raise. apply reads_ret. Qed.

Lemma reads_call_sort v : reads (call_sort v).
Proof. destruct v; try apply reads_raise; apply reads_ret. Qed.

Lemma reads_result {A} (m : M A) w r : reads m → (m w).1 = r → m w = (r, w).
Proof.
  intros H E. specialize (H w). destruct (m w) as [r' w']. simpl in *.
  by subst.
Qed.

(** The steps every stage is made of. *)
Create HintDb reads.
#[export] Hint Resolve reads_ret reads_raise reads_lift reads_ask
  reads_getitem reads_fetch1_row reads_fetch1 reads_load_extractor : reads.

(** Peel one bind off, closing its first computation with the hints. *)
Ltac reads_step := apply reads_bind; [solve [eauto with reads]|intros].

Lemma reads_get_recording_extractor ext key :
  reads (Curation.get_recording_extractor ext key).
Proof.
  unfold Curation.get_recording_extractor. reads_step. eauto with reads.
Qed.

Lemma reads_get_curated_sorting_extractor ext key :
  reads (Curation.get_curated_sorting_extractor ext key).
Proof.
  unfold Curation.get_curated_sorting_extractor. do 4 reads_step.
  destruct (negb _); eauto with reads.
Qed.

Lemma reads_get_merge_groups sorting pmg qm params :
  reads (AutomaticCuration.get_merge_groups sorting pmg qm params).
Proof.
  unfold AutomaticCuration.get_merge_groups. reads_step.
  destruct (negb _); [eauto with reads|]. simpl. reads_step.
  apply reads_call_sort.
Qed.

Lemma reads_get_labels sorting labels qm params :
  reads (AutomaticCuration.get_labels sorting labels qm params).
Proof.
  unfold AutomaticCuration.get_labels. reads_step.
  destruct (negb _); simpl; eauto with reads.
Qed.

Lemma reads_load_round ext key : reads (AutomaticCuration.load_round ext key).
Proof.
  unfold AutomaticCuration.load_round. do 6 reads_step.
  apply reads_bind; [apply reads_json_load|intros]. do 3 reads_step.
  apply reads_bind; [apply reads_get_curated_sorting_extractor|intros].
  eauto with reads.
Qed.

Lemma reads_merge_decision ext round key :
  reads (AutomaticCuration.merge_decision ext round key).
Proof.
  unfold AutomaticCuration.merge_decision. reads_step.
  apply reads_bind; [apply reads_get_merge_groups|intros].
  apply reads_unpack2.
Qed.

(** ** The curated view *)

Section CuratedView.
Context (ext : Collaborators).

(** [get_curated_sorting_extractor] on an entry whose sorting loads. *)
Lemma get_curated_sorting_extractor_eq key w path base merge_groups n :
  (DataJoint.fetch1 ext T_SpikeSorting key "sorting_path" w).1
    = Returned (VStr path) →
  folders w !! path = Some base →
  (DataJoint.fetch1 ext T_Curation key "merge_groups" w).1
    = Returned merge_groups →
  py_len merge_groups = Returned n →
  Curation.get_curated_sorting_extractor ext key w =
  (Returned (if (n =? 0)%nat then base else VClass NotImplementedError), w).
Proof.
  intros Hpath Hbase Hmg Hlen. unfold Curation.get_curated_sorting_extractor.
  apply reads_result in Hpath; [|apply reads_fetch1].
  apply reads_result in Hmg; [|apply reads_fetch1].
  rewrite (bind_step _ _ _ _ _ Hpath).
  rewrite (bind_step _ _ w base w) by (unfold load_extractor; by rewrite Hbase).
  rewrite (bind_step _ _ _ _ _ Hmg).
  rewrite (bind_step _ _ w n w) by (unfold lift; by rewrite Hlen).
  by destruct (n =? 0)%nat.
Qed.

End CuratedView.

(** C1, as amended.  For a Curation entry whose sorting loads,
    [get_curated_sorting_extractor] returns the base sorting unchanged when
    [merge_groups] is empty; when [merge_groups] is not empty it produces no
    sorting view at all: merges are not applied. *)
Theorem curated_view_without_merges
    (ext : Collaborators) (key : row) (w : World) (path : string)
    (base : Sorting) (merge_groups : list (list Z)) :
  (DataJoint.fetch1 ext T_SpikeSorting key "sorting_path" w).1
    = Returned (VStr path) →
  folders w !! path = Some (VSorting base) →
  (DataJoint.fetch1 ext T_Curation key "merge_groups" w).1
    = Returned (VGroups merge_groups) →
  (merge_groups = [] →
     Curation.get_curated_sorting_extractor ext key w
       = (Returned (VSorting base), w)) ∧
  (merge_groups ≠ [] →
     ∀ view, (Curation.get_curated_sorting_extractor ext key w).1
               ≠ Returned (VSorting view)).
Proof.
  intros Hpath Hbase Hmg.
  rewrite (get_curated_sorting_extractor_eq ext key w path (VSorting base)
             (VGroups merge_groups) (length merge_groups)) by done.
  split.
  - by intros ->.
  - intros Hne view. destruct merge_groups; [done|]. simpl. discriminate.
Qed.

Lemma curated_view_without_merges_witness :
  Curation.get_curated_sorting_extractor ext (curation_key "C_deadbeef")
    (world plain_ledger) = (Returned (VSorting sorting), world plain_ledger).
Proof.
  apply (curated_view_without_merges ext (curation_key "C_deadbeef")
           (world plain_ledger) "/sortings/s1" sorting []);
    first [ by_evaluation | reflexivity ].
Defined.

(** C1, as stated, fails: with the merge group [[1, 2]] the result is not a
    view in which units 1 and 2 are merged; it is not a sorting at all. *)
Lemma curated_view_not_merged :
  ¬ ∃ view,
      (Curation.get_curated_sorting_extractor ext (curation_key "C_deadbeef")
         (world merged_ledger)).1 = Returned (VSorting view) ∧
      merged_view sorting [[1; 2]] view.
Proof.
  intros (view & Hview & _).
  assert ((Curation.get_curated_sorting_extractor ext
             (curation_key "C_deadbeef") (world merged_ledger)).1
          = Returned (VClass NotImplementedError)) as Heval by by_evaluation.
  rewrite Heval in Hview. discriminate.
Qed.

(** C2 (the code departs from it).  When [merge_groups] is not empty,
    [get_curated_sorting_extractor] raises nothing: it returns the class
    [NotImplementedError] as an ordinary value, and so does
    [AutomaticCuration.make] past a merge decision with [units_merged]
    true. *)
Theorem merge_returns_the_exception_class :
  Curation.get_curated_sorting_extractor ext (curation_key "C_deadbeef")
    (world merged_ledger)
    = (Returned (VClass NotImplementedError), world merged_ledger) ∧
  ∀ (ext' : Collaborators) fuel round key merge_groups w,
    AutomaticCuration.finish ext' fuel round key merge_groups (VBool true) w
      = (Returned (VClass NotImplementedError), w).
Proof.
  split; [by_evaluation|]. reflexivity.
Qed.

(** C3 (the code departs from it).  With empty [merge_params],
    [get_merge_groups] returns its first argument, the sorting extractor,
    paired with [False]; the parent merge groups are not what it returns.
    With parent merge groups [[1, 2]] the result is not the pair of
    [[1, 2]] and [False], and in a run of [make] the merge decision binds
    the sorting extractor to [merge_groups]. *)
Theorem get_merge_groups_returns_the_sorting :
  (∀ (sorting parent_merge_groups quality_metrics : pyval) (w : World),
     AutomaticCuration.get_merge_groups sorting parent_merge_groups
       quality_metrics (VParams ∅) w
     = (Returned (VTuple sorting (VBool false)), w)) ∧
  AutomaticCuration.get_merge_groups (VSorting sorting) (VGroups [[1; 2]])
    (VMetrics quality) (VParams ∅) (world merged_ledger)
  ≠ (Returned (VTuple (VGroups [[1; 2]]) (VBool false)), world merged_ledger) ∧
  (round ← AutomaticCuration.load_round ext auto_key;
   AutomaticCuration.merge_decision ext round auto_key) (world plain_ledger)
  = (Returned (VSorting sorting, VBool false), world plain_ledger).
Proof.
  split; [reflexivity|]. split; by_evaluation.
Qed.

(** ** Computations that never return *)

Lemma fails_bind_l {A B} (m : M A) (f : A → M B) : fails m → fails (m ≫= f).
Proof.
  intros H w. rewrite bind_unfold. specialize (H w).
  by destruct (m w) as [[a|c msg|] w1].
Qed.

Lemma fails_bind_r {A B} (m : M A) (f : A → M B) :
  (∀ a, fails (f a)) → fails (m ≫= f).
Proof.
  intros H w. rewrite bind_unfold.
  destruct (m w) as [[a|c msg|] w1]; [apply H|done..].
Qed.

Lemma reads_bind_fails {A B} (m : M A) (f : A → M B) :
  reads m → fails m → reads (m ≫= f).
Proof.
  intros Hr Hf w. rewrite bind_unfold. specialize (Hr w). specialize (Hf w).
  by destruct (m w) as [[a|c msg|] w1].
Qed.

(** ** Finalization: the accepted units *)

Section AcceptedUnits.
Import FinalizedSpikeSorting.

Lemma none_to_remove_spec labels :
  none_to_remove labels = true ↔ ¬ rejected_labels labels.
Proof.
  unfold none_to_remove, rejected_labels, unit_labels_to_remove.
  rewrite Nat.eqb_eq, size_empty_iff. set_solver.
Qed.

(** The loop is a filter that keeps the order of the units. *)
Lemma fold_accept unit_labels unit_ids : ∀ accepted_units,
  fold_left (accept unit_labels) unit_ids accepted_units =
  accepted_units ++
  List.filter (λ u, match unit_labels !! u with
                    | Some ls => none_to_remove ls
                    | None => true
                    end) unit_ids.
Proof.
  induction unit_ids as [|u ids IH]; intros acc; simpl.
  - by rewrite app_nil_r.
  - rewrite IH. unfold accept.
    destruct (unit_labels !! u) as [ls|]; [destruct (none_to_remove ls)|];
      simpl; by rewrite <- ?app_assoc.
Qed.

Lemma elem_of_accept_units unit_ids unit_labels u :
  u ∈ accept_units unit_ids unit_labels ↔
  u ∈ unit_ids ∧ ¬ rejected_labels (default [] (unit_labels !! u)).
Proof.
  unfold accept_units. rewrite fold_accept. simpl.
  rewrite list_elem_of_In, filter_In, <- list_elem_of_In.
  destruct (unit_labels !! u) as [ls|]; simpl.
  - by rewrite none_to_remove_spec.
  - unfold rejected_labels. set_solver.
Qed.

Lemma join_labels_missing unit_labels accepted_units : ∀ labels w u,
  u ∈ accepted_units → unit_labels !! u = None →
  ∃ u', u' ∈ accepted_units ∧ unit_labels !! u' = None ∧
        join_labels unit_labels accepted_units labels w
          = (Raised KeyError (pretty u'), w).
Proof.
  induction accepted_units as [|a rest IH]; intros labels w u Hin Hu.
  - by apply elem_of_nil in Hin.
  - simpl. destruct (unit_labels !! a) as [ls|] eqn:Ha.
    + apply elem_of_cons in Hin as [->|Hin]; [congruence|].
      destruct (IH (<[a := String.concat "," ls]> labels) w u Hin Hu)
        as (u' & Hin' & Hu' & Heq).
      exists u'. split; [by right|done].
    + exists a. split; [left|done].
Qed.

Lemma reads_join_labels unit_labels accepted_units : ∀ labels,
  reads (join_labels unit_labels accepted_units labels).
Proof.
  induction accepted_units as [|a rest IH]; intros labels; simpl.
  - apply reads_ret.
  - destruct (unit_labels !! a); [apply IH|apply reads_raise].
Qed.

End AcceptedUnits.

(** C5.  The units accepted by finalization are exactly the units of the
    curated view whose label set does not meet {"reject", "noise"}; a unit
    without labels (no entry, or an empty list) is accepted.  With units
    1, 2, 3 and labels {1: ["noise"], 2: ["good"], 3: []} the accepted units
    are 2 and 3. *)
Theorem accepted_units_not_rejected
    (unit_ids : list Z) (unit_labels : gmap Z (list string)) :
  (∀ u, u ∈ FinalizedSpikeSorting.accept_units unit_ids unit_labels ↔
        u ∈ unit_ids ∧ ¬ rejected_labels (default [] (unit_labels !! u))) ∧
  FinalizedSpikeSorting.accept_units [1; 2; 3]
    (<[1 := ["noise"]]> (<[2 := ["good"]]> {[3 := []]})) = [2; 3].
Proof.
  split; [intros u; apply elem_of_accept_units|]. by_evaluation.
Qed.

(** ** Finalization: what [make] does *)

Section Finalization.
Context (ext : Collaborators).
Import FinalizedSpikeSorting.

Lemma reads_call_loc metrics units : reads (call_loc ext metrics units).
Proof.
  unfold call_loc. destruct metrics; eauto with reads.
  reads_step. eauto with reads.
Qed.

Lemma reads_unit_times sorting timestamps unit_ids :
  reads (Curation.unit_times ext sorting timestamps unit_ids).
Proof.
  induction unit_ids as [|u rest IH]; simpl; [eauto with reads|].
  apply reads_bind; [apply reads_call_get_unit_spike_train|intros].
  reads_step. apply reads_bind; [apply IH|intros]. eauto with reads.
Qed.

(** With [self] in the place of [key] and the key in the place of [sorting],
    [save_sorting_nwb] creates no file. *)
Lemma reads_save_sorting_nwb_shifted t key a b c d metrics unit_ids :
  reads (Curation.save_sorting_nwb ext (OTable t) (ODict key) a b c d
           metrics (OVal (VInts unit_ids))).
Proof.
  unfold Curation.save_sorting_nwb.
  apply reads_bind; [apply reads_ask|intros valid_times].
  apply reads_bind; [apply reads_iter_units|intros ids].
  apply reads_bind; [apply reads_unit_times|intros units].
  intros w. reflexivity.
Qed.

Lemma fails_save_sorting_nwb_shifted t key a b c d metrics unit_ids :
  fails (Curation.save_sorting_nwb ext (OTable t) (ODict key) a b c d
           metrics (OVal (VInts unit_ids))).
Proof.
  intros w. unfold Curation.save_sorting_nwb. rewrite bind_unfold.
  unfold ask at 1. destruct (IntervalList_valid_times ext b w); [|done..].
  by destruct unit_ids.
Qed.

(** The export phase (lines 670-688) never gets to a write, and never gets
    through. *)
Lemma reads_export key metrics accepted_units :
  reads (export ext key metrics accepted_units).
Proof.
  unfold export.
  apply reads_bind; [apply reads_get_curated_sorting_extractor|intros].
  apply reads_bind; [apply reads_get_recording_extractor|intros].
  do 3 reads_step.
  apply reads_bind_fails;
    [apply reads_save_sorting_nwb_shifted|apply fails_save_sorting_nwb_shifted].
Qed.

Lemma fails_export key metrics accepted_units :
  fails (export ext key metrics accepted_units).
Proof.
  unfold export.
  do 5 (apply fails_bind_r; intros).
  apply fails_bind_l, fails_save_sorting_nwb_shifted.
Qed.

(** [make] writes nothing, whatever the key and the world. *)
Lemma reads_make key : reads (make ext key).
Proof.
  unfold make.
  apply reads_bind; [apply reads_try_or_raise; eauto with reads|intros].
  apply reads_bind; [apply reads_get_curated_sorting_extractor|intros].
  apply reads_bind; [apply reads_call_get_unit_ids|intros]. reads_step.
  apply reads_bind; [apply reads_as_labels|intros].
  apply reads_bind; [apply reads_join_labels|intros].
  apply reads_bind; [apply reads_call_loc|intros].
  destruct (_ || _); [apply reads_ret|].
  apply reads_bind_fails; [apply reads_export|apply fails_export].
Qed.

Lemma reads_fill_metrics metrics unit_id metric_fields : ∀ key,
  reads (fill_metrics ext metrics unit_id metric_fields key).
Proof.
  induction metric_fields as [|field rest IH]; intros key; simpl.
  - apply reads_ret.
  - destruct metrics; try apply reads_raise.
    apply reads_bind; [apply reads_ask|intros present].
    destruct present; [|apply reads_raise].
    apply reads_bind; [apply reads_ask|intros v]. apply IH.
Qed.

Lemma reads_fill_unit_key metrics labels metric_fields accepted_units : ∀ key,
  reads (fill_unit_key ext metrics labels metric_fields accepted_units key).
Proof.
  induction accepted_units as [|u rest IH]; intros key; simpl.
  - apply reads_ret.
  - destruct (labels !! u); [|apply reads_raise].
    apply reads_bind; [apply reads_fill_metrics|intros key']. apply IH.
Qed.

Lemma reads_fetch_first_keys t : reads (DataJoint.fetch_first_keys ext t).
Proof. intros w. unfold DataJoint.fetch_first_keys. by case_match. Qed.

Lemma reads_metrics_fields : reads (metrics_fields ext).
Proof.
  unfold metrics_fields.
  do 2 (apply reads_bind; [apply reads_fetch_first_keys|intros]).
  apply reads_ret.
Qed.

(** The units phase (lines 690-706) adds one row to [Unit] at most, however
    many units are accepted. *)
Lemma add_units_one_row key metrics labels accepted_units w :
  (length (rows (add_units ext key metrics labels accepted_units w).2 T_Unit)
   ≤ S (length (rows w T_Unit)))%nat.
Proof.
  unfold add_units. rewrite bind_unfold.
  pose proof (reads_metrics_fields w) as Hfields.
  destruct (metrics_fields ext w) as [[fields| |] w0]; simpl in Hfields;
    subst w0; simpl; [|lia..].
  rewrite bind_unfold.
  pose proof (reads_fill_unit_key metrics labels fields accepted_units
                (delete "analysis_file_name" (delete "units_object_id" key)) w)
    as Hreads.
  destruct (fill_unit_key _ _ _ _ _ _ w) as [[key'| |] w1]; simpl in Hreads;
    subst w1; simpl; [|lia..].
  destruct (DataJoint.insert1 ext T_Unit key' w) as [[u|c msg|] w2] eqn:Hins.
  - apply insert1_returned in Hins. subst w2. simpl.
    rewrite rows_with_rows, length_app. simpl. lia.
  - apply insert1_raised in Hins. subst w2. simpl. lia.
  - unfold DataJoint.insert1 in Hins. repeat (case_match; try discriminate).
Qed.

End Finalization.

(** C10.  When some unit of the curated view has no entry in the labels of
    the curation, [make] raises [KeyError] for such a unit while it joins
    the labels: nothing has been written, and the check for no labels or no
    accepted units is not reached. *)
Theorem make_raises_KeyError_without_labels
    (ext : Collaborators) (key : row) (w : World) (metrics : pyval)
    (base : Sorting) (unit_labels : gmap Z (list string)) (unit_id : Z) :
  (DataJoint.fetch1 ext T_Curation key "metrics" w).1 = Returned metrics →
  (Curation.get_curated_sorting_extractor ext key w).1
    = Returned (VSorting base) →
  (DataJoint.fetch1 ext T_Curation key "labels" w).1
    = Returned (VLabels unit_labels) →
  unit_id ∈ get_unit_ids base →
  unit_labels !! unit_id = None →
  ∃ u, u ∈ FinalizedSpikeSorting.accept_units (get_unit_ids base) unit_labels ∧
       unit_labels !! u = None ∧
       FinalizedSpikeSorting.make ext key w = (Raised KeyError (pretty u), w).
Proof.
  intros Hmetrics Hview Hlabels Hin Hnone.
  apply reads_result in Hmetrics; [|apply reads_fetch1].
  apply reads_result in Hview; [|apply reads_get_curated_sorting_extractor].
  apply reads_result in Hlabels; [|apply reads_fetch1].
  assert (unit_id ∈ FinalizedSpikeSorting.accept_units (get_unit_ids base)
                      unit_labels) as Hacc.
  { apply elem_of_accept_units. rewrite Hnone. split; [done|].
    unfold rejected_labels. set_solver. }
  destruct (join_labels_missing unit_labels _ ∅ w unit_id Hacc Hnone)
    as (u & Hu & Hnone' & Hjoin).
  exists u. split; [done|]. split; [done|].
  unfold FinalizedSpikeSorting.make.
  rewrite (bind_step _ _ w metrics w)
    by (unfold try_or_raise; by rewrite Hmetrics).
  rewrite (bind_step _ _ _ _ _ Hview).
  rewrite (bind_step _ _ w (get_unit_ids base) w) by done.
  rewrite (bind_step _ _ _ _ _ Hlabels).
  rewrite (bind_step _ _ w unit_labels w) by done.
  cbv zeta. rewrite bind_unfold. by rewrite Hjoin.
Qed.

Lemma make_raises_KeyError_without_labels_witness :
  FinalizedSpikeSorting.make ext (curation_key "C_deadbeef")
    (world unlabelled_ledger)
  = (Raised KeyError "3", world unlabelled_ledger).
Proof.
  destruct (make_raises_KeyError_without_labels ext
              (curation_key "C_deadbeef") (world unlabelled_ledger)
              (VFrame frame) sorting (delete 3 labels) 3)
    as (u & Hu & Hnone & Hmake); [by_evaluation..|].
  assert (u = 3) as ->.
  { assert (FinalizedSpikeSorting.accept_units (get_unit_ids sorting)
              (delete 3 labels) = [2; 3]) as Hacc by by_evaluation.
    rewrite Hacc in Hu. apply elem_of_cons in Hu as [->|Hu].
    - exfalso. revert Hnone. by_evaluation.
    - by apply list_elem_of_singleton in Hu. }
  exact Hmake.
Defined.

(** C6 (the code departs from it).  [make] never writes: the call of
    [save_sorting_nwb] passes [self] first, so the key takes the place of
    the sorting and the call raises before the export record is inserted.
    Taken alone, the units phase inserts into [Unit] once, after its loop:
    one row at most, for the last accepted unit.  With units 2 and 3
    accepted, [make] raises [AttributeError] and writes nothing, and the
    units phase run on its own, in a world that already has the row of a
    unit 7, adds the row of unit 3 only. *)
Theorem finalization_writes_one_unit_row_at_most :
  (∀ (ext' : Collaborators) key w,
     (FinalizedSpikeSorting.make ext' key w).2 = w) ∧
  (∀ (ext' : Collaborators) key metrics labels accepted_units w,
     (length (rows (FinalizedSpikeSorting.add_units ext' key metrics labels
                      accepted_units w).2 T_Unit)
      ≤ S (length (rows w T_Unit)))%nat) ∧
  FinalizedSpikeSorting.accept_units (get_unit_ids sorting) labels = [2; 3] ∧
  FinalizedSpikeSorting.make ext (curation_key "C_deadbeef")
    (world framed_ledger)
  = (Raised AttributeError "get_unit_spike_train", world framed_ledger) ∧
  (λ r : row, r !! "unit_id") <$>
    rows (FinalizedSpikeSorting.add_units ext exported_key (VFrame full_frame)
            (<[2 := "good"]> {[3 := ""]}) [2; 3] exported_world).2 T_Unit
  = [Some (VInt 7); Some (VInt 3)].
Proof.
  split; [intros; apply reads_make|].
  split; [intros; apply add_units_one_row|].
  repeat split; by_evaluation.
Qed.

(** C7 (the code departs from it).  For a curation whose metrics are the
    empty dict the guard of [make] lets the run through: [fetch1] succeeds,
    no [Exception] about missing metrics is raised, and the run ends later
    in the [AttributeError] of [metrics.loc].  With an empty frame for
    metrics and every unit rejected, [make] returns without any error. *)
Theorem finalization_accepts_empty_metrics :
  let key := curation_key "C_deadbeef" in
  let w := world no_metrics_ledger in
  try_or_raise (DataJoint.fetch1 ext T_Curation key "metrics")
    ("Metrics for Curation " +:+ repr_key ext key +:+
     " must be calculated before it can be inserted here") w
  = (Returned (VMetrics ∅), w) ∧
  FinalizedSpikeSorting.make ext key w = (Raised AttributeError "loc", w) ∧
  FinalizedSpikeSorting.make ext key (world all_rejected_ledger)
  = (Returned VNone, world all_rejected_ledger).
Proof. cbv zeta. repeat split; by_evaluation. Qed.

(** ** Automatic curation *)

Section AutomaticCurationFacts.
Context (ext : Collaborators).
Import AutomaticCuration.

(** Without merge parameters the merge decision is the parent sorting and
    [False]; with them there is none. *)
Lemma merge_decision_returned round key w merge_groups units_merged w' :
  merge_decision ext round key w = (Returned (merge_groups, units_merged), w') →
  merge_groups = parent_sorting round ∧ units_merged = VBool false ∧ w' = w.
Proof.
  unfold merge_decision. intros H.
  apply bind_returned in H as (params & w0 & H0 & H).
  apply (reads_eq _ _ _ _ (reads_fetch1 _ _ _ _)) in H0 as ->.
  apply bind_returned in H as (r & w0 & Hr & H).
  unfold get_merge_groups in Hr.
  apply bind_returned in Hr as (has & w1 & Hhas & Hr).
  unfold lift in Hhas. injection Hhas as Hhas <-.
  destruct has; simpl in Hr.
  - apply bind_returned in Hr as (g & w1 & Hg & Hr). simpl in Hg.
    injection Hg as <- <-.
    destruct (parent_merge_groups round); try discriminate;
      injection Hr as <- <-; discriminate.
  - injection Hr as <- <-. by injection H as <- <- <-.
Qed.

Lemma keep_metrics_eq quality_metrics units_merged merged w :
  truthy units_merged = Returned merged →
  keep_metrics quality_metrics units_merged w
  = (Returned (if merged then VNone else quality_metrics), w).
Proof.
  intros H. unfold keep_metrics. rewrite bind_unfold. unfold lift. rewrite H.
  by destruct merged.
Qed.

Lemma reads_keep_metrics quality_metrics units_merged :
  reads (keep_metrics quality_metrics units_merged).
Proof. unfold keep_metrics. reads_step. apply reads_ret. Qed.

(** The call of line 502 fails, and nothing is written before it. *)
Lemma reads_finish fuel round key merge_groups units_merged :
  reads (finish ext fuel round key merge_groups units_merged).
Proof.
  unfold finish. apply reads_bind; [apply reads_lift|intros merged].
  destruct merged; [apply reads_ret|].
  apply reads_bind; [apply reads_fetch1|intros].
  apply reads_bind; [apply reads_get_labels|intros].
  apply reads_bind; [apply reads_keep_metrics|intros].
  apply reads_bind_fails; [apply reads_raise|]. by intros w.
Qed.

Lemma fails_finish fuel round key merge_groups :
  fails (finish ext fuel round key merge_groups (VBool false)).
Proof.
  intros w. unfold finish. rewrite (bind_step _ _ w false w) by done.
  do 3 (apply fails_bind_r; intros).
  apply fails_bind_l. by intros w'.
Qed.

Lemma reads_AutomaticCuration_make fuel key : reads (make ext fuel key).
Proof.
  unfold make. apply reads_bind; [apply reads_load_round|intros round].
  apply reads_bind; [apply reads_merge_decision|intros [mg um]].
  apply reads_finish.
Qed.

Lemma fails_AutomaticCuration_make fuel key : fails (make ext fuel key).
Proof.
  intros w. unfold make. rewrite bind_unfold.
  destruct (load_round ext key w) as [[round|c msg|] w0]; [|done..].
  rewrite bind_unfold.
  destruct (merge_decision ext round key w0) as [[[mg um]|c msg|] w1] eqn:E;
    [|done..].
  apply merge_decision_returned in E as (-> & -> & ->).
  apply fails_finish.
Qed.

End AutomaticCurationFacts.

(** C4 (the code departs from it).  Line 499 chooses the metrics as the
    claim has it: the quality metrics loaded for the round when the merged
    flag is false, none when it is true.  But no run of [make] gets as far
    as a new record: the call of line 502 is to a method that no class
    defines, so [make] never returns and leaves the world as it found it,
    whatever the key.  With the ledger of one curation and its quality
    metrics on file, [make] raises [AttributeError] and the ledger is as
    before. *)
Theorem make_stops_before_the_record :
  (∀ (quality_metrics units_merged : pyval) (merged : bool) (w : World),
     truthy units_merged = Returned merged →
     AutomaticCuration.keep_metrics quality_metrics units_merged w
     = (Returned (if merged then VNone else quality_metrics), w)) ∧
  (∀ (ext' : Collaborators) fuel key w,
     returned (AutomaticCuration.make ext' fuel key w).1 = None ∧
     (AutomaticCuration.make ext' fuel key w).2 = w) ∧
  AutomaticCuration.make ext 5 auto_key (world plain_ledger)
  = (Raised AttributeError "_get_curated_sorting_name", world plain_ledger).
Proof.
  split; [intros; by apply keep_metrics_eq|].
  split; [|by_evaluation].
  intros ext' fuel key w. split; [apply fails_AutomaticCuration_make|apply reads_AutomaticCuration_make].
Qed.

(** * Further properties *)

(** ** The ledger: what an insert leaves alone, and reading back *)

Section LedgerMore.
Context (ext : Collaborators).

(** The loop draws ids and does nothing else. *)
Lemma generate_unique_id_frame fuel : ∀ w r w',
  Curation.generate_unique_id ext fuel w = (r, w') →
  ∃ n, (uuid_draws w ≤ n)%nat ∧ w' = with_uuid_draws n w.
Proof.
  induction fuel as [|fuel IH]; intros w r w'.
  - intros [= _ <-]. exists (uuid_draws w). split; [done|]. by destruct w.
  - rewrite generate_unique_id_S. cbv zeta. destruct (_ =? _)%nat.
    + intros [= _ <-]. eexists. split; [|done]. lia.
    + intros H. apply IH in H as (n & Hn & ->). exists n. simpl in *.
      split; [lia|done].
Qed.

Lemma insert1_no_fuel t r w w' :
  DataJoint.insert1 ext t r w ≠ (OutOfFuel, w').
Proof. unfold DataJoint.insert1. by repeat case_match. Qed.

(** The world after a call of [insert_curation]. *)
Lemma insert_curation_world fuel key parent labels groups metrics descr w :
  let out :=
    Curation.insert_curation ext fuel key parent labels groups metrics descr w in
  ∃ n, (uuid_draws w ≤ n)%nat ∧
    ((∃ id, out.1 = Returned (VStr id, new_row key id parent labels groups
                                         metrics descr) ∧
            ¬ taken w id ∧
            out.2 = with_rows T_Curation
                      (rows w T_Curation ++
                       [DataJoint.stored ext T_Curation
                          (new_row key id parent labels groups metrics descr)])
                      (with_uuid_draws n w)) ∨
     (returned out.1 = None ∧ out.2 = with_uuid_draws n w)).
Proof.
  cbv zeta. rewrite insert_curation_eq.
  destruct (Curation.generate_unique_id ext fuel w) as [r w1] eqn:Hid.
  destruct (generate_unique_id_frame _ _ _ _ Hid) as (n & Hn & ->).
  exists n. split; [done|].
  destruct r as [id|c msg|]; [|by right..].
  apply generate_unique_id_fresh in Hid. cbv zeta.
  destruct (DataJoint.insert1 _ _ _ _) as [[u|c msg|] w2] eqn:Hins.
  - apply insert1_returned in Hins. subst w2. left. exists id.
    split; [done|]. split; [done|]. simpl. done.
  - apply insert1_raised in Hins. subst w2. by right.
  - by apply insert1_no_fuel in Hins.
Qed.

Lemma restrict_app t key w rs1 rs2 :
  rows w t = rs1 ++ rs2 →
  DataJoint.restrict ext t key w =
  List.filter (DataJoint.agrees (DataJoint.heading ext t) key) rs1 ++
  List.filter (DataJoint.agrees (DataJoint.heading ext t) key) rs2.
Proof. intros H. unfold DataJoint.restrict. by rewrite H, List.filter_app. Qed.

End LedgerMore.

(** X1.  [insert_curation] only appends: whatever its outcome, the records
    already in the ledger keep their place and content, at most one record
    is added (exactly one when the call returns), and no other table, no
    folder and no file changes. *)
Theorem insert_curation_append_only
    (ext : Collaborators) (fuel : nat) (key : row)
    (parent labels groups metrics descr : pyval) (w : World) :
  let out :=
    Curation.insert_curation ext fuel key parent labels groups metrics descr w in
  ((returns out ∧ ∃ r, rows out.2 T_Curation = rows w T_Curation ++ [r]) ∨
   (¬ returns out ∧ rows out.2 T_Curation = rows w T_Curation)) ∧
  (∀ t, t ≠ T_Curation → rows out.2 t = rows w t) ∧
  folders out.2 = folders w ∧ json_files out.2 = json_files w ∧
  environ out.2 = environ w ∧ analysis_files out.2 = analysis_files w.
Proof.
  cbv zeta.
  destruct (insert_curation_world ext fuel key parent labels groups metrics
              descr w) as (n & _ & [(id & Hres & _ & Hw)|[Hres Hw]]);
    rewrite Hw.
  - split; [left; split|].
    + unfold returns. rewrite Hres. by eexists.
    + eexists. by rewrite rows_with_rows.
    + split; [|done]. intros t Ht. by rewrite rows_with_rows_ne.
  - split; [right; split|]; [|done..].
    unfold returns. rewrite Hres. by intros [? ?].
Qed.

(** X2.  Reading back: after a successful [insert_curation] the returned id
    selects exactly one record, and [fetch1] on it gives the parent id and
    the description as passed and the labels, merge groups and metrics as
    passed, with [{}], [[]] and [{}] in the place of [None]. *)
Theorem insert_curation_fetch_back
    (ext : Collaborators) (fuel : nat) (key : row)
    (parent labels groups metrics descr id : pyval) (key' : row)
    (w w' : World) :
  Curation.insert_curation ext fuel key parent labels groups metrics descr w
    = (Returned (id, key'), w') →
  let back attr :=
    DataJoint.fetch1 ext T_Curation {["curation_id" := id]} attr w' in
  back "curation_id" = (Returned id, w') ∧
  back "parent_curation_id" = (Returned parent, w') ∧
  back "description" = (Returned descr, w') ∧
  back "labels"
    = (Returned (match labels with VNone => VLabels ∅ | _ => labels end), w') ∧
  back "merge_groups"
    = (Returned (match groups with VNone => VGroups [] | _ => groups end), w') ∧
  back "metrics"
    = (Returned (match metrics with VNone => VMetrics ∅ | _ => metrics end), w').
Proof.
  intros Hins.
  destruct (insert_curation_world ext fuel key parent labels groups metrics
              descr w) as (n & _ & [(i & Hres & Hfresh & Hw)|[Hres _]]);
    rewrite Hins in *; simpl in *; [|discriminate].
  injection Hres as -> ->.
  set (r := DataJoint.stored ext T_Curation
              (new_row key i parent labels groups metrics descr)) in *.
  assert (Hattr : ∀ a v, a ∈ DataJoint.heading ext T_Curation →
            new_row key i parent labels groups metrics descr !! a = Some v →
            r !! a = Some v).
  { intros a v Ha Hv. unfold DataJoint.heading in Ha.
    apply elem_of_app in Ha as [Ha|Ha];
      [by apply stored_primary|by apply stored_dependent]. }
  assert (Hone : DataJoint.restrict ext T_Curation
                   {["curation_id" := VStr i]} w' = [r]).
  { rewrite (restrict_app ext _ _ _ (rows w T_Curation) [r])
      by (subst w'; by rewrite rows_with_rows).
    apply (taken_restrict ext) in Hfresh. unfold DataJoint.restrict in Hfresh.
    rewrite Hfresh.
    assert (DataJoint.agrees (DataJoint.heading ext T_Curation)
              {["curation_id" := VStr i]} r = true) as Hr;
      [|unfold List.filter; by rewrite Hr].
    apply agrees_single; [apply curation_id_in_heading|].
    apply Hattr; [apply curation_id_in_heading|].
    unfold new_row. by simplify_map_eq. }
  assert (Hback : ∀ a v, a ∈ DataJoint.heading ext T_Curation →
            new_row key i parent labels groups metrics descr !! a = Some v →
            DataJoint.fetch1 ext T_Curation {["curation_id" := VStr i]} a w'
            = (Returned v, w')).
  { intros a v Ha Hv. unfold DataJoint.fetch1, DataJoint.fetch1_row.
    rewrite bind_unfold, Hone. by rewrite (Hattr a v). }
  cbv zeta.
  repeat split; apply Hback;
    first [ apply curation_id_in_heading
          | unfold DataJoint.heading; apply elem_of_app; right; simpl;
            set_solver
          | unfold new_row; by simplify_map_eq ].
Qed.

Lemma insert_curation_fetch_back_witness :
  let out := Curation.insert_curation ext 5 sorting_key Curation.original
               (VLabels labels) VNone VNone (VStr "first") (world []) in
  DataJoint.fetch1 ext T_Curation {["curation_id" := VStr "C_deadbeef"]}
    "merge_groups" out.2 = (Returned (VGroups []), out.2).
Proof.
  cbv zeta.
  set (out := Curation.insert_curation ext 5 sorting_key Curation.original
                (VLabels labels) VNone VNone (VStr "first") (world [])).
  destruct (insert_curation_fetch_back ext 5 sorting_key Curation.original
              (VLabels labels) VNone VNone (VStr "first") (VStr "C_deadbeef")
              (match out.1 with Returned (_, k) => k | _ => ∅ end)
              (world []) out.2) as (_ & _ & _ & _ & H & _).
  - by_evaluation.
  - exact H.
Defined.

(** X3.  The id loop returns the first candidate, in the order of the
    draws, that no record of the ledger has: it returns within [fuel]
    rounds exactly when one of the next [fuel] candidates is free, every
    candidate drawn before the returned one is taken, and the loop has made
    one draw per candidate tried and changed nothing else. *)
Theorem generate_unique_id_first_free
    (ext : Collaborators) (fuel : nat) (w : World) (id : string) (w' : World) :
  Curation.generate_unique_id ext fuel w = (Returned id, w') ↔
  ∃ k, (k < fuel)%nat ∧
       id = candidate ext (uuid_draws w + k) ∧
       w' = with_uuid_draws (S (uuid_draws w + k)) w ∧
       ¬ taken w id ∧
       ∀ j, (j < k)%nat → taken w (candidate ext (uuid_draws w + j)).
Proof.
  revert w. induction fuel as [|fuel IH]; intros w.
  - split; [discriminate|]. intros (k & Hk & _). lia.
  - rewrite generate_unique_id_S. cbv zeta.
    destruct (_ =? _)%nat eqn:E.
    + apply Nat.eqb_eq, length_zero_iff_nil in E.
      rewrite (restrict_db ext _ _ w) in E by done.
      apply (taken_restrict ext) in E. split.
      * intros [= <- <-]. exists 0%nat. rewrite Nat.add_0_r.
        repeat split; [lia|done|]. intros j Hj. lia.
      * intros (k & Hk & -> & -> & Hfree & Hbefore).
        destruct k as [|k]; [by rewrite Nat.add_0_r|].
        exfalso. apply E. specialize (Hbefore 0%nat).
        rewrite Nat.add_0_r in Hbefore. apply Hbefore. lia.
    + assert (taken w (candidate ext (uuid_draws w))) as Htaken.
      { destruct (decide (Some (VStr (candidate ext (uuid_draws w)))
                          ∈ curation_ids w)) as [|n]; [done|].
        exfalso. apply (taken_restrict ext) in n.
        rewrite <- (restrict_db ext _ _ w
                      (with_uuid_draws (S (uuid_draws w)) w)) in n by done.
        rewrite n in E. discriminate. }
      rewrite IH. simpl. split.
      * intros (k & Hk & -> & -> & Hfree & Hbefore). exists (S k).
        rewrite <- !Nat.add_succ_comm. repeat split; [lia|done|].
        intros j Hj. destruct j as [|j]; [by rewrite Nat.add_0_r|].
        rewrite <- Nat.add_succ_comm. apply Hbefore. lia.
      * intros (k & Hk & -> & -> & Hfree & Hbefore).
        destruct k as [|k]; [by rewrite Nat.add_0_r in Hfree|].
        exists k. rewrite <- !Nat.add_succ_comm in *.
        repeat split; [lia|done|].
        intros j Hj. specialize (Hbefore (S j)).
        rewrite <- Nat.add_succ_comm in Hbefore. apply Hbefore. lia.
Qed.

(** ** Automatic curation: merges and labels *)

Section MergeLoop.
Import AutomaticCuration.

Lemma elem_of_insert_sorted x l u :
  u ∈ insert_sorted x l ↔ u = x ∨ u ∈ l.
Proof.
  induction l as [|y l IH]; simpl.
  - set_solver.
  - destruct (x <=? y); [set_solver|]. rewrite !elem_of_cons, IH. tauto.
Qed.

Lemma elem_of_sort_ids l u : u ∈ sort_ids l ↔ u ∈ l.
Proof.
  induction l as [|x l IH]; simpl; [done|].
  rewrite elem_of_insert_sorted, elem_of_cons, IH. tauto.
Qed.

Lemma length_insert_sorted x l : length (insert_sorted x l) = S (length l).
Proof.
  induction l as [|y l IH]; simpl; [done|].
  destruct (x <=? y); simpl; by rewrite ?IH.
Qed.

Lemma extend_group_cons m0 m' pm0 pm' rest w :
  extend_group (m0 :: m') ((pm0 :: pm') :: rest) w =
  if m0 =? pm0
  then (Returned (true, sort_ids ((pm0 :: pm') ++ m') :: rest), w)
  else match extend_group (m0 :: m') rest w with
       | (Returned (found, rest'), w1) =>
           (Returned (found, (pm0 :: pm') :: rest'), w1)
       | (Raised c msg, w1) => (Raised c msg, w1)
       | (OutOfFuel, w1) => (OutOfFuel, w1)
       end.
Proof.
  cbn [extend_group head_id]. cbv [mbind M_bind mret M_ret]. cbn [tail].
  destruct (m0 =? pm0); [reflexivity|].
  by destruct (extend_group (m0 :: m') rest w) as [[[f r]|?|] ?].
Qed.

Lemma in_groups_cons g groups u :
  in_groups (g :: groups) u ↔ u ∈ g ∨ in_groups groups u.
Proof.
  unfold in_groups. split.
  - intros (g' & Hg & Hu). apply elem_of_cons in Hg as [->|Hg];
      [by left|right; by exists g'].
  - intros [Hu|(g' & Hg & Hu)];
      [exists g; split; [left|done] | exists g'; split; [by right|done]].
Qed.

Lemma in_groups_nil u : in_groups [] u ↔ False.
Proof. unfold in_groups. set_solver. Qed.

Lemma in_groups_app groups1 groups2 u :
  in_groups (groups1 ++ groups2) u ↔ in_groups groups1 u ∨ in_groups groups2 u.
Proof.
  induction groups1 as [|g groups1 IH]; simpl.
  - rewrite in_groups_nil. tauto.
  - rewrite !in_groups_cons, IH. tauto.
Qed.

(** The inner loop: the groups afterwards hold the units of before and,
    when a group was found, those of [m]. *)
Lemma extend_group_units m : ∀ groups w found groups' w',
  extend_group m groups w = (Returned (found, groups'), w') →
  w' = w ∧ length groups' = length groups ∧
  (∀ u, in_groups groups' u ↔
        in_groups groups u ∨ (found = true ∧ u ∈ m)).
Proof.
  induction groups as [|pm rest IH]; intros w found groups' w'.
  - intros [= <- <- <-]. split; [done|]. split; [done|].
    intros u. rewrite in_groups_nil. intuition discriminate.
  - destruct m as [|m0 m']; [discriminate|].
    destruct pm as [|pm0 pm']; [discriminate|].
    rewrite extend_group_cons.
    destruct (m0 =? pm0) eqn:E.
    + intros [= <- <- <-]. apply Z.eqb_eq in E as ->.
      split; [done|]. split; [done|]. intros u.
      rewrite !in_groups_cons, elem_of_insert_sorted, elem_of_sort_ids.
      rewrite !elem_of_cons, elem_of_app. intuition.
    + destruct (extend_group (m0 :: m') rest w) as [[[f gs]|c msg|] w1] eqn:Hrec;
        [|discriminate..].
      intros [= <- <- <-].
      destruct (IH _ _ _ _ Hrec) as (-> & Hlen & Hunits).
      split; [done|]. split; [simpl; by rewrite Hlen|].
      intros u. rewrite !in_groups_cons, Hunits. tauto.
Qed.

End MergeLoop.

(** X4.  The loop over [new_merges] of [get_merge_groups] loses no unit and
    invents none: when it gets through, the units found in the groups
    afterwards are exactly those of the parent groups and of the new merges,
    no group has disappeared and at most one group per new merge was added;
    the world is as before. *)
Theorem add_merges_keeps_units
    (new_merges groups : list (list Z)) (w : World) (v : pyval) (w' : World) :
  AutomaticCuration.add_merges new_merges (VGroups groups) w
    = (Returned v, w') →
  w' = w ∧
  ∃ groups', v = VGroups groups' ∧
    (length groups ≤ length groups' ≤ length groups + length new_merges)%nat ∧
    ∀ u, in_groups groups' u ↔ in_groups groups u ∨ in_groups new_merges u.
Proof.
  revert groups w. induction new_merges as [|m rest IH]; intros groups w.
  - intros [= <- <-]. split; [done|]. exists groups. split; [done|].
    split; [simpl; lia|]. intros u. rewrite in_groups_nil. tauto.
  - cbn [AutomaticCuration.add_merges]. rewrite bind_unfold.
    destruct (AutomaticCuration.extend_group m groups w)
      as [[[found gs]|c msg|] w1] eqn:Hext; [|discriminate..].
    destruct (extend_group_units _ _ _ _ _ _ Hext) as (-> & Hlen & Hunits).
    intros H. apply IH in H as (-> & groups' & -> & Hlen' & Hunits').
    split; [done|]. exists groups'. split; [done|]. split.
    + destruct found; rewrite ?length_app in Hlen'; simpl in *; lia.
    + intros u. rewrite Hunits', in_groups_cons.
      destruct found.
      * rewrite Hunits. intuition.
      * rewrite in_groups_app, Hunits, in_groups_cons, in_groups_nil.
        intuition discriminate.
Qed.

Lemma add_merges_keeps_units_witness :
  world [] = world [] ∧
  ∃ groups', VGroups [[1; 2; 5]; [3; 4]; [6; 7]] = VGroups groups' ∧
    (length [[1; 2]; [3; 4]] ≤ length groups'
     ≤ length [[1; 2]; [3; 4]] + length [[1; 5]; [6; 7]])%nat ∧
    ∀ u, in_groups groups' u ↔
         in_groups [[1; 2]; [3; 4]] u ∨ in_groups [[1; 5]; [6; 7]] u.
Proof.
  apply (add_merges_keeps_units [[1; 5]; [6; 7]] [[1; 2]; [3; 4]] (world [])).
  by_evaluation.
Defined.

Section AutomaticCurationMore.
Context (ext : Collaborators).
Import AutomaticCuration.

(** With merge parameters the merge step gives [None] or fails. *)
Lemma get_merge_groups_with_params sorting groups quality_metrics params w :
  truthy params = Returned true →
  get_merge_groups sorting groups quality_metrics params w =
  match groups with
  | VGroups _ | VInts _ | VStrs _ | VTimes _ => (Returned VNone, w)
  | _ => (Raised AttributeError "sort", w)
  end.
Proof.
  intros H. unfold get_merge_groups. rewrite bind_unfold. unfold lift.
  rewrite H. by destruct groups.
Qed.

Lemma agrees_lookup attrs (key r : row) a v :
  DataJoint.agrees attrs key r = true → a ∈ attrs → key !! a = Some v →
  r !! a = Some v.
Proof.
  unfold DataJoint.agrees. rewrite forallb_forall. intros H Ha Hk.
  specialize (H a). rewrite Hk in H.
  eapply bool_decide_eq_true_1, H. by apply list_elem_of_In.
Qed.

End AutomaticCurationMore.

(** X5.  [get_labels] adds no label: with label parameters or without,
    it returns the parent's labels as they are and leaves the world alone
    (with parameters, [new_labels] is the empty dict and its loop does not
    run). *)
Theorem get_labels_adds_nothing
    (sorting parent_labels quality_metrics label_params : pyval)
    (has_params : bool) (w : World) :
  truthy label_params = Returned has_params →
  AutomaticCuration.get_labels sorting parent_labels quality_metrics
    label_params w
  = (Returned parent_labels, w).
Proof.
  intros H. unfold AutomaticCuration.get_labels. rewrite bind_unfold.
  unfold lift. rewrite H. by destruct has_params.
Qed.

Lemma get_labels_adds_nothing_witness :
  AutomaticCuration.get_labels (VSorting sorting) (VLabels labels)
    (VMetrics quality) (VParams {["snr" := 5]}) (world plain_ledger)
  = (Returned (VLabels labels), world plain_ledger).
Proof.
  apply (get_labels_adds_nothing (VSorting sorting) (VLabels labels)
           (VMetrics quality) (VParams {["snr" := 5]}) true
           (world plain_ledger)).
  by_evaluation.
Defined.

(** X8.  With merge parameters that are not empty, [get_merge_groups] ends
    in [return parent_merge_groups.sort()], which is [None]: [make] fails
    to unpack it (or, when the parent's merge groups are no list, fails at
    [sort]), and nothing has been written. *)
Theorem make_with_merge_params_raises
    (ext : Collaborators) (fuel : nat) (key : row) (w : World)
    (round : AutomaticCuration.Round) (params : pyval) :
  (AutomaticCuration.load_round ext key w).1 = Returned round →
  (DataJoint.fetch1 ext T_AutomaticCurationParameters key "merge_params" w).1
    = Returned params →
  truthy params = Returned true →
  let out := AutomaticCuration.make ext fuel key w in
  raised out.1
    = Some (match AutomaticCuration.parent_merge_groups round with
            | VGroups _ | VInts _ | VStrs _ | VTimes _ => TypeError
            | _ => AttributeError
            end) ∧
  out.2 = w.
Proof.
  intros Hload Hparams Htrue. cbv zeta.
  apply reads_result in Hload; [|apply reads_load_round].
  apply reads_result in Hparams; [|apply reads_fetch1].
  unfold AutomaticCuration.make.
  rewrite (bind_step _ _ _ _ _ Hload). rewrite bind_unfold.
  unfold AutomaticCuration.merge_decision.
  rewrite (bind_step _ _ _ _ _ Hparams). rewrite bind_unfold.
  rewrite (get_merge_groups_with_params _ _ _ _ _ Htrue).
  by destruct (AutomaticCuration.parent_merge_groups round).
Qed.

Lemma make_with_merge_params_raises_witness :
  let out := AutomaticCuration.make ext 5 auto_key Examples.merging_world in
  raised out.1 = Some TypeError ∧ out.2 = Examples.merging_world.
Proof.
  cbv zeta.
  refine (make_with_merge_params_raises ext 5 auto_key Examples.merging_world
            (AutomaticCuration.mkRound (VMetrics quality) (VGroups [])
               (VLabels labels) (VSorting sorting))
            (VParams {["isi_threshold" := 2]}) _ _ _);
    by_evaluation.
Defined.


(** ** Finalization, further *)

Section FinalizationMore.
Context (ext : Collaborators).
Import FinalizedSpikeSorting.

Lemma accept_units_filter unit_ids unit_labels :
  accept_units unit_ids unit_labels =
  List.filter (λ u, match unit_labels !! u with
                    | Some ls => none_to_remove ls
                    | None => true
                    end) unit_ids.
Proof. unfold accept_units. by rewrite fold_accept. Qed.

Lemma join_labels_returned unit_labels accepted_units : ∀ labels w labels' w',
  join_labels unit_labels accepted_units labels w = (Returned labels', w') →
  w' = w ∧
  (∀ u, u ∈ accepted_units → is_Some (unit_labels !! u)) ∧
  (∀ u, u ∈ accepted_units →
        labels' !! u = String.concat "," <$> unit_labels !! u) ∧
  (∀ u, u ∉ accepted_units → labels' !! u = labels !! u).
Proof.
  induction accepted_units as [|x rest IH]; intros labels w labels' w'; simpl.
  - intros [= <- <-]. repeat split; intros u Hu; try done; by inversion Hu.
  - destruct (unit_labels !! x) as [ls|] eqn:Hx; [|discriminate].
    intros H. apply IH in H as (-> & Hsome & Hin & Hout).
    split; [done|]. split; [|split].
    + intros u [->|Hu]%elem_of_cons; [by rewrite Hx|by apply Hsome].
    + intros u Hu. destruct (decide (u ∈ rest)) as [Hr|Hr]; [by apply Hin|].
      apply elem_of_cons in Hu as [->|Hu]; [|done].
      rewrite (Hout _ Hr), lookup_insert_eq. by rewrite Hx.
    + intros u Hu. apply not_elem_of_cons in Hu as [Hne Hu].
      rewrite (Hout _ Hu). by rewrite lookup_insert_ne.
Qed.

End FinalizationMore.

(** X10.  [FinalizedSpikeSorting.make] returns normally only when there is
    nothing to finalize: every unit of the curated sorting has an entry in
    the labels and the entry holds "reject" or "noise".  It then returns
    [None] and has written nothing. *)
Theorem finalization_returns_only_without_units
    (ext : Collaborators) (key : row) (w : World) (v : pyval) (w' : World) :
  FinalizedSpikeSorting.make ext key w = (Returned v, w') →
  v = VNone ∧ w' = w ∧
  ∃ base unit_labels,
    Curation.get_curated_sorting_extractor ext key w
      = (Returned (VSorting base), w) ∧
    DataJoint.fetch1 ext T_Curation key "labels" w
      = (Returned (VLabels unit_labels), w) ∧
    ∀ u, u ∈ get_unit_ids base →
         ∃ ls, unit_labels !! u = Some ls ∧ rejected_labels ls.
Proof.
  intros H. unfold FinalizedSpikeSorting.make in H.
  apply bind_returned in H as (metrics & w0 & H0 & H).
  apply (reads_eq _ _ _ _ (reads_try_or_raise _ _ (reads_fetch1 _ _ _ _)))
    in H0 as ->.
  apply bind_returned in H as (sorting & w0 & Hsorting & H).
  pose proof (reads_eq _ _ _ _ (reads_get_curated_sorting_extractor _ _)
                Hsorting) as ->.
  apply bind_returned in H as (unit_ids & w0 & Hids & H).
  pose proof (reads_eq _ _ _ _ (reads_call_get_unit_ids _) Hids) as ->.
  apply bind_returned in H as (lbls & w0 & Hlabels & H).
  pose proof (reads_eq _ _ _ _ (reads_fetch1 _ _ _ _) Hlabels) as ->.
  apply bind_returned in H as (unit_labels & w0 & Has & H).
  pose proof (reads_eq _ _ _ _ (reads_as_labels _) Has) as ->.
  cbv zeta in H.
  apply bind_returned in H as (labels & w0 & Hjoin & H).
  apply join_labels_returned in Hjoin as (-> & Hsome & _ & _).
  apply bind_returned in H as (metrics' & w0 & Hloc & H).
  apply (reads_eq _ _ _ _ (reads_call_loc _ _ _)) in Hloc as ->.
  destruct sorting; try discriminate. injection Hids as <-.
  destruct lbls; try discriminate. injection Has as ->.
  assert (FinalizedSpikeSorting.accept_units (get_unit_ids s) unit_labels = []
          ∧ v = VNone ∧ w' = w) as (Hnone & -> & ->).
  { destruct (_ || _) eqn:Hif.
    - injection H as <- <-. split; [|done].
      apply orb_true_iff in Hif as [Hsize|Hlen].
      + apply Nat.eqb_eq, map_size_empty_iff in Hsize. subst unit_labels.
        destruct (FinalizedSpikeSorting.accept_units _ _) as [|u rest];
          [done|].
        destruct (Hsome u) as [? Hu]; [left|]. by rewrite lookup_empty in Hu.
      + apply Nat.eqb_eq in Hlen. by apply nil_length_inv.
    - apply bind_returned in H as (key' & w1 & Hexp & _).
      pose proof (fails_export ext key metrics'
                    (FinalizedSpikeSorting.accept_units (get_unit_ids s)
                       unit_labels) w) as Hfails.
      by rewrite Hexp in Hfails. }
  split; [done|]. split; [done|].
  exists s, unit_labels. split; [done|]. split; [done|].
  intros u Hu.
  assert (u ∉ FinalizedSpikeSorting.accept_units (get_unit_ids s) unit_labels)
    as Hnot by (rewrite Hnone; apply not_elem_of_nil).
  rewrite elem_of_accept_units in Hnot.
  destruct (unit_labels !! u) as [ls|] eqn:Hls.
  - exists ls. split; [done|].
    destruct (FinalizedSpikeSorting.none_to_remove ls) eqn:Hrm.
    + exfalso. apply Hnot. split; [done|]. by apply none_to_remove_spec.
    + assert (Decision (rejected_labels ls))
        by (unfold rejected_labels; apply _).
      destruct (decide (rejected_labels ls)) as [|Hn]; [done|].
      apply none_to_remove_spec in Hn. congruence.
  - exfalso. apply Hnot. split; [done|]. simpl.
    unfold rejected_labels. set_solver.
Qed.

Lemma finalization_returns_only_without_units_witness :
  ∃ base unit_labels,
    Curation.get_curated_sorting_extractor ext (curation_key "C_deadbeef")
      (world all_rejected_ledger)
      = (Returned (VSorting base), world all_rejected_ledger) ∧
    DataJoint.fetch1 ext T_Curation (curation_key "C_deadbeef") "labels"
      (world all_rejected_ledger)
      = (Returned (VLabels unit_labels), world all_rejected_ledger) ∧
    ∀ u, u ∈ get_unit_ids base →
         ∃ ls, unit_labels !! u = Some ls ∧ rejected_labels ls.
Proof.
  refine (proj2 (proj2
    (finalization_returns_only_without_units ext (curation_key "C_deadbeef")
       (world all_rejected_ledger) VNone (world all_rejected_ledger) _))).
  by_evaluation.
Defined.

Section UnitsPhase.
Context (ext : Collaborators).
Import FinalizedSpikeSorting.

Lemma filter_none {A} (f : A → bool) (l : list A) :
  (∀ x, x ∈ l → f x = false) → List.filter f l = [].
Proof.
  induction l as [|x l IH]; intros H; simpl; [done|].
  rewrite (H x) by left. apply IH. intros y Hy. apply H. by right.
Qed.

Lemma metrics_fields_eq w :
  metrics_fields ext w =
  match rows w T_Unit, rows w T_FinalizedSpikeSorting with
  | [], _ | _, [] => (Raised IndexError "list index out of range", w)
  | _ :: _, _ :: _ =>
      (Returned (List.filter (λ f, negb (bool_decide (f ∈ SpikeSorting_pk ext)))
                   metric_columns_of_Unit), w)
  end.
Proof.
  unfold metrics_fields. rewrite bind_unfold.
  unfold DataJoint.fetch_first_keys at 1.
  destruct (rows w T_Unit) as [|u us]; [done|].
  rewrite bind_unfold. unfold DataJoint.fetch_first_keys.
  destruct (rows w T_FinalizedSpikeSorting) as [|p ps]; [done|].
  unfold mret, M_ret. f_equal. f_equal.
  unfold DataJoint.heading. cbn [DataJoint.primary_key DataJoint.dependent].
  set (parent_fields := (_ ++ _) ++ ["unit_id"; "label"]).
  assert (∀ f, f ∈ "curation_id" :: SpikeSorting_pk ext → f ∈ parent_fields)
    as Hpk.
  { intros f Hf. unfold parent_fields. apply elem_of_app. left.
    apply elem_of_app. by left. }
  rewrite List.filter_app.
  change (("curation_id" :: SpikeSorting_pk ext) ++ ["unit_id"])
    with ("curation_id" :: (SpikeSorting_pk ext ++ ["unit_id"])).
  rewrite (filter_none _ ("curation_id" :: SpikeSorting_pk ext ++ ["unit_id"])).
  2: { intros f Hf. apply negb_false_iff, bool_decide_eq_true_2.
       change ("curation_id" :: SpikeSorting_pk ext ++ ["unit_id"])
         with (("curation_id" :: SpikeSorting_pk ext) ++ ["unit_id"]) in Hf.
       apply elem_of_app in Hf as [Hf|Hf]; [by apply Hpk|].
       apply list_elem_of_singleton in Hf as ->.
       unfold parent_fields. apply elem_of_app. right. set_solver. }
  rewrite app_nil_l.
  assert (∀ f, f ∈ metric_columns_of_Unit →
            negb (bool_decide (f ∈ parent_fields))
            = negb (bool_decide (f ∈ SpikeSorting_pk ext))) as Hcol.
  { intros f Hf. f_equal. apply bool_decide_ext. unfold parent_fields.
    rewrite !elem_of_app, elem_of_cons. simpl.
    unfold metric_columns_of_Unit in Hf. set_solver. }
  assert ("label" ∈ parent_fields) as Hlabel
    by (unfold parent_fields; apply elem_of_app; right; set_solver).
  match goal with
  | |- List.filter ?g ?l = _ =>
      change (List.filter g ("label" :: metric_columns_of_Unit) = 
              List.filter (λ f, negb (bool_decide (f ∈ SpikeSorting_pk ext)))
                metric_columns_of_Unit);
      change (List.filter g ("label" :: metric_columns_of_Unit))
        with (if g "label"
              then "label" :: List.filter g metric_columns_of_Unit
              else List.filter g metric_columns_of_Unit)
  end.
  cbv beta. rewrite (bool_decide_eq_true_2 _ Hlabel). cbn [negb].
  apply filter_ext_in. intros f Hf. apply Hcol. by apply list_elem_of_In.
Qed.

End UnitsPhase.

Section UnitsPhase2.
Context (ext : Collaborators).
Import FinalizedSpikeSorting.

Lemma metrics_fields_returned w fields w' :
  metrics_fields ext w = (Returned fields, w') →
  w' = w ∧ rows w T_Unit ≠ [] ∧ rows w T_FinalizedSpikeSorting ≠ [] ∧
  "unit_id" ∉ fields ∧ "label" ∉ fields.
Proof.
  rewrite metrics_fields_eq.
  destruct (rows w T_Unit), (rows w T_FinalizedSpikeSorting); try discriminate.
  intros H.
  assert (w' = w ∧
          fields = List.filter
                     (λ f, negb (bool_decide (f ∈ SpikeSorting_pk ext)))
                     metric_columns_of_Unit) as [-> ->]
    by (by injection H as <- <-).
  clear H. repeat split; try done.
  - intros [H%list_elem_of_In _]%list_elem_of_In%filter_In.
    unfold metric_columns_of_Unit in H. set_solver.
  - intros [H%list_elem_of_In _]%list_elem_of_In%filter_In.
    unfold metric_columns_of_Unit in H. set_solver.
Qed.

Lemma fill_metrics_other metrics unit_id fields : ∀ key w key' w' a,
  fill_metrics ext metrics unit_id fields key w = (Returned key', w') →
  a ∉ fields → key' !! a = key !! a.
Proof.
  induction fields as [|field rest IH]; intros key w key' w' a; simpl.
  - by intros [= <- <-].
  - destruct metrics; try discriminate.
    intros H Ha. apply not_elem_of_cons in Ha as [Hne Ha].
    apply bind_returned in H as (present & w0 & _ & H).
    destruct present; [|discriminate].
    apply bind_returned in H as (x & w1 & _ & H).
    rewrite (IH _ _ _ _ _ H Ha). by rewrite lookup_insert_ne.
Qed.

Lemma fill_unit_key_last metrics labels fields accepted u : ∀ key w key' w',
  fill_unit_key ext metrics labels fields (accepted ++ [u]) key w
    = (Returned key', w') →
  "unit_id" ∉ fields → "label" ∉ fields →
  key' !! "unit_id" = Some (VInt u) ∧
  ∃ l, labels !! u = Some l ∧ key' !! "label" = Some (VStr l).
Proof.
  induction accepted as [|x rest IH]; intros key w key' w' H Hu Hl.
  - simpl in H. destruct (labels !! u) as [l|]; [|discriminate].
    apply bind_returned in H as (k & w0 & Hfill & H).
    injection H as <- <-.
    rewrite (fill_metrics_other _ _ _ _ _ _ _ "unit_id" Hfill Hu).
    rewrite (fill_metrics_other _ _ _ _ _ _ _ "label" Hfill Hl).
    split; [by simplify_map_eq|]. exists l. split; [done|]. by simplify_map_eq.
  - simpl in H. destruct (labels !! x) as [l|]; [|discriminate].
    apply bind_returned in H as (k & w0 & _ & H).
    by apply IH in H.
Qed.

End UnitsPhase2.

(** X11.  [metrics_fields] reads its answer off the first row of the
    [Unit] table and of the export table: with either of them empty it
    raises [IndexError]; otherwise it gives the metric columns of the
    [Unit] table (those that are not also attributes of the sorting key),
    in the order of the declaration. *)
Theorem metrics_fields_columns (ext : Collaborators) (w : World) :
  (rows w T_Unit = [] ∨ rows w T_FinalizedSpikeSorting = [] →
   FinalizedSpikeSorting.metrics_fields ext w
   = (Raised IndexError "list index out of range", w)) ∧
  (rows w T_Unit ≠ [] → rows w T_FinalizedSpikeSorting ≠ [] →
   FinalizedSpikeSorting.metrics_fields ext w
   = (Returned (List.filter (λ f, negb (bool_decide (f ∈ SpikeSorting_pk ext)))
                  metric_columns_of_Unit), w)).
Proof.
  rewrite metrics_fields_eq. split.
  - intros [->| ->]; [done|]. by destruct (rows w T_Unit).
  - intros H1 H2.
    by destruct (rows w T_Unit), (rows w T_FinalizedSpikeSorting).
Qed.

(** X12.  The units phase of finalization inserts one row, for the last
    accepted unit: its [unit_id] and its label are those of the last unit
    of the list, whatever units come before it.  It can do so only when the
    [Unit] table and the export table already have a row. *)
Theorem add_units_inserts_last_unit
    (ext : Collaborators) (key : row) (metrics : pyval)
    (labels : gmap Z string) (accepted_units : list Z) (unit_id : Z)
    (w : World) (v : unit) (w' : World) :
  FinalizedSpikeSorting.add_units ext key metrics labels
    (accepted_units ++ [unit_id]) w = (Returned v, w') →
  rows w T_Unit ≠ [] ∧ rows w T_FinalizedSpikeSorting ≠ [] ∧
  ∃ r label,
    rows w' T_Unit = rows w T_Unit ++ [r] ∧
    r !! "unit_id" = Some (VInt unit_id) ∧
    labels !! unit_id = Some label ∧
    r !! "label" = Some (VStr label).
Proof.
  intros H. unfold FinalizedSpikeSorting.add_units in H.
  apply bind_returned in H as (fields & w0 & Hfields & H).
  apply metrics_fields_returned in Hfields as (-> & Hunit & Hparent & Hu & Hl).
  apply bind_returned in H as (key' & w0 & Hfill & H).
  pose proof (reads_eq _ _ _ _ (reads_fill_unit_key _ _ _ _ _ _) Hfill) as ->.
  apply fill_unit_key_last in Hfill as (Hid & l & Hlabel & Hkey); [|done..].
  apply insert1_returned in H as ->.
  split; [done|]. split; [done|].
  exists (DataJoint.stored ext T_Unit key'), l.
  rewrite rows_with_rows. split; [done|].
  split; [|split; [done|]].
  - apply stored_primary; [|done]. simpl. right.
    apply elem_of_app. right. by left.
  - apply stored_dependent; [|done]. simpl. by left.
Qed.

Lemma add_units_inserts_last_unit_witness :
  let out := FinalizedSpikeSorting.add_units ext exported_key
               (VFrame full_frame) (<[2 := "good"]> {[3 := ""]}) ([2] ++ [3])
               exported_world in
  ∃ r label,
    rows out.2 T_Unit = rows exported_world T_Unit ++ [r] ∧
    r !! "unit_id" = Some (VInt 3) ∧
    (<[2 := "good"]> {[3 := ""]} : gmap Z string) !! 3 = Some label ∧
    r !! "label" = Some (VStr label).
Proof.
  cbv zeta.
  refine (proj2 (proj2
    (add_units_inserts_last_unit ext exported_key (VFrame full_frame)
       (<[2 := "good"]> {[3 := ""]}) [2] 3 exported_world tt
       (FinalizedSpikeSorting.add_units ext exported_key (VFrame full_frame)
          (<[2 := "good"]> {[3 := ""]}) ([2] ++ [3]) exported_world).2 _))).
  by_evaluation.
Defined.

Section AcceptedOrder.
Import FinalizedSpikeSorting.

Lemma filter_sublist {A} (f : A → bool) (l : list A) :
  sublist (List.filter f l) l.
Proof.
  induction l as [|x l IH]; simpl; [constructor|].
  destruct (f x); by constructor.
Qed.

Lemma filter_filter_same {A} (f : A → bool) (l : list A) :
  List.filter f (List.filter f l) = List.filter f l.
Proof.
  induction l as [|x l IH]; simpl; [done|].
  destruct (f x) eqn:E; simpl; rewrite ?E, IH; done.
Qed.

Lemma join_labels_total unit_labels accepted_units : ∀ labels w,
  (∀ u, u ∈ accepted_units → is_Some (unit_labels !! u)) →
  ∃ labels', join_labels unit_labels accepted_units labels w
             = (Returned labels', w).
Proof.
  induction accepted_units as [|x rest IH]; intros labels w H; simpl.
  - by eexists.
  - destruct (H x) as [ls ->]; [left|]. apply IH.
    intros u Hu. apply H. by right.
Qed.

End AcceptedOrder.

(** X13.  The accepted units come in the order of the unit ids of the
    sorting: the loop is a filter.  It distributes over the concatenation of
    id lists, its result is a sublist of the ids, and accepting the accepted
    units again changes nothing. *)
Theorem accept_units_keeps_order
    (unit_ids more_ids : list Z) (unit_labels : gmap Z (list string)) :
  FinalizedSpikeSorting.accept_units (unit_ids ++ more_ids) unit_labels
  = FinalizedSpikeSorting.accept_units unit_ids unit_labels
    ++ FinalizedSpikeSorting.accept_units more_ids unit_labels ∧
  sublist (FinalizedSpikeSorting.accept_units unit_ids unit_labels) unit_ids ∧
  FinalizedSpikeSorting.accept_units
    (FinalizedSpikeSorting.accept_units unit_ids unit_labels) unit_labels
  = FinalizedSpikeSorting.accept_units unit_ids unit_labels.
Proof.
  rewrite !accept_units_filter. split; [apply List.filter_app|].
  split; [apply filter_sublist|apply filter_filter_same].
Qed.

(** X14.  When every accepted unit has an entry in the labels of the
    curation, the loop that joins the labels gets through, and the dict it
    builds maps each accepted unit to its labels joined by commas and keeps
    what it held for the other units. *)
Theorem join_labels_joins
    (unit_labels : gmap Z (list string)) (accepted_units : list Z)
    (labels : gmap Z string) (w : World) :
  (∀ u, u ∈ accepted_units → is_Some (unit_labels !! u)) →
  FinalizedSpikeSorting.join_labels unit_labels accepted_units labels w
  = (Returned
       ((String.concat "," <$>
           filter (λ kv, kv.1 ∈ accepted_units) unit_labels) ∪ labels), w).
Proof.
  intros Hall.
  destruct (join_labels_total unit_labels accepted_units labels w Hall)
    as [labels' Hjoin].
  rewrite Hjoin. f_equal. f_equal.
  apply join_labels_returned in Hjoin as (_ & _ & Hin & Hout).
  apply map_eq. intros u.
  destruct (decide (u ∈ accepted_units)) as [Hu|Hu].
  - rewrite (Hin u Hu). destruct (Hall u Hu) as [ls Hls].
    rewrite Hls. simpl. symmetry. apply lookup_union_Some_l.
    rewrite lookup_fmap, (map_lookup_filter_Some_2 _ _ u ls); done.
  - rewrite (Hout u Hu). symmetry.
    rewrite lookup_union_r; [done|].
    rewrite lookup_fmap, map_lookup_filter_None_2; [done|].
    right. intros ls _. done.
Qed.

Lemma join_labels_joins_witness :
  FinalizedSpikeSorting.join_labels labels [2; 3] ∅ (world [])
  = (Returned
       ((String.concat "," <$> filter (λ kv, kv.1 ∈ [2; 3]) labels) ∪ ∅),
     world []).
Proof.
  apply (join_labels_joins labels [2; 3] ∅ (world [])).
  apply Forall_forall. by_evaluation.
Defined.

(** ** Saving a sorting in an analysis file *)

Section SaveSortingNwb.
Context (ext : Collaborators).





End SaveSortingNwb.


(** ** Spike sorting *)

Section SpikeSortingFacts.
Context (ext : Collaborators) (lib : SortingLibrary).

Lemma reads_concat_str a b : reads (concat_str a b).
Proof. destruct b; try apply reads_raise. apply reads_ret. Qed.

Lemma reads_get_sorting_name key :
  reads (SpikeSorting._get_sorting_name lib key).
Proof.
  unfold SpikeSorting._get_sorting_name.
  apply reads_bind; [apply reads_ask|intros].
  do 3 (apply reads_bind; [apply reads_getitem|intros];
        try (apply reads_bind; [apply reads_concat_str|intros])).
  apply reads_concat_str.
Qed.

Lemma reads_triggers timestamps intervals :
  reads (SpikeSorting.triggers lib timestamps intervals).
Proof.
  induction intervals as [|interval rest IH]; simpl; [apply reads_ret|].
  apply reads_bind; [apply reads_lift|intros].
  apply reads_bind; [apply reads_ask|intros].
  apply reads_bind; [apply reads_lift|intros].
  apply reads_bind; [apply reads_ask|intros].
  apply reads_bind; [apply reads_ask|intros].
  apply reads_bind; [apply IH|intros]. apply reads_ret.
Qed.

Lemma reads_zero_artifacts recording timestamps artifact_times :
  reads (SpikeSorting.zero_artifacts lib recording timestamps artifact_times).
Proof.
  unfold SpikeSorting.zero_artifacts.
  apply reads_bind; [apply reads_lift|intros].
  apply reads_bind; [apply reads_triggers|intros].
  apply reads_bind; [apply reads_ask|intros].
  apply reads_bind; [apply reads_ask|intros].
  apply reads_bind; [|intros; apply reads_ask].
  case_match; [apply reads_ask|apply reads_ret].
Qed.

Lemma array_size_one n s :
  foldr Nat.mul 1%nat (n :: s) = 1%nat → n = 1%nat ∧ foldr Nat.mul 1%nat s = 1%nat.
Proof. simpl. intros H. by apply Nat.eq_mul_1 in H. Qed.

(** An interval of one element has no second one. *)
Lemma fails_triggers timestamps interval rest s :
  shape interval = 1%nat :: s →
  fails (SpikeSorting.triggers lib timestamps (interval :: rest)).
Proof.
  intros Hs w. cbn [SpikeSorting.triggers]. rewrite bind_unfold.
  unfold lift at 1. unfold array_item at 1. rewrite Hs.
  change (0 <? 1)%nat with true. cbv iota.
  rewrite bind_unfold. unfold ask at 1.
  destruct (searchsorted lib timestamps _ w); [|done..].
  rewrite bind_unfold. unfold lift at 1. unfold array_item. rewrite Hs.
  change (1 <? 1)%nat with false. done.
Qed.

(** A truthy array has one element: the artifact branch never gets
    through. *)
Lemma fails_zero_artifacts recording timestamps artifact_times :
  array_truth artifact_times = Returned true →
  ndim artifact_times ≠ 1%nat →
  fails (SpikeSorting.zero_artifacts lib recording timestamps artifact_times).
Proof.
  intros Htruth Hdim.
  assert (array_size artifact_times = 1%nat) as Hsize.
  { unfold array_truth in Htruth.
    destruct (array_size artifact_times) as [|[|]]; try discriminate. done. }
  unfold SpikeSorting.zero_artifacts.
  destruct artifact_times as [[|n [|m s]] elements];
    unfold ndim in Hdim; simpl in Hdim; try done.
  apply array_size_one in Hsize as [-> Hs].
  apply array_size_one in Hs as [-> Hs].
  intros w. rewrite bind_unfold. unfold lift at 1, array_rows.
    cbn [shape data seq fmap list_fmap]. rewrite bind_unfold.
    pose proof (fails_triggers timestamps (sub_array (1%nat :: s) elements 0)
                  [] s eq_refl w) as Hfails.
    pose proof (reads_triggers timestamps
                  [sub_array (1%nat :: s) elements 0] w) as Hreads.
    destruct (SpikeSorting.triggers lib timestamps _ w) as [[x|c msg|] w0]; try done.
Qed.

Lemma expanded_ndim a :
  ndim (if (ndim a =? 1)%nat then expand_dims a else a) ≠ 1%nat.
Proof.
  destruct (ndim a =? 1)%nat eqn:E.
  - apply Nat.eqb_eq in E. unfold ndim in *. simpl. lia.
  - by apply Nat.eqb_neq in E.
Qed.

Lemma expanded_size a :
  array_size (if (ndim a =? 1)%nat then expand_dims a else a) = array_size a.
Proof. destruct (ndim a =? 1)%nat; [|done]. unfold array_size. simpl. lia. Qed.

Lemma expanded_truth a :
  array_truth (if (ndim a =? 1)%nat then expand_dims a else a) = array_truth a.
Proof.
  unfold array_truth. rewrite expanded_size. by destruct (ndim a =? 1)%nat.
Qed.

Lemma insert1_returned_new t r w u w' :
  DataJoint.insert1 ext t r w = (Returned u, w') →
  List.filter (DataJoint.agrees (DataJoint.primary_key ext t) r) (rows w t) = [].
Proof.
  unfold DataJoint.insert1. repeat case_match; try discriminate.
  intros _. by eapply bool_decide_eq_true_1.
Qed.

Lemma insert1_returned_required t r w u w' a :
  DataJoint.insert1 ext t r w = (Returned u, w') →
  a ∈ DataJoint.required ext t → is_Some (r !! a).
Proof.
  unfold DataJoint.insert1, DataJoint.check_row.
  destruct (List.find _ (DataJoint.required ext t)) as [b|] eqn:Hfind;
    [discriminate|].
  intros _ Ha. apply list_elem_of_In in Ha.
  pose proof (find_none _ _ Hfind a Ha) as Hnone. simpl in Hnone.
  apply bool_decide_eq_false_1 in Hnone.
  by destruct (r !! a); [eexists|].
Qed.

(** A run of [make] that gets through. *)
Lemma make_returned key w v w' :
  SpikeSorting.make ext lib key w = (Returned v, w') →
  ∃ recording_path recording artifact_times sorter sorter_params tmp sorting
    dir name,
    DataJoint.fetch1 ext T_SpikeSortingRecording key "recording_path" w
      = (Returned recording_path, w) ∧
    load_extractor recording_path w = (Returned recording, w) ∧
    fetch_artifact_times lib key w = Returned artifact_times ∧
    array_truth artifact_times = Returned false ∧
    fetch_sorter lib key w = Returned (sorter, sorter_params) ∧
    run_sorter lib sorter recording tmp sorter_params w = Returned sorting ∧
    ((∃ s, sorting = VSorting s) ∨ (∃ s, sorting = VRecording s)) ∧
    environ w !! "NWB_DATAJOINT_SORTING_DIR" = Some dir ∧
    SpikeSorting._get_sorting_name lib
      (<["time_of_sort" := VInt (time lib w)]> key) w = (Returned name, w) ∧
    let path := path_join ext dir name in
    let key' := <["sorting_path" := VStr path]>
                  (<["time_of_sort" := VInt (time lib w)]> key) in
    List.filter (DataJoint.agrees (SpikeSorting_pk ext) key')
      (rows w T_SpikeSorting) = [] ∧
    (∀ a, a ∈ SpikeSorting_pk ext → is_Some (key' !! a)) ∧
    w' = with_rows T_SpikeSorting
           (rows w T_SpikeSorting ++ [DataJoint.stored ext T_SpikeSorting key'])
           (with_folders (<[path := sorting]> (delete path (folders w))) w).
Proof.
  intros H. unfold SpikeSorting.make in H.
  apply bind_returned in H as (recording_path & w0 & Hpath & H).
  pose proof (reads_eq _ _ _ _ (reads_fetch1 _ _ _ _) Hpath) as ->.
  apply bind_returned in H as (recording & w0 & Hrec & H).
  pose proof (reads_eq _ _ _ _ (reads_load_extractor _) Hrec) as ->.
  apply bind_returned in H as (timestamps & w0 & Hts & H).
  pose proof (reads_eq _ _ _ _ (reads_ask _) Hts) as ->.
  apply bind_returned in H as (a & w0 & Ha & H).
  unfold ask in Ha. injection Ha as Ha <-.
  cbv zeta in H.
  apply bind_returned in H as (has & w0 & Htruth & H).
  unfold lift in Htruth. injection Htruth as Htruth <-.
  apply bind_returned in H as (recording' & w0 & Hzero & H).
  destruct has.
  { pose proof (fails_zero_artifacts recording timestamps _ Htruth
                  (expanded_ndim a) w) as Hfails.
    by rewrite Hzero in Hfails. }
  injection Hzero as <- <-. rewrite expanded_truth in Htruth.
  apply bind_returned in H as ([sorter sorter_params] & w0 & Hsorter & H).
  unfold ask in Hsorter. injection Hsorter as Hsorter <-.
  apply bind_returned in H as (tmp & w0 & Htmp & H).
  injection Htmp as Htmp <-.
  apply bind_returned in H as (sorting & w0 & Hrun & H).
  unfold ask in Hrun. injection Hrun as Hrun <-.
  apply bind_returned in H as (now & w0 & Hnow & H).
  unfold ask in Hnow. injection Hnow as <- <-.
  apply bind_returned in H as (dir & w0 & Hdir & H).
  unfold getenv_path in Hdir.
  destruct (environ w !! "NWB_DATAJOINT_SORTING_DIR") as [d|] eqn:Henv;
    [|discriminate].
  injection Hdir as <- <-.
  apply bind_returned in H as (name & w0 & Hname & H).
  pose proof (reads_eq _ _ _ _ (reads_get_sorting_name _) Hname) as ->.
  cbv zeta in H.
  apply bind_returned in H as (u & w0 & H0 & H).
  unfold remove_if_exists, modify in H0. injection H0 as _ <-.
  apply bind_returned in H as (saved & w1 & Hsave & H).
  assert (((∃ s, sorting = VSorting s) ∨ (∃ s, sorting = VRecording s)) ∧
          w1 = with_folders
                 (<[path_join ext d name := sorting]>
                    (delete (path_join ext d name) (folders w))) w)
    as [Hkind ->].
  { destruct sorting; try discriminate;
      injection Hsave as _ <-; (split; [|done]); [left|right]; by eexists. }
  clear Hsave.
  pose proof (insert1_returned_new _ _ _ _ _ H) as Hnew.
  assert (∀ a, a ∈ SpikeSorting_pk ext →
            is_Some ((<["sorting_path" := VStr (path_join ext d name)]>
                        (<["time_of_sort" := VInt (time lib w)]> key)) !! a))
    as Hreq.
  { intros attr Hattr. apply (insert1_returned_required _ _ _ _ _ attr H).
    unfold DataJoint.required. apply elem_of_app. by left. }
  apply insert1_returned in H as ->.
  exists recording_path, recording, a, sorter, sorter_params, tmp, sorting,
    d, name.
  cbv zeta. repeat (split; [done|]). done.
Qed.

End SpikeSortingFacts.

(** X16.  [SpikeSorting.make] never zeroes an artifact.  A run that gets
    through found an artifact array that is empty or holds the single
    number 0, and ran the sorter on the recording as it was loaded: with
    one element that is not 0 the loop over the intervals fails at
    [interval[1]], and a larger array fails the test [if artifact_times:]
    itself. *)
Theorem make_never_zeroes_artifacts
    (ext : Collaborators) (lib : SortingLibrary) (key : row) (w : World)
    (v : unit) (w' : World) :
  SpikeSorting.make ext lib key w = (Returned v, w') →
  ∃ artifact_times recording_path recording sorter sorter_params tmp sorting,
    fetch_artifact_times lib key w = Returned artifact_times ∧
    (array_size artifact_times = 0%nat ∨
     (array_size artifact_times = 1%nat ∧ hd 0 (data artifact_times) = 0)) ∧
    DataJoint.fetch1 ext T_SpikeSortingRecording key "recording_path" w
      = (Returned recording_path, w) ∧
    load_extractor recording_path w = (Returned recording, w) ∧
    fetch_sorter lib key w = Returned (sorter, sorter_params) ∧
    run_sorter lib sorter recording tmp sorter_params w = Returned sorting.
Proof.
  intros H. apply make_returned in H
    as (recording_path & recording & a & sorter & sorter_params & tmp &
        sorting & dir & name & Hpath & Hrec & Ha & Htruth & Hsorter & Hrun & _).
  exists a, recording_path, recording, sorter, sorter_params, tmp, sorting.
  repeat (split; [done|]). split; [|done].
  unfold array_truth in Htruth.
  destruct (array_size a) as [|[|]]; [by left| |discriminate].
  right. split; [done|]. injection Htruth as Htruth.
  apply negb_false_iff, Z.eqb_eq in Htruth. done.
Qed.

Lemma make_never_zeroes_artifacts_witness :
  let lib := SortingExamples.lib SortingExamples.no_artifacts in
  let key := SortingExamples.kilosort_key in
  ∃ artifact_times recording_path recording sorter sorter_params tmp sorting,
    fetch_artifact_times lib key (world []) = Returned artifact_times ∧
    (array_size artifact_times = 0%nat ∨
     (array_size artifact_times = 1%nat ∧ hd 0 (data artifact_times) = 0)) ∧
    DataJoint.fetch1 ext T_SpikeSortingRecording key "recording_path" (world [])
      = (Returned recording_path, world []) ∧
    load_extractor recording_path (world []) = (Returned recording, world []) ∧
    fetch_sorter lib key (world []) = Returned (sorter, sorter_params) ∧
    run_sorter lib sorter recording tmp sorter_params (world [])
      = Returned sorting.
Proof.
  cbv zeta.
  refine (make_never_zeroes_artifacts ext
            (SortingExamples.lib SortingExamples.no_artifacts)
            SortingExamples.kilosort_key (world []) tt
            (SpikeSorting.make ext
               (SortingExamples.lib SortingExamples.no_artifacts)
               SortingExamples.kilosort_key (world [])).2 _).
  by_evaluation.
Defined.

(** X17.  With an artifact array of two numbers or more, that is with one
    interval at least, [SpikeSorting.make] raises [ValueError] at
    [if artifact_times:]: the sorter is not run and nothing is written. *)
Theorem make_raises_with_artifacts
    (ext : Collaborators) (lib : SortingLibrary) (key : row) (w : World)
    (recording_path recording timestamps : pyval) (artifact_times : ndarray) :
  (DataJoint.fetch1 ext T_SpikeSortingRecording key "recording_path" w).1
    = Returned recording_path →
  (load_extractor recording_path w).1 = Returned recording →
  _get_recording_timestamps ext recording w = Returned timestamps →
  fetch_artifact_times lib key w = Returned artifact_times →
  (2 ≤ array_size artifact_times)%nat →
  let out := SpikeSorting.make ext lib key w in
  raised out.1 = Some ValueError ∧ out.2 = w.
Proof.
  intros Hpath Hrec Hts Ha Hsize. cbv zeta.
  apply reads_result in Hpath; [|apply reads_fetch1].
  apply reads_result in Hrec; [|apply reads_load_extractor].
  unfold SpikeSorting.make.
  rewrite (bind_step _ _ _ _ _ Hpath), (bind_step _ _ _ _ _ Hrec).
  rewrite (bind_step _ _ w timestamps w) by (unfold ask; by rewrite Hts).
  rewrite (bind_step _ _ w artifact_times w) by (unfold ask; by rewrite Ha).
  cbv zeta. rewrite bind_unfold. unfold lift.
  rewrite expanded_truth. unfold array_truth.
  destruct (array_size artifact_times) as [|[|n]]; [lia..|done].
Qed.

Lemma make_raises_with_artifacts_witness :
  let out := SpikeSorting.make ext
               (SortingExamples.lib SortingExamples.one_artifact)
               SortingExamples.kilosort_key (world []) in
  raised out.1 = Some ValueError ∧ out.2 = world [].
Proof.
  cbv zeta.
  refine (make_raises_with_artifacts ext
            (SortingExamples.lib SortingExamples.one_artifact)
            SortingExamples.kilosort_key (world [])
            (VStr "/recordings/r1") (VRecording "r1")
            (VTimes [0; 1; 2; 3; 4; 5]) SortingExamples.one_artifact
            _ _ _ _ _); try by_evaluation.
Defined.



(** ** From the sorter to the curated sorting *)

Section Pipeline.
Context (ext : Collaborators).


Lemma agrees_true attrs (key r : row) :
  (∀ a v, a ∈ attrs → key !! a = Some v → r !! a = Some v) →
  DataJoint.agrees attrs key r = true.
Proof.
  intros H. unfold DataJoint.agrees. apply forallb_forall. intros a Ha.
  destruct (key !! a) as [v|] eqn:Hk; [|done].
  apply bool_decide_eq_true_2. apply H; [by apply list_elem_of_In|done].
Qed.

Lemma agrees_sub attrs attrs' (key r : row) :
  (∀ a, a ∈ attrs' → a ∈ attrs) →
  DataJoint.agrees attrs key r = true → DataJoint.agrees attrs' key r = true.
Proof.
  intros Hsub H. apply agrees_true. intros a v Ha Hk.
  by apply (agrees_lookup attrs key r a v H); [apply Hsub|].
Qed.


End Pipeline.



(** ** Names, deletion and cleaning up of sortings *)

Section SortingHousekeeping.
Context (ext : Collaborators) (lib : SortingLibrary).

Lemma string_app_assoc (a b c : string) : (a +:+ b) +:+ c = a +:+ (b +:+ c).
Proof.
  induction a as [|x a IH]; [done|].
  change (String x ((a +:+ b) +:+ c) = String x (a +:+ (b +:+ c))).
  by f_equal.
Qed.

Lemma string_app_length (a b : string) :
  String.length (a +:+ b) = (String.length a + String.length b)%nat.
Proof.
  induction a as [|x a IH]; [done|].
  change (S (String.length (a +:+ b))
          = S (String.length a + String.length b)).
  by f_equal.
Qed.

(** The sorting name, with the sorter and its parameters in hand. *)
Lemma get_sorting_name_eq key w sorter params :
  key !! "sorter" = Some (VStr sorter) →
  key !! "sorter_params_name" = Some (VStr params) →
  SpikeSorting._get_sorting_name lib key w =
  match _get_recording_name lib key w with
  | Returned name =>
      match key !! "artifact_removed_interval_list_name" with
      | Some (VStr list_name) =>
          (Returned (name +:+ "_" +:+ sorter +:+ "_" +:+ params +:+ "_"
                     +:+ list_name), w)
      | Some _ => (Raised TypeError "can only concatenate str to str", w)
      | None => (Raised KeyError "artifact_removed_interval_list_name", w)
      end
  | Raised e msg => (Raised e msg, w)
  | OutOfFuel => (OutOfFuel, w)
  end.
Proof.
  intros Hsorter Hparams. unfold SpikeSorting._get_sorting_name, ask, getitem.
  rewrite Hsorter, Hparams.
  cbv [mbind M_bind mret M_ret concat_str raise].
  destruct (_get_recording_name lib key w); [|done..].
  destruct (key !! "artifact_removed_interval_list_name") as [[]|]; try done.
  by rewrite !string_app_assoc.
Qed.

Lemma reads_environ_get name : reads (environ_get name).
Proof. intros w. unfold environ_get. by case_match. Qed.

Lemma reads_user_names members : reads (SpikeSorting.user_names lib members).
Proof.
  induction members as [|m rest IH]; simpl; [apply reads_ret|].
  apply reads_bind; [apply reads_ask|intros].
  apply reads_bind; [apply IH|intros]. apply reads_ret.
Qed.

Lemma reads_permissions user entries :
  reads (SpikeSorting.permissions lib user entries).
Proof.
  induction entries as [|entry rest IH]; simpl; [apply reads_ret|].
  apply reads_bind; [apply reads_ask|intros].
  apply reads_bind; [apply reads_ask|intros].
  apply reads_bind; [apply reads_user_names|intros].
  apply reads_bind; [apply IH|intros]. apply reads_ret.
Qed.

(** [permission_bool], entry by entry. *)
Lemma permissions_returned user : ∀ entries w perms w',
  SpikeSorting.permissions lib user entries w = (Returned perms, w') →
  Forall2 (λ entry (p : bool),
             if p then SpikeSorting.permitted lib user entry w
             else ¬ SpikeSorting.permitted lib user entry w)
    entries perms.
Proof.
  induction entries as [|entry rest IH]; intros w perms w' H; simpl in H.
  - injection H as <- _. constructor.
  - apply bind_returned in H as (team & w0 & Hteam & H).
    unfold ask in Hteam. injection Hteam as Hteam <-.
    apply bind_returned in H as (members & w0 & Hmembers & H).
    unfold ask in Hmembers. injection Hmembers as Hmembers <-.
    apply bind_returned in H as (names & w0 & Hnames & H).
    pose proof (reads_eq _ _ _ _ (reads_user_names _) Hnames) as ->.
    apply bind_returned in H as (rest' & w0 & Hrest & H).
    pose proof (reads_eq _ _ _ _ (reads_permissions _ _) Hrest) as ->.
    injection H as <- _. constructor; [|by eapply IH].
    case_bool_decide as Hin.
    + by exists team, members, names.
    + intros (team' & members' & names' & Hteam' & Hmembers' & Hnames' & Hin').
      congruence.
Qed.

Lemma permissions_total user : ∀ entries w,
  (∀ entry, entry ∈ entries → SpikeSorting.permitted lib user entry w) →
  ∃ perms, SpikeSorting.permissions lib user entries w = (Returned perms, w).
Proof.
  induction entries as [|entry rest IH]; intros w Hall; simpl.
  - by eexists.
  - destruct (Hall entry) as (team & members & names & Ht & Hm & Hn & _);
      [left|].
    destruct (IH w) as [perms Hperms]; [intros e He; apply Hall; by right|].
    rewrite bind_unfold. unfold ask at 1. rewrite Ht.
    rewrite bind_unfold. unfold ask at 1. rewrite Hm.
    rewrite bind_unfold, Hn. rewrite bind_unfold, Hperms. by eexists.
Qed.

Lemma np_sum_bounds perms :
  0 ≤ SpikeSorting.np_sum perms ≤ Z.of_nat (length perms).
Proof.
  induction perms as [|[] perms IH]; simpl SpikeSorting.np_sum;
    simpl length; lia.
Qed.

(** The sum of the flags is their number just when all are set. *)
Lemma np_sum_all perms :
  SpikeSorting.np_sum perms = Z.of_nat (length perms) ↔
  Forall (λ p, p = true) perms.
Proof.
  induction perms as [|p perms IH].
  - split; [constructor|done].
  - pose proof (np_sum_bounds perms) as Hb.
    destruct p; simpl SpikeSorting.np_sum; simpl length; split.
    + intros H. constructor; [done|]. apply IH. lia.
    + intros [_ H]%Forall_cons. apply IH in H. lia.
    + lia.
    + by intros [? _]%Forall_cons.
Qed.

End SortingHousekeeping.

(** X20.  The sorting name does not tell the sorter from its parameters:
    the parts are joined by underscores, so moving a part of the sorter's
    name across the underscore into the name of the parameters gives
    another key with the same sorting name, and [make] saves both sortings
    in the same folder. *)
Theorem sorting_name_collision
    (lib : SortingLibrary) (key : row) (a b c : string) (w : World) :
  let first := <["sorter" := VStr (a +:+ "_" +:+ b)]>
                 (<["sorter_params_name" := VStr c]> key) in
  let second := <["sorter" := VStr a]>
                  (<["sorter_params_name" := VStr (b +:+ "_" +:+ c)]> key) in
  _get_recording_name lib first w = _get_recording_name lib second w →
  first ≠ second ∧
  SpikeSorting._get_sorting_name lib first w
  = SpikeSorting._get_sorting_name lib second w.
Proof.
  cbv zeta. intros Hname. split.
  - intros Heq.
    apply (f_equal (λ k : row, k !! "sorter")) in Heq.
    rewrite !lookup_insert_eq in Heq. injection Heq as Heq.
    apply (f_equal String.length) in Heq.
    rewrite !string_app_length in Heq. simpl in Heq. lia.
  - rewrite (get_sorting_name_eq lib _ _ (a +:+ "_" +:+ b) c)
      by (by simplify_map_eq).
    rewrite (get_sorting_name_eq lib _ _ a (b +:+ "_" +:+ c))
      by (by simplify_map_eq).
    rewrite Hname, !lookup_insert_ne by done. clear Hname.
    destruct (_get_recording_name lib _ w) as [name|e msg|]; [|done..].
    destruct (key !! "artifact_removed_interval_list_name") as [[]|]; try done.
    by rewrite !string_app_assoc.
Qed.

Lemma sorting_name_collision_witness :
  let lib := SortingExamples.lib SortingExamples.no_artifacts in
  let first := <["sorter" := VStr ("mountainsort4" +:+ "_" +:+ "franklab")]>
                 (<["sorter_params_name" := VStr "tetrode"]>
                    SortingExamples.kilosort_key) in
  let second := <["sorter" := VStr "mountainsort4"]>
                  (<["sorter_params_name" :=
                       VStr ("franklab" +:+ "_" +:+ "tetrode")]>
                     SortingExamples.kilosort_key) in
  first ≠ second ∧
  SpikeSorting._get_sorting_name lib first (world [])
  = SpikeSorting._get_sorting_name lib second (world []).
Proof.
  cbv zeta.
  apply (sorting_name_collision
           (SortingExamples.lib SortingExamples.no_artifacts)
           SortingExamples.kilosort_key "mountainsort4" "franklab" "tetrode"
           (world [])).
  reflexivity.
Defined.

(** X21.  [SpikeSorting.delete] is all or nothing.  When the current user
    is found and is among the DataJoint users of the team of every entry
    selected, the call is the deletion of the base class.  In every other
    case (the user is missing from the team of some entry, or one of the
    lookups fails) the call does not return and has changed nothing. *)
Theorem delete_all_or_nothing
    (ext : Collaborators) (lib : SortingLibrary) (restriction : row)
    (w : World) :
  let out := SpikeSorting.delete ext lib restriction w in
  let entries := DataJoint.restrict ext T_SpikeSorting restriction w in
  let permission :=
    ∃ user, database_user lib w = Returned user ∧
            ∀ entry, entry ∈ entries → SpikeSorting.permitted lib user entry w in
  (permission → out = super_delete lib restriction w) ∧
  (¬ permission → returned out.1 = None ∧ out.2 = w).
Proof.
  cbv zeta.
  set (entries := DataJoint.restrict ext T_SpikeSorting restriction w).
  remember (SpikeSorting.delete ext lib restriction w) as out eqn:Hout.
  unfold SpikeSorting.delete in Hout. rewrite bind_unfold in Hout.
  unfold ask in Hout.
  destruct (database_user lib w) as [user|e msg|] eqn:Huser.
  2,3: subst out; split; [by intros (u & [=] & _)|by intros _].
  rewrite bind_unfold in Hout. fold entries in Hout.
  rewrite bind_unfold in Hout.
  pose proof (reads_permissions lib user entries w) as Hreads.
  destruct (SpikeSorting.permissions lib user entries w)
    as [[perms|e msg|] w0] eqn:Hperms; simpl in Hreads; subst w0.
  2,3: subst out; split; [|by intros _];
       intros (u & [= <-] & Hall);
       destruct (permissions_total lib user entries w Hall) as [perms Hp];
       congruence.
  pose proof (permissions_returned lib user entries w perms w Hperms) as Hrel.
  pose proof (Forall2_length _ _ _ Hrel) as Hlen.
  assert ((∀ entry, entry ∈ entries → SpikeSorting.permitted lib user entry w)
          ↔ Forall (λ p, p = true) perms) as Hall.
  { clear -Hrel. induction Hrel as [|entry p entries perms Hp Hrel IH].
    - split; [constructor|]. by intros _ e He%elem_of_nil.
    - rewrite Forall_cons, <- IH. split.
      + intros H. split.
        * destruct p; [done|]. exfalso. apply Hp, H. by left.
        * intros e He. apply H. by right.
      + intros [-> H] e [->|He]%elem_of_cons; [done|by apply H]. }
  rewrite <- np_sum_all, <- Hlen in Hall.
  destruct (SpikeSorting.np_sum perms =? Z.of_nat (length entries)) eqn:Hsum.
  - apply Z.eqb_eq in Hsum. split; [done|].
    intros Hno. exfalso. apply Hno. exists user. split; [done|].
    by apply Hall.
  - apply Z.eqb_neq in Hsum. subst out. split; [|by intros _].
    intros (u & [= <-] & Hgranted). by apply Hall in Hgranted.
Qed.

(** X22.  [nightly_cleanup] removes nothing.  It asks the table for the
    column [analysis_file_name], which [SpikeSorting] does not have, so
    every call fails, at the latest there, before a single folder has been
    removed. *)
Theorem nightly_cleanup_removes_nothing
    (ext : Collaborators) (lib : SortingLibrary) (w : World) :
  "analysis_file_name" ∉ SpikeSorting_pk ext →
  let out := SpikeSorting.nightly_cleanup ext lib w in
  returned out.1 = None ∧ out.2 = w.
Proof.
  intros Hpk. cbv zeta.
  remember (SpikeSorting.nightly_cleanup ext lib w) as out eqn:Hout.
  unfold SpikeSorting.nightly_cleanup in Hout.
  rewrite bind_unfold in Hout. unfold environ_get at 1 in Hout.
  destruct (environ w !! "NWB_DATAJOINT_SORTING_DIR") as [dir|];
    [|by subst out].
  rewrite bind_unfold in Hout. unfold ask in Hout.
  destruct (subdirectories lib dir w) as [dir_names|e msg|];
    [|by subst out..].
  rewrite bind_unfold in Hout. unfold SpikeSorting.fetch_attr in Hout.
  rewrite bool_decide_eq_false_2 in Hout; [by subst out|].
  unfold DataJoint.heading. simpl. set_solver.
Qed.

Lemma nightly_cleanup_removes_nothing_witness :
  let out := SpikeSorting.nightly_cleanup ext
               (SortingExamples.lib SortingExamples.no_artifacts) (world []) in
  returned out.1 = None ∧ out.2 = world [].
Proof.
  cbv zeta.
  apply (nightly_cleanup_removes_nothing ext
           (SortingExamples.lib SortingExamples.no_artifacts) (world [])).
  by_evaluation.
Defined.

(** ** Names of waveforms and metrics, metrics files, default parameters *)

Section Names.

Lemma string_app_nil_r (s : string) : s +:+ "" = s.
Proof.
  induction s as [|x s IH]; [done|].
  change (String x (s +:+ "") = String x s). by f_equal.
Qed.

(** Appending the same suffix to different strings gives different
    strings. *)
Lemma string_app_inj_r (t s1 s2 : string) : s1 +:+ t = s2 +:+ t → s1 = s2.
Proof.
  revert s2. induction s1 as [|x s1 IH]; intros [|y s2] H.
  - done.
  - apply (f_equal String.length) in H.
    change (String.length t = S (String.length (s2 +:+ t))) in H.
    rewrite string_app_length in H. lia.
  - apply (f_equal String.length) in H.
    change (S (String.length (s1 +:+ t)) = String.length t) in H.
    rewrite string_app_length in H. lia.
  - change (String x (s1 +:+ t) = String y (s2 +:+ t)) in H.
    injection H as -> H. f_equal. by apply IH.
Qed.

Lemma get_quality_metrics_name_eq key w :
  QualityMetrics._get_quality_metrics_name key w =
  match key !! "curation_id" with
  | Some (VStr id) => (Returned (id +:+ "_waveform" +:+ "_qm"), w)
  | Some _ => (Raised TypeError "unsupported operand type(s) for +", w)
  | None => (Raised KeyError "curation_id", w)
  end.
Proof.
  unfold QualityMetrics._get_quality_metrics_name,
    Waveforms._get_waveform_extractor_name, getitem.
  cbv [mbind M_bind mret M_ret raise].
  destruct (key !! "curation_id") as [[]|]; try done.
  by rewrite string_app_assoc.
Qed.

End Names.

(** X23.  The name of a metrics file is made from the [curation_id] of the
    key and from nothing else: two keys get the same name just when they
    have the same curation id, whatever their waveform and metric
    parameters are. *)
Theorem quality_metrics_name_by_curation
    (key key' : row) (w : World) (name name' : string) :
  QualityMetrics._get_quality_metrics_name key w = (Returned name, w) →
  QualityMetrics._get_quality_metrics_name key' w = (Returned name', w) →
  (name = name' ↔ key !! "curation_id" = key' !! "curation_id").
Proof.
  rewrite !get_quality_metrics_name_eq.
  destruct (key !! "curation_id") as [[]|]; try discriminate.
  destruct (key' !! "curation_id") as [[]|]; try discriminate.
  intros [= <-] [= <-]. split.
  - intros H. by apply string_app_inj_r in H as ->.
  - by intros [= ->].
Qed.

Lemma quality_metrics_name_by_curation_witness :
  ("C_deadbeef_waveform_qm" = "C_deadbeef_waveform_qm" ↔
   auto_key !! "curation_id"
   = (<["metric_params_name" := VStr "other"]> auto_key) !! "curation_id").
Proof.
  apply (quality_metrics_name_by_curation auto_key
           (<["metric_params_name" := VStr "other"]> auto_key) (world []));
    by_evaluation.
Defined.

Section MetricsFiles.

(** Filling a dict under stringified keys: with keys that stay distinct,
    every item is found under its key, and nothing else is added. *)
Lemma fold_insert_lookup {V W} (g : V → W) (items : list (pykey * V)) :
  ∀ (m : gmap string W),
    let m' := fold_left (λ m '(key, value), <[str_key key := g value]> m)
                items m in
    (NoDup (str_key <$> items.*1) →
     ∀ key value, (key, value) ∈ items →
                  m' !! str_key key = Some (g value)) ∧
    (∀ name, name ∉ str_key <$> items.*1 → m' !! name = m !! name).
Proof.
  induction items as [|[k v] items IH]; intros m; cbv zeta; simpl.
  - split; [by intros _ key value H%elem_of_nil|done].
  - destruct (IH (<[str_key k := g v]> m)) as [Hin Hout]. cbv zeta in Hin, Hout.
    split.
    + intros [Hk Hnodup]%NoDup_cons key value [[= -> ->]|H]%elem_of_cons.
      * rewrite (Hout _ Hk). apply lookup_insert_eq.
      * by apply Hin.
    + intros name [Hne Hname]%not_elem_of_cons.
      rewrite (Hout _ Hname). by rewrite lookup_insert_ne.
Qed.

Lemma stringify_lookup (value : metric_dict) :
  (NoDup (str_key <$> value.*1) →
   ∀ unit_id v, (unit_id, v) ∈ value →
                QualityMetrics.stringify value !! str_key unit_id = Some v) ∧
  (∀ name, name ∉ str_key <$> value.*1 →
           QualityMetrics.stringify value !! name = None).
Proof.
  destruct (fold_insert_lookup (λ v : Z, v) value ∅) as [Hin Hout].
  split; [exact Hin|]. intros name Hname.
  unfold QualityMetrics.stringify.
  cbv zeta in Hout. by rewrite (Hout name Hname).
Qed.

End MetricsFiles.

(** X24.  What [_dump_to_json] writes, [json.load] reads back with every
    key turned into a string.  For metrics whose names, and whose unit ids
    within one metric, stay distinct as strings, the file read back holds
    each value under [str] of the metric name and [str] of the unit id, and
    holds no other metric; the other metrics files are untouched. *)
Theorem dump_then_load
    (qm_dict : list (pykey * metric_dict)) (save_path : string) (w : World) :
  NoDup (str_key <$> qm_dict.*1) →
  let w' := (QualityMetrics._dump_to_json qm_dict save_path w).2 in
  ∃ loaded,
    json_load (VStr save_path) w' = (Returned (VMetrics loaded), w') ∧
    (∀ metric_name value, (metric_name, value) ∈ qm_dict →
       ∃ m, loaded !! str_key metric_name = Some m ∧
            (∀ name, name ∉ str_key <$> value.*1 → m !! name = None) ∧
            (NoDup (str_key <$> value.*1) →
             ∀ unit_id v, (unit_id, v) ∈ value →
                          m !! str_key unit_id = Some v)) ∧
    (∀ name, name ∉ str_key <$> qm_dict.*1 → loaded !! name = None) ∧
    (∀ path, path ≠ save_path → json_files w' !! path = json_files w !! path) ∧
    db w' = db w ∧ folders w' = folders w.
Proof.
  intros Hnodup. cbv zeta.
  unfold QualityMetrics._dump_to_json, modify. cbv zeta. cbn [snd].
  eexists. split.
  { unfold json_load. cbn [json_files with_json_files].
    by rewrite lookup_insert_eq. }
  destruct (fold_insert_lookup QualityMetrics.stringify qm_dict ∅)
    as [Hin Hout]. cbv zeta in Hin, Hout.
  split.
  { intros metric_name value Hitem. eexists.
    split; [by apply Hin|].
    destruct (stringify_lookup value) as [Hv Hnone]. by split. }
  split; [intros name Hname; by rewrite (Hout name Hname)|].
  split; [|done].
  intros path Hpath. cbn [json_files with_json_files].
  by rewrite lookup_insert_ne.
Qed.

Lemma dump_then_load_witness :
  let qm := [(KStr "snr", [(KInt 1, 2); (KInt 2, 7)]);
             (KStr "isi_violation", [(KStr "1", 0); (KStr "2", 1)])] in
  let w' := (QualityMetrics._dump_to_json qm "/waveforms/new.json"
               (world [])).2 in
  ∃ loaded,
    json_load (VStr "/waveforms/new.json") w' = (Returned (VMetrics loaded), w') ∧
    (∀ metric_name value, (metric_name, value) ∈ qm →
       ∃ m, loaded !! str_key metric_name = Some m ∧
            (∀ name, name ∉ str_key <$> value.*1 → m !! name = None) ∧
            (NoDup (str_key <$> value.*1) →
             ∀ unit_id v, (unit_id, v) ∈ value →
                          m !! str_key unit_id = Some v)) ∧
    (∀ name, name ∉ str_key <$> qm.*1 → loaded !! name = None) ∧
    (∀ path, path ≠ "/waveforms/new.json" →
             json_files w' !! path = json_files (world []) !! path) ∧
    db w' = db (world []) ∧ folders w' = folders (world []).
Proof.
  cbv zeta.
  apply (dump_then_load
           [(KStr "snr", [(KInt 1, 2); (KInt 2, 7)]);
            (KStr "isi_violation", [(KStr "1", 0); (KStr "2", 1)])]
           "/waveforms/new.json" (world [])).
  by_evaluation.
Defined.

Section DefaultParameters.
Context (ext : Collaborators).
Import AutomaticCurationParameters.

Lemma default_row_positional w :
  positional ext T_AutomaticCurationParameters
    [VStr "default"; VParams ∅; VParams ∅] w = (Returned default_row, w).
Proof.
  unfold positional, DataJoint.heading. simpl. reflexivity.
Qed.

Lemma default_row_stored :
  DataJoint.stored ext T_AutomaticCurationParameters default_row = default_row.
Proof.
  unfold DataJoint.stored, default_row. simpl.
  apply map_eq. intros a.
  destruct (decide (a = "auto_curation_params_name")) as [->|H1];
    [by simplify_map_eq|].
  destruct (decide (a = "merge_params")) as [->|H2]; [by simplify_map_eq|].
  destruct (decide (a = "label_params")) as [->|H3]; [by simplify_map_eq|].
  by simplify_map_eq.
Qed.

Lemma named_default_filter w :
  List.filter
    (DataJoint.agrees (DataJoint.primary_key ext T_AutomaticCurationParameters)
       default_row)
    (rows w T_AutomaticCurationParameters) = [] ↔
  ¬ named "default" w.
Proof.
  unfold named. split.
  - intros Hnone (r & Hr & Hname).
    assert (In r (List.filter
                    (DataJoint.agrees
                       (DataJoint.primary_key ext T_AutomaticCurationParameters)
                       default_row)
                    (rows w T_AutomaticCurationParameters))) as Hin;
      [|by rewrite Hnone in Hin].
    apply filter_In. split; [by apply list_elem_of_In|].
    simpl. unfold DataJoint.agrees, default_row. simpl.
    rewrite lookup_insert_eq. by rewrite bool_decide_eq_true_2.
  - intros Hno. apply filter_none. intros r Hr.
    destruct (DataJoint.agrees _ default_row r) eqn:Hag; [exfalso|done].
    apply Hno. exists r. split; [done|].
    apply (agrees_lookup _ _ _ "auto_curation_params_name" (VStr "default") Hag).
    + simpl. by left.
    + unfold default_row. by simplify_map_eq.
Qed.

Lemma insert_default_eq w :
  insert_default ext w =
  (Returned tt,
   if bool_decide
        (List.filter
           (DataJoint.agrees
              (DataJoint.primary_key ext T_AutomaticCurationParameters)
              default_row)
           (rows w T_AutomaticCurationParameters) = [])
   then with_rows T_AutomaticCurationParameters
          (rows w T_AutomaticCurationParameters ++ [default_row]) w
   else w).
Proof.
  unfold insert_default. cbv zeta.
  rewrite (bind_step _ _ _ _ _ (default_row_positional w)).
  unfold insert1_skip_duplicates.
  replace (DataJoint.check_row ext T_AutomaticCurationParameters default_row)
    with (@None (exn_class * string)) by (symmetry; by_evaluation).
  unfold DataJoint.has_parents. simpl forallb. cbv iota.
  case_bool_decide; [|done]. by rewrite default_row_stored.
Qed.

End DefaultParameters.

(** X25.  [AutomaticCurationParameters.insert_default] always returns and
    never replaces anything.  When the table has a row named "default",
    whatever its parameters, the call changes nothing; otherwise it adds
    the row with empty [merge_params] and [label_params] at the end.  A
    second call changes nothing. *)
Theorem insert_default_keeps_existing (ext : Collaborators) (w : World) :
  let out := AutomaticCurationParameters.insert_default ext w in
  out.1 = Returned tt ∧
  (AutomaticCurationParameters.named "default" w → out.2 = w) ∧
  (¬ AutomaticCurationParameters.named "default" w →
   out.2 = with_rows T_AutomaticCurationParameters
             (rows w T_AutomaticCurationParameters ++
                [AutomaticCurationParameters.default_row]) w) ∧
  AutomaticCurationParameters.named "default" out.2 ∧
  AutomaticCurationParameters.insert_default ext out.2 = (Returned tt, out.2).
Proof.
  cbv zeta. rewrite insert_default_eq. cbn [fst snd].
  assert (∀ w0, AutomaticCurationParameters.named "default" w0 →
            AutomaticCurationParameters.insert_default ext w0
            = (Returned tt, w0)) as Hkeep.
  { intros w0 H0. rewrite insert_default_eq.
    rewrite bool_decide_eq_false_2; [done|].
    rewrite named_default_filter. tauto. }
  case_bool_decide as Hnew.
  - apply named_default_filter in Hnew.
    assert (AutomaticCurationParameters.named "default"
              (with_rows T_AutomaticCurationParameters
                 (rows w T_AutomaticCurationParameters ++
                    [AutomaticCurationParameters.default_row]) w))
      as Hnamed.
    { exists AutomaticCurationParameters.default_row. rewrite rows_with_rows. split.
      - apply elem_of_app. right. by left.
      - unfold AutomaticCurationParameters.default_row. by simplify_map_eq. }
    repeat split; try done. by apply Hkeep.
  - assert (AutomaticCurationParameters.named "default" w) as Hnamed.
    { destruct (decide (List.filter
                  (DataJoint.agrees
                     (DataJoint.primary_key ext T_AutomaticCurationParameters)
                     AutomaticCurationParameters.default_row)
                  (rows w T_AutomaticCurationParameters) = [])); [done|].
      destruct (List.filter _ _) as [|r rest] eqn:Hf; [done|].
      assert (In r (List.filter
                      (DataJoint.agrees
                         (DataJoint.primary_key ext
                            T_AutomaticCurationParameters)
                         AutomaticCurationParameters.default_row)
                      (rows w T_AutomaticCurationParameters))) as Hin
        by (rewrite Hf; by left).
      apply filter_In in Hin as [Hin Hag].
      exists r. split; [by apply list_elem_of_In|].
      apply (agrees_lookup _ _ _ "auto_curation_params_name" (VStr "default")
               Hag); [simpl; by left|].
      unfold AutomaticCurationParameters.default_row. by simplify_map_eq. }
    repeat split; try done. by apply Hkeep.
Qed.

(** ** The metrics of a round of automatic curation *)

Section MetricsOfTheRound.
Context (ext : Collaborators).

Lemma fetch1_two t key w a r1 r2 before between after :
  rows w t = before ++ r1 :: between ++ r2 :: after →
  DataJoint.agrees (DataJoint.heading ext t) key r1 = true →
  DataJoint.agrees (DataJoint.heading ext t) key r2 = true →
  DataJoint.fetch1 ext t key a w
  = (Raised DataJointError "fetch1 should only return one tuple", w).
Proof.
  intros Hrows H1 H2. unfold DataJoint.fetch1, DataJoint.fetch1_row.
  rewrite bind_unfold. unfold DataJoint.restrict. rewrite Hrows.
  rewrite List.filter_app. simpl. rewrite H1.
  rewrite List.filter_app. simpl. rewrite H2.
  destruct (List.filter _ before) as [|x [|y l]]; simpl; try done.
  by destruct (List.filter _ between).
Qed.

End MetricsOfTheRound.

(** X26.  [AutomaticCuration.make] looks its metrics up by the file and by
    the names of the waveform and metric parameters alone: [recording_id]
    and [sorting_id] are no attributes of [QualityMetrics], and the
    curation of the key is not asked for.  With the metrics of two
    curations of one file under the same parameters in the table, [fetch1]
    finds two rows and [make] fails, before anything is written. *)
Theorem make_needs_one_metrics_row
    (ext : Collaborators) (fuel : nat) (key : row) (w : World)
    (nwb_file_name recording_id waveform_params_name metric_params_name
     parent_sorting_id : pyval)
    (r1 r2 : row) (before between after : list row) :
  key !! "nwb_file_name" = Some nwb_file_name →
  key !! "recording_id" = Some recording_id →
  key !! "waveform_params_name" = Some waveform_params_name →
  key !! "metric_params_name" = Some metric_params_name →
  key !! "parent_sorting_id" = Some parent_sorting_id →
  Forall (λ a, a ∉ ["recording_id"; "sorting_id"]) (SpikeSorting_pk ext) →
  rows w T_QualityMetrics = before ++ r1 :: between ++ r2 :: after →
  Forall (λ r : row,
            r !! "nwb_file_name" = Some nwb_file_name ∧
            r !! "waveform_params_name" = Some waveform_params_name ∧
            r !! "metric_params_name" = Some metric_params_name) [r1; r2] →
  AutomaticCuration.make ext fuel key w
  = (Raised DataJointError "fetch1 should only return one tuple", w).
Proof.
  intros Hfile Hrec Hwave Hmetric Hsorting Hpk Hrows Hagree.
  rewrite Forall_forall in Hpk.
  unfold AutomaticCuration.make, AutomaticCuration.load_round.
  unfold getitem. rewrite Hfile, Hrec, Hwave, Hmetric, Hsorting.
  rewrite bind_unfold.
  do 5 (rewrite (bind_step _ _ w _ w) by done).
  assert (∀ r : row,
            r ∈ [r1; r2] →
            DataJoint.agrees (DataJoint.heading ext T_QualityMetrics)
              (<["nwb_file_name" := nwb_file_name]>
               (<["recording_id" := recording_id]>
                (<["waveform_params_name" := waveform_params_name]>
                 (<["metric_params_name" := metric_params_name]>
                  {["sorting_id" := parent_sorting_id]})))) r = true) as Hag.
  { intros r Hr. rewrite Forall_forall in Hagree.
    destruct (Hagree r Hr) as (Hf & Hw & Hm).
    apply agrees_true. intros a v Ha Hv.
    destruct (decide (a = "nwb_file_name")) as [->|?]; [by simplify_map_eq|].
    destruct (decide (a = "waveform_params_name")) as [->|?];
      [by simplify_map_eq|].
    destruct (decide (a = "metric_params_name")) as [->|?];
      [by simplify_map_eq|].
    exfalso.
    assert (a = "recording_id" ∨ a = "sorting_id") as Hno.
    { destruct (decide (a = "recording_id")) as [->|?]; [by left|].
      destruct (decide (a = "sorting_id")) as [->|?]; [by right|].
      by simplify_map_eq. }
    unfold DataJoint.heading in Ha. simpl in Ha.
    assert (a ∈ SpikeSorting_pk ext) as Hin
      by (clear -Ha Hno; destruct Hno as [-> | ->]; set_solver).
    apply Hpk in Hin. clear -Hin Hno. set_solver. }
  rewrite bind_unfold.
  rewrite (fetch1_two ext T_QualityMetrics _ w _ r1 r2 before between after);
    [done|done|apply Hag; set_solver|apply Hag; set_solver].
Qed.

Lemma make_needs_one_metrics_row_witness :
  AutomaticCuration.make ext 5 auto_key MetricsExamples.two_metrics_world
  = (Raised DataJointError "fetch1 should only return one tuple",
     MetricsExamples.two_metrics_world).
Proof.
  apply (make_needs_one_metrics_row ext 5 auto_key
           MetricsExamples.two_metrics_world
           (VStr "day1.nwb") (VStr "R_1") (VStr "default")
           (VStr "franklab_default") (VStr "S_1")
           (default ∅ (rows MetricsExamples.two_metrics_world
                         T_QualityMetrics !! 0%nat))
           (default ∅ (rows MetricsExamples.two_metrics_world
                         T_QualityMetrics !! 1%nat))
           [] [] []); by_evaluation.
Defined.

(** ** The parent id of a curation *)

Section ParentId.
Context (ext : Collaborators).

Lemma find_unique {A} (p : A → bool) (l : list A) (a : A) :
  In a l → p a = true → (∀ x, In x l → p x = true → x = a) →
  List.find p l = Some a.
Proof.
  induction l as [|x l IH]; intros Hin Hp Hu; [done|]. simpl.
  destruct (p x) eqn:Hx.
  - f_equal. apply Hu; [by left|done].
  - destruct Hin as [->|Hin]; [congruence|].
    apply IH; [done..|]. intros y Hy. apply Hu. by right.
Qed.

(** A row that passes the checks with one parent id fails them at the
    parent id when it is given one of more than ten characters. *)
Lemma check_row_long_parent key id parent s labels groups metrics descr :
  (10 < String.length s)%nat →
  DataJoint.check_row ext T_Curation
    (new_row key id parent labels groups metrics descr) = None →
  DataJoint.check_row ext T_Curation
    (new_row key id (VStr s) labels groups metrics descr)
  = Some (DataError, "parent_curation_id").
Proof.
  intros Hlen. unfold DataJoint.check_row.
  destruct (find _ (DataJoint.required ext T_Curation)) as [a|] eqn:E1;
    [discriminate|].
  destruct (find (DataJoint.ill_typed _) _) as [a|] eqn:E2; [discriminate|].
  intros _.
  assert (new_row key id (VStr s) labels groups metrics descr
            !! "parent_curation_id" = Some (VStr s)) as Hparent
    by (unfold new_row; by simplify_map_eq).
  destruct (find (λ a, bool_decide
                         (new_row key id (VStr s) labels groups metrics descr
                            !! a = None))
              (DataJoint.required ext T_Curation)) as [a|] eqn:E3.
  { exfalso. apply find_some in E3 as [Hin E3].
    apply bool_decide_eq_true_1 in E3.
    eapply find_none in E1; [|exact Hin]. simpl in E1.
    apply bool_decide_eq_false_1 in E1. apply E1.
    rewrite (new_row_reparent _ _ parent (VStr s)); [done|].
    intros ->. congruence. }
  rewrite (find_unique _ _ "parent_curation_id"); [done| | |].
  - apply list_elem_of_In. unfold DataJoint.heading. apply elem_of_app. right.
    simpl. left.
  - unfold DataJoint.ill_typed. rewrite Hparent.
    change (DataJoint.declared_type "parent_curation_id")
      with (Some (Varchar 10)).
    cbv beta iota. unfold DataJoint.fits.
    rewrite bool_decide_eq_false_2; [done|lia].
  - intros a Hin Ha.
    destruct (decide (a = "parent_curation_id")) as [->|Hne]; [done|].
    exfalso. eapply find_none in E2; [|exact Hin].
    unfold DataJoint.ill_typed in Ha, E2.
    rewrite (new_row_reparent _ _ parent (VStr s)) in E2 by done.
    congruence.
Qed.

End ParentId.

(** X27.  [insert_curation] does not look the parent id up in the ledger:
    an insert that gets through with one parent id gets through with any
    other that fits the column, a string of ten characters at most, and the
    record it adds carries the id it was given.  With a parent id of more
    than ten characters the same insert is refused by the database, and no
    record is added. *)
Theorem insert_curation_parent_not_looked_up
    (ext : Collaborators) (fuel : nat) (key : row)
    (parent parent' labels groups metrics descr : pyval) (w : World) :
  "parent_curation_id" ∉ SpikeSorting_pk ext →
  DataJoint.fits (Varchar 10) parent' = true →
  returns (Curation.insert_curation ext fuel key parent labels groups metrics
             descr w) →
  let insert p :=
    Curation.insert_curation ext fuel key p labels groups metrics descr w in
  returns (insert parent') ∧
  (∃ r, rows (insert parent').2 T_Curation = rows w T_Curation ++ [r] ∧
        r !! "parent_curation_id" = Some parent') ∧
  (∀ s, (10 < String.length s)%nat →
        (insert (VStr s)).1 = Raised DataError "parent_curation_id" ∧
        rows (insert (VStr s)).2 T_Curation = rows w T_Curation).
Proof.
  intros Hpk Hfit Hret. cbv zeta.
  pose proof (insert_curation_any_parent ext fuel key parent parent' labels
                groups metrics descr w Hpk Hfit Hret) as Hret'.
  split; [done|].
  revert Hret Hret'. rewrite !insert_curation_eq.
  destruct (Curation.generate_unique_id ext fuel w) as [[id|c msg|] w1] eqn:Hid;
    [|no_return..].
  pose proof (generate_unique_id_db _ _ _ _ _ Hid) as Hdb.
  cbv zeta. intros Hret Hret'. split.
  - destruct (DataJoint.insert1 _ _ (new_row _ _ parent' _ _ _ _) w1)
      as [[u|c msg|] w2] eqn:Hins;
      [|exfalso; destruct Hret' as [? Hx]; simpl in Hx; discriminate..].
    apply insert1_returned in Hins. subst w2. simpl.
    eexists. rewrite rows_with_rows. split.
    + unfold rows. by rewrite Hdb.
    + apply stored_dependent; [simpl; left|].
      unfold new_row. by simplify_map_eq.
  - intros s Hlen. rewrite insert_curation_eq, Hid. cbv zeta.
    assert (DataJoint.check_row ext T_Curation
              (new_row key id parent labels groups metrics descr) = None)
      as Hcheck.
    { revert Hret. unfold DataJoint.insert1.
      destruct (DataJoint.check_row _ _ _) as [[c a]|]; [no_return|done]. }
    unfold DataJoint.insert1.
    rewrite (check_row_long_parent ext _ _ parent s) by done.
    simpl. split; [done|]. unfold rows. by rewrite Hdb.
Qed.

Lemma insert_curation_parent_not_looked_up_witness :
  let insert p :=
    Curation.insert_curation ext 5 sorting_key p VNone VNone VNone (VStr "")
      (world []) in
  returns (insert (VStr "C_0badc0de")) ∧
  (∃ r, rows (insert (VStr "C_0badc0de")).2 T_Curation
        = rows (world []) T_Curation ++ [r] ∧
        r !! "parent_curation_id" = Some (VStr "C_0badc0de")) ∧
  (insert (VStr "C_0badc0de_1")).1 = Raised DataError "parent_curation_id".
Proof.
  cbv zeta.
  destruct (insert_curation_parent_not_looked_up ext 5 sorting_key
              Curation.original (VStr "C_0badc0de") VNone VNone VNone (VStr "")
              (world [])) as (Hret & Hrow & Hlong); [by_evaluation..|].
  split; [exact Hret|]. split; [exact Hrow|].
  apply (Hlong "C_0badc0de_1"). by_evaluation.
Defined.
